(** * allo_list_matching: master matching and cumulative replacement ledger

    A shallow embedding of the matching engine of
    [index検索対応版週次マスタ更新処理.py] (normalisation, index lookup, weight
    band, similarity ranking, report filter) and of the ledger merger of
    [テストスクリプト/週次統合リスト作成.py] and [統合スクリプト.py]
    (JAN canonicalisation, priority merge), followed by the properties
    proved about them. Parts III to VI add the candidate sheet
    ([create_candidate_sheet_data]), the column names after
    [normalize_columns], and further properties of the matcher and of
    the merge.

    Conventions.
    - A Python [str] is the list of its code points ([pystr]).
    - A DataFrame is the list of its rows, in row order; a column that is
      missing from a file is a column of missing values.
    - A Python [float] is a binary64 primitive float.
    - An exception leaving a function is the [Raise] case of [res].
    - [fuzz.ratio], Python's [float()] on text and [pd.to_numeric] on text
      are not code of this repository: they are section variables.
    - Where a function uses the row labels of a frame, the frame is the
      list of its rows with their labels; where it uses the column names,
      the frame is the list of its named columns.
    - A frame with an index is the map from each label to its rows. On the
      frame indexed by maker name and type, a pair that is not in the index
      is read by pandas as a row label and a column label: the column
      labels of that frame are the parameter [old_columns]. *)

From Stdlib Require Import ZArith NArith List String Ascii Bool Lia Floats Permutation.
From stdpp Require Import base decidable option list gmap.
Import ListNotations.

(* 0.8 and 1.2 are read as the nearest binary64 values, as Python reads them. *)
#[global] Set Warnings "-inexact-float".

Local Open Scope N_scope.

(* ===================================================================== *)
(** * Part I. Definitions                                                *)
(* ===================================================================== *)

(** ** Python strings *)

Module PyStr.

Abbreviation pystr := (list N).

(** Decoder used to write string constants legibly: the UTF-8 bytes of a
    literal are turned into code points. *)
Fixpoint utf8_go (pending : nat) (acc : N) (bs : list N) : pystr :=
  match bs with
  | [] => []
  | b :: bs' =>
      match pending with
      | O =>
          if b <? 128 then b :: utf8_go 0 0 bs'
          else if b <? 224 then utf8_go 1 (b - 192) bs'
          else if b <? 240 then utf8_go 2 (b - 224) bs'
          else utf8_go 3 (b - 240) bs'
      | S O => (acc * 64 + (b - 128)) :: utf8_go 0 0 bs'
      | S p => utf8_go p (acc * 64 + (b - 128)) bs'
      end
  end.

Definition lit (s : string) : pystr :=
  utf8_go 0 0 (List.map N_of_ascii (list_ascii_of_string s)).

(** [str.isspace] of one character (Unicode 14, as CPython 3.11 has it). *)
Definition isspace (c : N) : bool :=
  ((9 <=? c) && (c <=? 13)) || ((28 <=? c) && (c <=? 32))
  || (c =? 133) || (c =? 160) || (c =? 5760)
  || ((8192 <=? c) && (c <=? 8202))
  || (c =? 8232) || (c =? 8233) || (c =? 8239) || (c =? 8287) || (c =? 12288).

Fixpoint lstrip (s : pystr) : pystr :=
  match s with
  | c :: s' => if isspace c then lstrip s' else s
  | [] => []
  end.

Definition rstrip (s : pystr) : pystr := rev (lstrip (rev s)).

(** [str.strip()] with no argument. *)
Definition strip (s : pystr) : pystr := rstrip (lstrip s).

(** The code points of the digit zero of every Unicode decimal-digit
    block: a character is matched by the regex class [\d] when it lies in
    one of the ten-character runs starting here (Unicode 14). *)
Definition decimal_zeros : list N :=
  [48; 1632; 1776; 1984; 2406; 2534; 2662; 2790; 2918; 3046; 3174; 3302;
   3430; 3558; 3664; 3792; 3872; 4160; 4240; 6112; 6160; 6470; 6608; 6784;
   6800; 6992; 7088; 7232; 7248; 42528; 43216; 43264; 43472; 43504; 43600;
   44016; 65296; 66720; 68912; 69734; 69872; 69942; 70096; 70384; 70736;
   70864; 71248; 71360; 71472; 71904; 72016; 72784; 73040; 73120; 92768;
   92864; 93008; 120782; 120792; 120802; 120812; 120822; 123200; 123632;
   125264; 130032].

(** [\d]: a Unicode decimal digit; [\D] is its complement. *)
Definition isdecimal (c : N) : bool :=
  existsb (fun z => (z <=? c) && (c <? z + 10)) decimal_zeros.

(** [str.zfill(width)] on a string without a sign: left padding with the
    character 0. *)
Definition zfill (width : nat) (s : pystr) : pystr :=
  repeat 48 (width - length s) ++ s.

(** Lower-casing as the regex engine applies it under IGNORECASE, on the
    characters that can meet an ASCII letter: A..Z, and the Kelvin sign
    (U+212A), whose lower case is k. *)
Definition sre_lower (c : N) : N :=
  if (65 <=? c) && (c <=? 90) then c + 32
  else if c =? 8490 then 107
  else c.

Fixpoint starts_with (p s : pystr) : bool :=
  match p, s with
  | [], _ => true
  | _ :: _, [] => false
  | a :: p', b :: s' => (a =? b) && starts_with p' s'
  end.

(** [re.search] of a literal pattern. *)
Fixpoint search_literal (p s : pystr) : bool :=
  starts_with p s ||
  match s with
  | [] => false
  | _ :: s' => search_literal p s'
  end.

(** [re.search] of an alternation of literals, case-insensitively. *)
Definition search_any_ci (pats : list pystr) (s : pystr) : bool :=
  existsb (fun p => search_literal (List.map sre_lower p) (List.map sre_lower s)) pats.

End PyStr.
Import PyStr.

(** ** Cells of a DataFrame *)

(** A cell of a text column. [CStr s] is a value whose [str()] is [s];
    [CNaN] is the float NaN pandas leaves for an empty field; [CNA] is
    [pd.NA]. *)
Inductive cell : Type :=
| CNaN
| CNA
| CStr (s : pystr).

(** A cell of the weight column (目付). *)
Inductive wcell : Type :=
| WNA                 (* pd.NA *)
| WNum (f : float)    (* a number; the float NaN is the missing number *)
| WText (s : pystr).  (* text, as in a column that also held 'NULL' *)

(** [pd.isna] / [pd.notna] on a text cell. *)
Definition isna (c : cell) : bool :=
  match c with CStr _ => false | _ => true end.
Definition notna (c : cell) : bool := negb (isna c).

(** [pd.notna] on a weight cell. *)
Definition notna_w (w : wcell) : bool :=
  match w with
  | WNA => false
  | WNum f => negb (PrimFloat.is_nan f)
  | WText _ => true
  end.

(** [str(x)] / [astype(str)]: a missing value becomes text. *)
Definition astype_str (c : cell) : pystr :=
  match c with
  | CNaN => lit "nan"
  | CNA => lit "<NA>"
  | CStr s => s
  end.

(** The value under which pandas groups a cell in [drop_duplicates], [isin]
    and [set(... .dropna())]: all missing values are one key. *)
Definition cell_key (c : cell) : option pystr :=
  match c with CStr s => Some s | _ => None end.

(** Elementwise [==] between cells as a row mask: a missing value equals
    nothing. *)
Definition cell_eqb (a b : cell) : bool :=
  match a, b with
  | CStr s, CStr t => bool_decide (s = t)
  | _, _ => false
  end.

(** ** Exceptions *)

(** [KeyError] and [IndexError] are Python's. [NotFollowed] is no exception
    of Python: it stands where the embedding stops following the program,
    which goes on there with a frame that holds one column of the old
    master as its single row and finds in it the column it reads next (see
    [Matcher.loc_pair] and [Matcher.read_columns]). That takes an old master
    in which a type code is the text 目付_旧_float, 商品名称（カナ）_旧 or
    JANコード_旧. Nothing is stated about what the program does from there
    on. *)
Inductive exn : Type := KeyError | IndexError | NotFollowed.

Inductive res (A : Type) : Type :=
| Ok (a : A)
| Raise (e : exn).
Arguments Ok {A} a.
Arguments Raise {A} e.

Definition bind {A B} (m : res A) (k : A -> res B) : res B :=
  match m with
  | Ok a => k a
  | Raise e => Raise e
  end.

Notation "x <~ m ;; k" := (bind m (fun x => k))
  (at level 100, m at next level, right associativity).

(** A [for] loop that appends one result per element and stops at the
    first exception. *)
Fixpoint for_each {A B} (f : A -> res B) (l : list A) : res (list B) :=
  match l with
  | [] => Ok []
  | a :: l' => b <~ f a ;; bs <~ for_each f l' ;; Ok (b :: bs)
  end.

(** [try: body except KeyError: handler]. *)
Definition try_except_KeyError {A} (body : res A) (handler : A) : res A :=
  match body with
  | Raise KeyError => Ok handler
  | other => other
  end.

(** [drop_duplicates(keep='first')] on the key [key]: a row is kept when no
    earlier row has its key. *)
Fixpoint drop_duplicates_from {A K} `{EqDecision K}
    (key : A -> K) (seen : list K) (l : list A) : list A :=
  match l with
  | [] => []
  | x :: l' =>
      if bool_decide (key x ∈ seen) then drop_duplicates_from key seen l'
      else x :: drop_duplicates_from key (key x :: seen) l'
  end.

Definition drop_duplicates {A K} `{EqDecision K} (key : A -> K) (l : list A) : list A :=
  drop_duplicates_from key [] l.

(* ===================================================================== *)
(** ** The matching engine (index検索対応版週次マスタ更新処理.py)           *)
(* ===================================================================== *)

Module Matcher.

Local Open Scope float_scope.

(** One row of a master file. The same columns exist on both sides; the
    source names them with the suffix _新 (new master) or _旧 (old master). *)
Record Row : Type := mkRow {
  jan : cell;         (* JANコード *)
  kana : cell;        (* 商品名称（カナ） *)
  maker_name : cell;  (* メーカー名称 *)
  brand_code : cell;  (* ブランドコード *)
  type_code : cell;   (* 標準分類コード(タイプ) *)
  weight : wcell      (* 目付 *)
}.

(** A row of [df_processed]: the old row with its three key columns
    overwritten by text and the added column 目付_旧_float. *)
Record ProcRow : Type := mkProc {
  orig : Row;
  maker_s : pystr;
  brand_s : pystr;
  type_s : pystr;
  weight_float : float
}.

(** 照合結果 *)
Inductive Outcome : Type :=
| BrandMismatch       (* 候補なし（ブランド不一致） *)
| MakerTypeMismatch   (* 候補なし（メーカー名称+タイプ不一致） *)
| InsufficientKey     (* 候補なし（キーコード不足） *)
| WeightOutOfRange    (* 候補なし（目付範囲外） *)
| NoNameMatch         (* 候補なし（名称一致なし） *)
| HighSimilarity      (* 高類似度候補あり (80%以上) *)
| LowSimilarity.      (* 低類似度 (80%未満・要手動確認) *)

(** An entry of [skip_reasons]. *)
Inductive SkipReason : Type :=
| WeightSkipped.      (* 目付スキップ *)

(** パターン *)
Inductive Pattern : Type :=
| PatUnknown          (* 不明 *)
| BrandOnly           (* ブランドのみ *)
| BrandWeight         (* ブランド+目付 *)
| MakerTypeOnly       (* メーカー名称+タイプのみ *)
| MakerTypeWeight.    (* メーカー名称+タイプ+目付 *)

(** The dict [find_best_match] returns. Keys a dict does not hold are
    [None] here. *)
Record MatchResult : Type := mkResult {
  mr_outcome : Outcome;                   (* 照合結果 *)
  mr_score : float;                       (* 最高類似度 *)
  mr_judgment : bool;                     (* 判定: ○ is true, ✕ is false *)
  mr_candidate : option (cell * float);   (* 候補: name and score, '' is None *)
  mr_skip : list SkipReason;              (* スキップ理由 *)
  mr_has_candidate : bool;                (* 候補あり *)
  mr_old : option Row;                    (* the copied columns of best_old_row *)
  mr_pattern : option Pattern             (* パターン *)
}.

(** The dict of every early return. *)
Definition no_candidate (o : Outcome) (skips : list SkipReason) : MatchResult :=
  {| mr_outcome := o; mr_score := 0; mr_judgment := false; mr_candidate := None;
     mr_skip := skips; mr_has_candidate := false; mr_old := None; mr_pattern := None |}.

(** [df.replace('NULL', pd.NA)] on one cell. *)
Definition replace_NULL (c : cell) : cell :=
  match c with
  | CStr s => if bool_decide (s = lit "NULL") then CNA else c
  | _ => c
  end.

Definition replace_NULL_w (w : wcell) : wcell :=
  match w with
  | WText s => if bool_decide (s = lit "NULL") then WNA else w
  | _ => w
  end.

(** [load_data] after the file has been read: the replacement of 'NULL';
    required columns that are missing are columns of [CNA] already. *)
Definition load_data (df : list Row) : list Row :=
  List.map (fun r =>
    {| jan := replace_NULL (jan r); kana := replace_NULL (kana r);
       maker_name := replace_NULL (maker_name r);
       brand_code := replace_NULL (brand_code r);
       type_code := replace_NULL (type_code r);
       weight := replace_NULL_w (weight r) |}) df.

(** [clean_initial_data]: rows whose three keys are all missing are
    dropped. *)
Definition clean_initial_data (df : list Row) : list Row :=
  List.filter (fun r =>
    negb (isna (maker_name r) && isna (brand_code r) && isna (type_code r))) df.

(** The key of a new row as [find_best_match] reads it:
    [str(x).strip() if pd.notna(x) else None], then 'nan' becomes [None]. *)
Definition norm_key (c : cell) : option pystr :=
  if notna c then
    let s := strip (astype_str c) in
    if bool_decide (s = lit "nan") then None else Some s
  else None.

(** Truth value of [None] or a string. *)
Definition truthy (k : option pystr) : bool :=
  match k with
  | Some (_ :: _) => true
  | _ => false
  end.

(** Truth value of [None] or a float: zero (of either sign) is false, NaN
    is true. *)
Definition truthy_f (x : option float) : bool :=
  match x with
  | Some f => negb (PrimFloat.eqb f 0)
  | None => false
  end.

(** Python's [float(n)] of an int. *)
Definition float_of_int (z : Z) : float := PrimFloat.of_uint63 (Uint63.of_Z z).

(** A pandas index: the rows under each label, in row order. *)
Definition set_index {K} `{Countable K} (key : ProcRow -> K) (rows : list ProcRow)
    : gmap K (list ProcRow) :=
  foldr (fun r m => <[key r := r :: default [] (m !! key r)]> m) ∅ rows.

(** [df.loc[label]] on a frame with a one-level index: the rows under the
    label, [KeyError] when there are none. *)
Definition loc {K} `{Countable K} (idx : gmap K (list ProcRow)) (label : K)
    : res (list ProcRow) :=
  match idx !! label with
  | Some rows => Ok rows
  | None => Raise KeyError
  end.

(** What [df.loc[(maker, type)]] gives on the frame indexed by maker name
    and type, once a Series has been turned into a frame: rows of the old
    master, or the frame of one row that holds one column of the rows of a
    maker, whose column labels are the type texts of those rows. *)
Inductive located : Type :=
| Rows (rows : list ProcRow)
| Column (labels : list pystr).

(** The type texts under which the index has rows of a maker. *)
Definition types_of (idx : gmap (pystr * pystr) (list ProcRow)) (maker : pystr)
    : list pystr :=
  omap (fun entry =>
          if bool_decide (fst (fst entry) = maker) then Some (snd (fst entry)) else None)
    (map_to_list idx).

(** [df_old_multi_indexed.loc[(maker, type)]], with
    [if isinstance(..., pd.Series): ... .to_frame().T]. A pair that is in
    the index gives its rows. A pair that is not is read by pandas as a row
    label and a column label: [KeyError] when the index has no row of the
    maker, or the frame no column named as the type text; otherwise the
    column of that name of the maker's rows, a Series, which becomes a frame
    of one row. [old_columns] are the column labels of the indexed frame. *)
Definition loc_pair (old_columns : list pystr)
    (idx : gmap (pystr * pystr) (list ProcRow)) (label : pystr * pystr) : res located :=
  match idx !! label with
  | Some rows => Ok (Rows rows)
  | None =>
      match types_of idx (fst label) with
      | [] => Raise KeyError
      | labels =>
          if bool_decide (snd label ∈ old_columns) then Ok (Column labels)
          else Raise KeyError
      end
  end.

(** [frame[name]] or [frame[[names]]] on the frame of one row that [Column]
    stands for: [KeyError] when a name is not among its column labels;
    when all are, the program goes on with that frame. *)
Definition read_columns {A} (labels names : list pystr) : res A :=
  if forallb (fun name => bool_decide (name ∈ labels)) names then Raise NotFollowed
  else Raise KeyError.

(** What the if / elif / else over the keys leaves: an early [return], or
    the variables the ranking reads. *)
Inductive tier_step : Type :=
| Return_ (r : MatchResult)
| Continue (matching_old : list ProcRow) (skip_reasons : list SkipReason)
           (pattern_name : Pattern).

(** The mask [(目付_旧_float >= min_w) & (目付_旧_float <= max_w)]. *)
Definition in_window (min_w max_w : float) (r : ProcRow) : bool :=
  PrimFloat.leb min_w (weight_float r) && PrimFloat.leb (weight_float r) max_w.

(** [similarities.sort(key=lambda x: x[0], reverse=True)]: the stable
    descending sort, as insertion from the right. An element moves behind
    the ones with a strictly greater score only. *)
Fixpoint insert_desc {A} (x : float * A) (l : list (float * A)) : list (float * A) :=
  match l with
  | [] => [x]
  | y :: l' => if PrimFloat.ltb (fst x) (fst y) then y :: insert_desc x l' else x :: l
  end.

Definition sort_desc {A} (l : list (float * A)) : list (float * A) :=
  foldr insert_desc [] l.

(** The if / else on [best_score >= 0.8]: 照合結果 and 判定. *)
Definition judge (best_score : float) : Outcome * bool :=
  if PrimFloat.leb 0.8 best_score then (HighSimilarity, true)
  else (LowSimilarity, false).

Section Externals.

(** [fuzz.ratio] of fuzzywuzzy: an int, 0 to 100. *)
Variable fuzz_ratio : pystr -> pystr -> Z.
(** Python's [float(s)] on a string: [None] is ValueError. *)
Variable float_of_text : pystr -> option float.
(** [pd.to_numeric(errors='coerce')] on one string: [None] is a value that
    does not parse. *)
Variable to_numeric_text : pystr -> option float.

Definition calculate_similarity (s1 s2 : cell) : float :=
  if isna s1 || isna s2 then 0
  else float_of_int (fuzz_ratio (astype_str s1) (astype_str s2)) / 100.

(** [float(weight)]; [None] is the ValueError or TypeError that
    [get_weight_range] catches. *)
Definition py_float (weight : wcell) : option float :=
  match weight with
  | WNA => None
  | WNum f => Some f
  | WText s => float_of_text s
  end.

Definition get_weight_range (weight : wcell) : option float * option float :=
  match py_float weight with
  | Some w => (Some (w * 0.8), Some (w * 1.2))
  | None => (None, None)
  end.

(** [pd.to_numeric(df['目付_旧'], errors='coerce')] on one cell. *)
Definition to_numeric (w : wcell) : float :=
  match w with
  | WNA => PrimFloat.nan
  | WNum f => f
  | WText s => default PrimFloat.nan (to_numeric_text s)
  end.

(** [preprocess_old_data]: [df_processed]; the two indexed frames are
    [set_index] of it. *)
Definition preprocess_old_data (df_old : list Row) : list ProcRow :=
  List.map (fun r =>
    {| orig := r;
       maker_s := strip (astype_str (maker_name r));
       brand_s := strip (astype_str (brand_code r));
       type_s := strip (astype_str (type_code r));
       weight_float := to_numeric (weight r) |}) df_old.

(** The block under the comment 目付チェック, which the source repeats in
    both tiers with the tier's two pattern names. [None] is the early
    return 候補なし（目付範囲外）. *)
Definition weight_check (new_weight : wcell) (matching_old : list ProcRow)
    (pat_only pat_weight : Pattern)
    : option (list ProcRow * list SkipReason * Pattern) :=
  if notna_w new_weight then
    match get_weight_range new_weight with
    | (min_w, max_w) =>
        if truthy_f min_w && truthy_f max_w then
          match min_w, max_w with
          | Some lo, Some hi =>
              match List.filter (in_window lo hi) matching_old with
              | [] => None
              | weight_filtered => Some (weight_filtered, [], pat_weight)
              end
          | _, _ => Some (matching_old, [], pat_only)
          end
        else Some (matching_old, [], pat_only)
    end
  else Some (matching_old, [WeightSkipped], pat_only).

(** The lines between the lookup and the ranking on the frame of one row
    of [Column]: it is not empty, and the first columns read are
    目付_旧_float when a window applies, and 商品名称（カナ）_旧 with JANコード_旧
    otherwise. *)
Definition weight_check_column (new_weight : wcell) (labels : list pystr)
    : res tier_step :=
  if notna_w new_weight then
    match get_weight_range new_weight with
    | (min_w, max_w) =>
        if truthy_f min_w && truthy_f max_w then
          read_columns labels [lit "目付_旧_float"]
        else read_columns labels [lit "商品名称（カナ）_旧"; lit "JANコード_旧"]
    end
  else read_columns labels [lit "商品名称（カナ）_旧"; lit "JANコード_旧"].

(** [find_best_match] up to the comment 名称一致で最高類似度を選択.
    [old_columns] are the column labels of [df_old_multi_indexed]. *)
Definition tier_candidates (old_columns : list pystr)
    (new_row : Row) (df_old_processed : list ProcRow)
    (df_old_brands_indexed : gmap pystr (list ProcRow))
    (df_old_multi_indexed : gmap (pystr * pystr) (list ProcRow)) : res tier_step :=
  let new_maker_name := norm_key (maker_name new_row) in
  let new_brand := norm_key (brand_code new_row) in
  let new_type := norm_key (type_code new_row) in
  let new_weight := weight new_row in
  let empty_frame := @nil ProcRow in   (* df_old_processed.iloc[0:0] *)
  if truthy new_brand then
    matching_old <~ try_except_KeyError
                      (loc df_old_brands_indexed (default [] new_brand)) empty_frame ;;
    match matching_old with
    | [] => Ok (Return_ (no_candidate BrandMismatch []))
    | _ :: _ =>
        match weight_check new_weight matching_old BrandOnly BrandWeight with
        | None => Ok (Return_ (no_candidate WeightOutOfRange []))
        | Some (m, skips, pat) => Ok (Continue m skips pat)
        end
    end
  else if truthy new_maker_name && truthy new_type then
    found <~ try_except_KeyError
               (loc_pair old_columns df_old_multi_indexed
                  (default [] new_maker_name, default [] new_type))
               (Rows empty_frame) ;;
    match found with
    | Rows matching_old =>
        match matching_old with
        | [] => Ok (Return_ (no_candidate MakerTypeMismatch []))
        | _ :: _ =>
            match weight_check new_weight matching_old MakerTypeOnly MakerTypeWeight with
            | None => Ok (Return_ (no_candidate WeightOutOfRange []))
            | Some (m, skips, pat) => Ok (Continue m skips pat)
            end
        end
    | Column labels => weight_check_column new_weight labels
    end
  else Ok (Return_ (no_candidate InsufficientKey [])).

(** [matching_old[['商品名称（カナ）_旧', 'JANコード_旧']].drop_duplicates()] *)
Definition candidates_of (matching_old : list ProcRow) : list (cell * cell) :=
  drop_duplicates (fun c => (cell_key (fst c), cell_key (snd c)))
    (List.map (fun r => (kana (orig r), jan (orig r))) matching_old).

(** The list comprehension [similarities]: score, name, JAN. *)
Definition similarities_of (new_name : cell) (candidates : list (cell * cell))
    : list (float * (cell * cell)) :=
  List.map (fun c => (calculate_similarity new_name (fst c), c)) candidates.

(** [find_best_match] from 名称一致で最高類似度を選択 to the end. *)
Definition select_best (new_name : cell) (matching_old : list ProcRow)
    (skip_reasons : list SkipReason) (pattern_name : Pattern)
    (df_old_original : list Row) : res MatchResult :=
  match candidates_of matching_old with
  | [] => Ok (no_candidate NoNameMatch skip_reasons)
  | candidates =>
      match sort_desc (similarities_of new_name candidates) with
      | [] => Raise IndexError
      | (best_score, (best_name, best_jan)) :: _ =>
          (* df_old_original[df_old_original['JANコード_旧'] == best_jan].iloc[0];
             with a missing best_jan no row is selected (under pd.NA the
             mask itself is refused): an exception either way *)
          match List.find (fun r => cell_eqb (jan r) best_jan) df_old_original with
          | None => Raise IndexError
          | Some best_old_row =>
              Ok {| mr_outcome := fst (judge best_score);
                    mr_score := best_score;
                    mr_judgment := snd (judge best_score);
                    mr_candidate := Some (best_name, best_score);
                    mr_skip := skip_reasons;
                    mr_has_candidate := true;
                    mr_old := Some best_old_row;
                    mr_pattern := Some pattern_name |}
          end
      end
  end.

Definition find_best_match (old_columns : list pystr)
    (new_row : Row) (df_old_processed : list ProcRow)
    (df_old_brands_indexed : gmap pystr (list ProcRow))
    (df_old_multi_indexed : gmap (pystr * pystr) (list ProcRow))
    (df_old_original : list Row) : res MatchResult :=
  step <~ tier_candidates old_columns new_row df_old_processed
            df_old_brands_indexed df_old_multi_indexed ;;
  match step with
  | Return_ r => Ok r
  | Continue matching_old skip_reasons pattern_name =>
      select_best (kana new_row) matching_old skip_reasons pattern_name df_old_original
  end.

(** What [process_master_data] has computed when it writes the primary
    report (マッチング結果.csv): the list [results] and the rows of the
    report, each new row beside its result. The candidate sheet that
    follows is in [CandidateSheet]; the Excel file is not part of the
    model. *)
Record Run : Type := mkRun {
  results : list MatchResult;
  report : list (Row * MatchResult)
}.

(** [old_columns] are the column labels of the old master as the frame
    indexed by maker name and type has them: the columns of the file and
    those that [load_data] and [process_master_data] add, with the suffix
    _旧, and 目付_旧_float, without the two columns of the index. *)
Definition process_master_data (old_columns : list pystr)
    (old_file new_file : list Row) : res Run :=
  let df_new := clean_initial_data (load_data new_file) in
  let df_old := clean_initial_data (load_data old_file) in
  let df_old_processed := preprocess_old_data df_old in
  let df_old_brands_indexed := set_index brand_s df_old_processed in
  let df_old_multi_indexed := set_index (fun r => (maker_s r, type_s r)) df_old_processed in
  results <~ for_each (fun new_row =>
               find_best_match old_columns new_row df_old_processed
                 df_old_brands_indexed df_old_multi_indexed df_old) df_new ;;
  let final_df := combine df_new results in
  (* the column 候補あり exists as soon as there is one result *)
  let final_df :=
    match results with
    | [] => final_df
    | _ :: _ => List.filter (fun row => mr_has_candidate (snd row)) final_df
    end in
  Ok {| results := results; report := final_df |}.

End Externals.

End Matcher.

(* ===================================================================== *)
(** ** The ledger merger (テストスクリプト/週次統合リスト作成.py and
       統合スクリプト.py)                                                 *)
(* ===================================================================== *)

Module Merger.

(** One row of a ledger frame. 週次統合リスト作成.py names the columns
    旧JANコード, 旧商品名, 新JANコード, 新商品名, 備考, データソース, 処理日;
    統合スクリプト.py names them JANコード_旧, 商品名称（カナ）_旧, JANコード_新,
    商品名称（カナ）_新, 新JAN備考, データソース, 期間, 処理日 (through a table
    UNIFIED_COLUMNS that the file reads and never defines; its entries are
    taken to be these columns). Files are read with dtype=str: a cell is
    text or NaN. *)
Record Row : Type := mkRow {
  jan_old : cell;
  name_old : cell;
  jan_new : cell;
  name_new : cell;
  note : cell;
  source : cell;     (* データソース *)
  period : cell;     (* 期間 *)
  date : cell        (* 処理日 *)
}.

(** The chain [astype(str).str.replace(r'\D+', '', regex=True).str.zfill(13).str[:13]]
    on one cell. *)
Definition clean_jan (c : cell) : pystr :=
  take 13 (zfill 13 (List.filter isdecimal (astype_str c))).

(** [clean_jan_codes]: both JAN columns are rewritten. *)
Definition clean_jan_codes (df : list Row) : list Row :=
  List.map (fun r =>
    {| jan_old := CStr (clean_jan (jan_old r)); name_old := name_old r;
       jan_new := CStr (clean_jan (jan_new r)); name_new := name_new r;
       note := note r; source := source r; period := period r; date := date r |}) df.

(** [Series.str.contains(pat, case=False, na=False, regex=True)] for a
    pattern that is an alternation of literals. *)
Definition str_contains (pats : list pystr) (c : cell) : bool :=
  match c with
  | CStr s => search_any_ci pats s
  | _ => false
  end.

(** '花王|プラネット|KAO|PLANET' (週次統合リスト作成.py) *)
Definition feed_pattern_weekly : list pystr :=
  [lit "花王"; lit "プラネット"; lit "KAO"; lit "PLANET"].

(** '花王|プラネット' (統合スクリプト.py) *)
Definition feed_pattern_v3 : list pystr :=
  [lit "花王"; lit "プラネット"].

(** [set(column.dropna())] *)
Definition jan_set (column : list cell) : gset pystr :=
  list_to_set (omap cell_key column).

(** [Series.isin(s)] for a set built by [jan_set]. *)
Definition isin (c : cell) (s : gset pystr) : bool :=
  match c with
  | CStr x => bool_decide (x ∈ s)
  | _ => false
  end.

(** [df.empty] *)
Definition empty_df {A} (df : list A) : bool :=
  match df with [] => true | _ :: _ => false end.

(** Elementwise [!=] as a row mask: a missing value differs from
    everything. *)
Definition cell_neb (a b : cell) : bool := negb (cell_eqb a b).

(** [remove_duplicates_advanced], for the feed pattern [pats]. A ledger
    without the column データソース is a ledger whose source cells are all
    missing: step 1 finds no feed row in it, as the guard on the column
    has it. *)
Definition remove_duplicates_with (pats : list pystr)
    (existing_df kao_planet_df matching_df : list Row) : list Row :=
  (* step 1 *)
  let existing_kao_planet_jans : gset pystr :=
    if negb (empty_df existing_df) then
      let kao_planet_rows :=
        List.filter (fun r => str_contains pats (source r)) existing_df in
      jan_set (List.map jan_new kao_planet_rows)
    else ∅ in
  (* step 2 *)
  let matching_df :=
    if negb (empty_df matching_df) && bool_decide (existing_kao_planet_jans ≠ ∅) then
      List.filter (fun r => negb (isin (jan_new r) existing_kao_planet_jans)) matching_df
    else matching_df in
  (* step 3 *)
  let matching_df :=
    if negb (empty_df kao_planet_df) && negb (empty_df matching_df) then
      let kao_planet_old_jans := jan_set (List.map jan_old kao_planet_df) in
      let kao_planet_new_jans := jan_set (List.map jan_new kao_planet_df) in
      let matching_df :=
        List.filter (fun r => negb (isin (jan_new r) kao_planet_new_jans)) matching_df in
      List.filter (fun r => negb (isin (jan_old r) kao_planet_old_jans)) matching_df
    else matching_df in
  (* step 4 *)
  let all_data := existing_df ++ kao_planet_df ++ matching_df in
  (* step 5 *)
  let all_data := drop_duplicates (fun r => cell_key (jan_new r)) all_data in
  (* step 6 *)
  List.filter (fun r => cell_neb (jan_old r) (jan_new r)) all_data.

(** 週次統合リスト作成.py *)
Definition remove_duplicates_advanced := remove_duplicates_with feed_pattern_weekly.

(** 統合スクリプト.py *)
Definition remove_duplicates_advanced_v3 := remove_duplicates_with feed_pattern_v3.

(** [remove_old_kao_planet] of 統合スクリプト.py. [has_columns] says that
    the ledger file has both the column データソース and the column 期間;
    without one of them the function gives the ledger back. *)
Definition remove_old_kao_planet (has_columns : bool) (existing_df : list Row)
    (periods_to_keep : list pystr) : list Row :=
  if empty_df existing_df then existing_df
  else if negb has_columns then existing_df
  else
    let is_feed r := str_contains feed_pattern_v3 (source r) in
    let kept_period r :=
      match period r with
      | CStr p => bool_decide (p ∈ periods_to_keep)
      | _ => false
      end in
    let non_kao_planet := List.filter (fun r => negb (is_feed r)) existing_df in
    let kao_planet_keep := List.filter (fun r => is_feed r && kept_period r) existing_df in
    non_kao_planet ++ kao_planet_keep.

(** One run of [main] of 週次統合リスト作成.py on the three frames: each
    goes through [clean_jan_codes], then the merge. The renaming of columns
    and the default columns ([normalize_columns], the source text given to a
    ledger without the column データソース) do not touch the JAN columns and
    are taken as done. *)
Definition weekly_run (existing_df kao_planet_df matching_df : list Row) : list Row :=
  remove_duplicates_advanced (clean_jan_codes existing_df)
    (clean_jan_codes kao_planet_df) (clean_jan_codes matching_df).

(** One run of [main] of 統合スクリプト.py with a feed update: the ledger
    is cleaned, old feed periods are removed, then the merge. *)
Definition v3_run (has_columns : bool) (existing_df kao_planet_df matching_df : list Row)
    (periods_to_keep : list pystr) : list Row :=
  remove_duplicates_advanced_v3
    (remove_old_kao_planet has_columns (clean_jan_codes existing_df) periods_to_keep)
    (clean_jan_codes kao_planet_df) (clean_jan_codes matching_df).

(** *** The merge as the specification words it (section 4.7) *)

(** A source kind of a feed. *)
Definition feed_kind (pats : list pystr) (r : Row) : bool := str_contains pats (source r).

(** The newSku (oldSku) values a frame holds. *)
Definition new_skus (df : list Row) : list pystr := omap (fun r => cell_key (jan_new r)) df.
Definition old_skus (df : list Row) : list pystr := omap (fun r => cell_key (jan_old r)) df.

(** A cell collides with a list of SKU values. *)
Definition collides (c : cell) (skus : list pystr) : bool :=
  match c with
  | CStr x => bool_decide (x ∈ skus)
  | _ => false
  end.

Definition spec_merge (pats : list pystr) (accumulated feed matching : list Row)
    : list Row :=
  (* 1. matching rows whose newSku is in the ledger under a feed source kind *)
  let ledger_feed_skus := new_skus (List.filter (feed_kind pats) accumulated) in
  let matching1 :=
    List.filter (fun r => negb (collides (jan_new r) ledger_feed_skus)) matching in
  (* 2. matching rows whose newSku or oldSku collides with this run's feed *)
  let matching2 :=
    List.filter (fun r => negb (collides (jan_new r) (new_skus feed)
                            || collides (jan_old r) (old_skus feed))) matching1 in
  (* 3. concatenation in priority order; 4. first occurrence per newSku *)
  let merged :=
    drop_duplicates (fun r => cell_key (jan_new r)) (accumulated ++ feed ++ matching2) in
  (* 5. rows with oldSku == newSku *)
  List.filter (fun r => negb (cell_eqb (jan_old r) (jan_new r))) merged.

(** *** Predicates on ledger frames *)

(** Both JAN cells of the row are text. *)
Definition canonical (r : Row) : Prop :=
  (exists s, jan_old r = CStr s) /\ (exists s, jan_new r = CStr s).

(** Both JAN cells of the row are strings of 13 decimal digits. *)
Definition canonical_sku (c : cell) : Prop :=
  exists s, c = CStr s /\ length s = 13%nat /\ Forall (fun ch => isdecimal ch = true) s.

Definition canonical_row (r : Row) : Prop :=
  canonical_sku (jan_old r) /\ canonical_sku (jan_new r).

(** The ledger invariant: new JANs are pairwise distinct and no row has
    its old JAN equal to its new JAN. *)
Definition ledger_ok (df : list Row) : Prop :=
  NoDup (List.map jan_new df) /\ Forall (fun r => jan_old r <> jan_new r) df.

End Merger.

(* ===================================================================== *)
(** ** Sample data                                                       *)
(* ===================================================================== *)

Module Scenario.

(** *** Ledger rows *)

Definition ledger_row (old_jan new_jan src : string) : Merger.Row :=
  {| Merger.jan_old := CStr (lit old_jan); Merger.name_old := CNaN;
     Merger.jan_new := CStr (lit new_jan); Merger.name_new := CNaN;
     Merger.note := CNaN; Merger.source := CStr (lit src);
     Merger.period := CNaN; Merger.date := CNaN |}.

(** Two matching rows whose raw new JANs differ in the 14th digit. *)
Definition long_a : Merger.Row := ledger_row "4900000000010" "49012345678901" "マッチング".
Definition long_b : Merger.Row := ledger_row "4900000000027" "49012345678902" "マッチング".

(** Scenario D: a feed entry and a matching row claim 4900000000001. *)
Definition feed_d : Merger.Row := ledger_row "4900000000100" "4900000000001" "花王・プラネット".
Definition match_d : Merger.Row := ledger_row "4900000000200" "4900000000001" "マッチング".

(** An accumulated row of an earlier matching run with the same new JAN. *)
Definition acc_d : Merger.Row := ledger_row "4900000000300" "4900000000001" "マッチング".

(** *** Master rows *)

Definition text (s : string) : cell := CStr (lit s).

Definition master_row (jan_code name maker brand type_ : cell) (w : wcell) : Matcher.Row :=
  {| Matcher.jan := jan_code; Matcher.kana := name; Matcher.maker_name := maker;
     Matcher.brand_code := brand; Matcher.type_code := type_; Matcher.weight := w |}.

(** Scenario A: the old product, and the new product of the same brand
    whose weight is inside the band. *)
Definition old_a : Matcher.Row :=
  master_row (text "4912345000010") (text "アロマソープA") (text "X") (text "B1") (text "7")
    (WNum 100).
Definition new_a : Matcher.Row :=
  master_row (text "4912345000027") (text "アロマソープ") (text "X") (text "B1") (text "7")
    (WNum 105).

(** A second old product of brand B1, heavier. *)
Definition old_a2 : Matcher.Row :=
  master_row (text "4912345000034") (text "アロマソープB") (text "X") (text "B1") (text "7")
    (WNum 150).

(** Scenario B: weight 200; no old product weighs between 160 and 240. *)
Definition new_b : Matcher.Row :=
  master_row (text "4912345000041") (text "アロマソープ") (text "X") (text "B1") (text "7")
    (WNum 200).

(** A new product whose weight is the number zero. *)
Definition new_zero : Matcher.Row :=
  master_row (text "4912345000058") (text "アロマソープ") (text "X") (text "B1") (text "7")
    (WNum 0).

(** A brand that no old product has; maker and type would match. *)
Definition new_miss : Matcher.Row :=
  master_row (text "4912345000072") (text "アロマソープ") (text "X") (text "B9") (text "7")
    (WNum 105).

(** A maker and type that no old product has, and no brand. *)
Definition new_miss_mt : Matcher.Row :=
  master_row (text "4912345000089") (text "アロマソープ") (text "Y") CNaN (text "7")
    (WNum 105).

(** Only the maker name is present. *)
Definition new_nokey : Matcher.Row :=
  master_row (text "4912345000096") (text "アロマソープ") (text "X") CNaN CNaN (WNum 105).

(** None of the three keys is present. *)
Definition new_blank : Matcher.Row :=
  master_row (text "4912345000140") (text "アロマソープ") CNaN CNaN CNaN (WNum 105).

(** No name in kana. *)
Definition new_noname : Matcher.Row :=
  master_row (text "4912345000102") CNaN (text "X") (text "B1") (text "7") WNA.

(** An old product whose brand code is the marker 'NULL' and whose maker
    name is an empty field. *)
Definition old_null : Matcher.Row :=
  master_row (text "4912345000119") (text "ボディソープ") CNaN (text "NULL") (text "7")
    (WNum 100).

(** A new product whose brand code is the text <NA>. *)
Definition new_na_text : Matcher.Row :=
  master_row (text "4912345000126") (text "ボディソープ") (text "X") (text "<NA>") (text "7")
    WNA.

(** *** Stand-ins for the external functions, to run the samples *)

Fixpoint common_prefix (a b : pystr) : nat :=
  match a, b with
  | x :: a', y :: b' => if (x =? y)%N then S (common_prefix a' b') else O
  | _, _ => O
  end.

(** Twice the length of the common prefix over the total length, as a
    rounded percentage: what [fuzz.ratio] gives on the sample names, each
    of which is a prefix of, or equal to, the name it is compared with. *)
Definition sample_ratio (a b : pystr) : Z :=
  let total := Z.of_nat (length a + length b) in
  if (total =? 0)%Z then 100%Z
  else ((200 * Z.of_nat (common_prefix a b) + total / 2) / total)%Z.

(** The sample files hold no text in the weight column. *)
Definition no_text (s : pystr) : option float := None.

Definition sample_old : list Matcher.Row := [old_a; old_a2].
Definition sample_processed : list Matcher.ProcRow :=
  Matcher.preprocess_old_data no_text sample_old.
Definition sample_brands : gmap pystr (list Matcher.ProcRow) :=
  Matcher.set_index Matcher.brand_s sample_processed.
Definition sample_multi : gmap (pystr * pystr) (list Matcher.ProcRow) :=
  Matcher.set_index (fun r => (Matcher.maker_s r, Matcher.type_s r)) sample_processed.

(** The column labels of the sample old master in the frame indexed by
    maker name and type: a file with the required columns only. *)
Definition sample_columns : list pystr :=
  [ lit "メーカーコード_旧"; lit "ブランドコード_旧"; lit "目付_旧"; lit "ブランド名称_旧";
    lit "標準分類名(タイプ)_旧"; lit "商品名称（カナ）_旧"; lit "JANコード_旧";
    lit "発売日_旧"; lit "目付_旧_float" ].

(** [find_best_match] of a new row against the sample old master. *)
Definition sample_match (new_row : Matcher.Row) : res Matcher.MatchResult :=
  Matcher.find_best_match sample_ratio no_text sample_columns new_row
    sample_processed sample_brands sample_multi sample_old.

(** A new product without brand code, of the maker of the old products,
    whose type code is the text JANコード_旧. *)
Definition new_column_type : Matcher.Row :=
  master_row (text "4912345000157") (text "アロマソープ") (text "X") CNaN
    (text "JANコード_旧") (WNum 105).

(** The same with a brand code that no old product has. *)
Definition new_miss_column_type : Matcher.Row :=
  master_row (text "4912345000164") (text "アロマソープ") (text "X") (text "B9")
    (text "JANコード_旧") (WNum 105).

(** A new product of brand B1 whose band has the two old weights as its
    edges: 125 * 0.8 is 100.0 and 125 * 1.2 is 150.0. *)
Definition new_edge : Matcher.Row :=
  master_row (text "4912345000133") (text "アロマソープ") (text "X") (text "B1") (text "7")
    (WNum 125).

(** The candidates of brand B1 in the sample old master. *)
Definition brand_b1 : list Matcher.ProcRow := default [] (sample_brands !! lit "B1").

(** A run of the whole pipeline on sample files, with the stand-ins. *)
Definition sample_run (old_file new_file : list Matcher.Row) : res Matcher.Run :=
  Matcher.process_master_data sample_ratio no_text no_text sample_columns
    old_file new_file.

End Scenario.

(* ===================================================================== *)
(** ** Views of the matcher used to state its properties                 *)
(* ===================================================================== *)

Module MatcherViews.
Import Matcher.

Local Open Scope float_scope.

(** The score [fuzz.ratio(...) / 100.0] of a percentage. *)
Definition score_of_ratio (ratio : Z) : float := float_of_int ratio / 100.

(** The window that the block 目付チェック applies to the candidates of a
    new weight, if it applies one: the weight is present, reads as a float
    and both bounds are true in Python's sense. *)
Definition applied_window (float_of_text : pystr -> option float) (new_weight : wcell)
    : option (float * float) :=
  if notna_w new_weight then
    match get_weight_range float_of_text new_weight with
    | (Some lo, Some hi) =>
        if truthy_f (Some lo) && truthy_f (Some hi) then Some (lo, hi) else None
    | _ => None
    end
  else None.

(** A candidate passes the weight check of a new weight. *)
Definition passes_weight (float_of_text : pystr -> option float) (new_weight : wcell)
    (r : ProcRow) : bool :=
  match applied_window float_of_text new_weight with
  | Some (lo, hi) => in_window lo hi r
  | None => true
  end.

(** The pair of maker name and type code of the new row is one that
    pandas answers with a column: both present, the pair not in the index,
    the maker in the index and the type text a column label. *)
Definition pair_is_column (old_columns : list pystr) (new_row : Row)
    (df_old_multi_indexed : gmap (pystr * pystr) (list ProcRow)) : bool :=
  let new_maker_name := default [] (norm_key (maker_name new_row)) in
  let new_type := default [] (norm_key (type_code new_row)) in
  truthy (norm_key (maker_name new_row)) && truthy (norm_key (type_code new_row))
  && match df_old_multi_indexed !! (new_maker_name, new_type) with
     | Some _ => false
     | None =>
         match types_of df_old_multi_indexed new_maker_name with
         | [] => false
         | _ :: _ => bool_decide (new_type ∈ old_columns)
         end
     end.

(** The lookup of the new row in [find_best_match] is one that pandas
    answers with a column: no brand code, maker name and type code present,
    the pair not in the index, the maker in the index and the type text a
    column label. *)
Definition reads_column (old_columns : list pystr) (new_row : Row)
    (df_old_multi_indexed : gmap (pystr * pystr) (list ProcRow)) : bool :=
  let new_maker_name := default [] (norm_key (maker_name new_row)) in
  let new_type := default [] (norm_key (type_code new_row)) in
  negb (truthy (norm_key (brand_code new_row)))
  && (truthy (norm_key (maker_name new_row)) && truthy (norm_key (type_code new_row)))
  && match df_old_multi_indexed !! (new_maker_name, new_type) with
     | Some _ => false
     | None =>
         match types_of df_old_multi_indexed new_maker_name with
         | [] => false
         | _ :: _ => bool_decide (new_type ∈ old_columns)
         end
     end.

(** The mask of [clean_initial_data]: the row is kept. *)
Definition has_some_key (r : Row) : bool :=
  negb (isna (maker_name r) && isna (brand_code r) && isna (type_code r)).

(** A float that is the score of a percentage between 0 and 100. *)
Definition is_score (x : float) : Prop :=
  exists ratio, (0 <= ratio <= 100)%Z /\ x = score_of_ratio ratio.

End MatcherViews.

(* ===================================================================== *)
(** ** Views of the merger used to state its properties                  *)
(* ===================================================================== *)

Module MergerViews.
Import Merger.

(** The key of step 5. *)
Definition new_key (r : Row) : option pystr := cell_key (jan_new r).

(** A frame on which steps 5 and 6 have nothing to do: no two rows share
    the key of their new JAN, and no row passes for old JAN = new JAN. *)
Definition settled (df : list Row) : Prop :=
  NoDup (List.map new_key df)
  /\ forall r, In r df -> cell_neb (jan_old r) (jan_new r) = true.

(** The matching rows whose old JAN is not an old JAN of this run's feed. *)
Definition matching_kept (kao_planet_df matching_df : list Row) : list Row :=
  List.filter (fun r => negb (isin (jan_old r) (jan_set (List.map jan_old kao_planet_df))))
    matching_df.

End MergerViews.

(* ===================================================================== *)
(** ** The candidate sheet (index検索対応版週次マスタ更新処理.py)           *)
(* ===================================================================== *)

Module CandidateSheet.
Import Matcher.

Local Open Scope float_scope.

(** One dict of [candidates_list]. Of the columns of the sheet the record
    has those that [Row] has; the score is the float that the sheet prints
    as a percentage. *)
Record Entry : Type := mkEntry {
  old_jan : cell;        (* 旧候補JANコード *)
  old_name : cell;       (* 旧候補商品名 *)
  old_maker : cell;      (* 旧メーカー名称 *)
  old_weight : wcell;    (* 旧目付 *)
  score : float;         (* 類似度 *)
  new_row : Row;         (* 新JANコード, 新商品名, 新メーカー名称, 新目付 *)
  pattern : Pattern      (* パターン *)
}.

(** The value of [matched_df] when it is not [None]: the rows, the name of
    the pattern that found them, and the frame they were read from.
    [from_multi] is true for the frame indexed by maker name and type,
    which has no column メーカー名称_旧. *)
Record Matched : Type := mkMatched {
  rows : list ProcRow;
  found_by : Pattern;
  from_multi : bool
}.

Definition is_None {A} (x : option A) : bool :=
  match x with None => true | Some _ => false end.

(** One try block of the pattern chain: the rows under the label, the
    window when the pattern has one, and the assignment to [matched_df]
    when rows are left; [except KeyError: pass]. *)
Definition try_pattern {K} `{Countable K} (idx : gmap K (list ProcRow)) (label : K)
    (window : option (float * float)) (pat : Pattern) (multi : bool)
    (matched_df : option Matched) : res (option Matched) :=
  try_except_KeyError
    (found <~ loc idx label ;;
     let pattern_rows :=
       match window with
       | Some (min_w, max_w) => List.filter (in_window min_w max_w) found
       | None => found
       end in
     match pattern_rows with
     | [] => Ok matched_df
     | _ :: _ => Ok (Some (mkMatched pattern_rows pat multi))
     end)
    matched_df.

(** The try block of パターンC, on the frame indexed by maker name and
    type: as [try_pattern] with a window when the lookup gives rows; on the
    frame of one row of [Column] the read of 目付_旧_float is inside the
    try. *)
Definition try_pattern_c (old_columns : list pystr)
    (idx : gmap (pystr * pystr) (list ProcRow)) (label : pystr * pystr)
    (min_w max_w : float) (matched_df : option Matched) : res (option Matched) :=
  try_except_KeyError
    (found <~ loc_pair old_columns idx label ;;
     match found with
     | Rows multi_matched =>
         match List.filter (in_window min_w max_w) multi_matched with
         | [] => Ok matched_df
         | pattern_c => Ok (Some (mkMatched pattern_c MakerTypeWeight true))
         end
     | Column labels => read_columns labels [lit "目付_旧_float"]
     end)
    matched_df.

(** The try block of パターンD with what it leaves to the block 候補品リスト作成.
    Rows that the lookup gives are assigned to [matched_df] when there are
    some. The frame of one row of [Column] is assigned too, and the first
    statement of that block, [drop_duplicates(subset=['JANコード_旧'])],
    reads a column of it: the outcome of that read is given here. *)
Definition try_pattern_d (old_columns : list pystr)
    (idx : gmap (pystr * pystr) (list ProcRow)) (label : pystr * pystr)
    (matched_df : option Matched) : res (option Matched) :=
  found <~ try_except_KeyError (loc_pair old_columns idx label) (Rows []) ;;
  match found with
  | Rows pattern_d =>
      match pattern_d with
      | [] => Ok matched_df
      | _ :: _ => Ok (Some (mkMatched pattern_d MakerTypeOnly true))
      end
  | Column labels => read_columns labels [lit "JANコード_旧"]
  end.

(** [df_old_original[['JANコード_旧', 'メーカー名称_旧']].drop_duplicates()] *)
Definition maker_info (df_old_original : list Row) : list (cell * cell) :=
  drop_duplicates (fun c => (cell_key (fst c), cell_key (snd c)))
    (List.map (fun r => (jan r, maker_name r)) df_old_original).

(** [matched_df.merge(maker_info, on='JANコード_旧', how='left')]: every
    row, in order, once for each maker name listed under its JAN, in the
    order of the list, or once with a missing maker name when none is
    listed. Missing JANs are one key. *)
Definition merge_maker (matched_df : list ProcRow) (info : list (cell * cell))
    : list (ProcRow * cell) :=
  flat_map (fun r =>
    match List.filter (fun c => bool_decide (cell_key (fst c) = cell_key (jan (orig r))))
            info with
    | [] => [(r, CNaN)]
    | listed => List.map (fun c => (r, snd c)) listed
    end) matched_df.

Section Externals.

Variable fuzz_ratio : pystr -> pystr -> Z.
Variable float_of_text : pystr -> option float.

(** The four patterns in their order of priority: the value of
    [matched_df] after パターンD. [old_columns] are the column labels of
    [df_old_multi_indexed]. *)
Definition sheet_frame (old_columns : list pystr) (new_row : Row)
    (df_old_brands_indexed : gmap pystr (list ProcRow))
    (df_old_multi_indexed : gmap (pystr * pystr) (list ProcRow))
    : res (option Matched) :=
  let new_maker_name := norm_key (maker_name new_row) in
  let new_brand := norm_key (brand_code new_row) in
  let new_type := norm_key (type_code new_row) in
  let new_weight := weight new_row in
  let matched_df := None in
  (* パターンA *)
  matched_df <~
    (if truthy new_brand && notna_w new_weight then
       match get_weight_range float_of_text new_weight with
       | (min_w, max_w) =>
           if truthy_f min_w && truthy_f max_w then
             match min_w, max_w with
             | Some lo, Some hi =>
                 try_pattern df_old_brands_indexed (default [] new_brand)
                   (Some (lo, hi)) BrandWeight false matched_df
             | _, _ => Ok matched_df
             end
           else Ok matched_df
       end
     else Ok matched_df) ;;
  (* パターンB *)
  matched_df <~
    (if is_None matched_df && truthy new_brand then
       try_pattern df_old_brands_indexed (default [] new_brand)
         None BrandOnly false matched_df
     else Ok matched_df) ;;
  (* パターンC *)
  matched_df <~
    (if is_None matched_df && truthy new_maker_name && truthy new_type
        && notna_w new_weight then
       match get_weight_range float_of_text new_weight with
       | (min_w, max_w) =>
           if truthy_f min_w && truthy_f max_w then
             match min_w, max_w with
             | Some lo, Some hi =>
                 try_pattern_c old_columns df_old_multi_indexed
                   (default [] new_maker_name, default [] new_type)
                   lo hi matched_df
             | _, _ => Ok matched_df
             end
           else Ok matched_df
       end
     else Ok matched_df) ;;
  (* パターンD *)
  matched_df <~
    (if is_None matched_df && truthy new_maker_name && truthy new_type then
       try_pattern_d old_columns df_old_multi_indexed
         (default [] new_maker_name, default [] new_type) matched_df
     else Ok matched_df) ;;
  Ok matched_df.

(** The block 候補品リスト作成 for one new row: the dicts it appends. *)
Definition sheet_rows (new_row : Row) (matched_df : option Matched)
    (df_old_original : list Row) : list Entry :=
  match matched_df with
  | Some m =>
      match rows m with
      | [] => []
      | _ :: _ =>
          let deduplicated := drop_duplicates (fun r => cell_key (jan (orig r))) (rows m) in
          (* メーカー名称を補完 *)
          let with_maker :=
            if from_multi m then merge_maker deduplicated (maker_info df_old_original)
            else List.map (fun r => (r, CStr (maker_s r))) deduplicated in
          let similarities :=
            List.map (fun row =>
                        (calculate_similarity fuzz_ratio (kana new_row)
                           (kana (orig (fst row))), row)) with_maker in
          List.map (fun s =>
                      {| old_jan := jan (orig (fst (snd s)));
                         old_name := kana (orig (fst (snd s)));
                         old_maker := snd (snd s);
                         old_weight := weight (orig (fst (snd s)));
                         score := fst s;
                         new_row := new_row;
                         pattern := found_by m |})
            (sort_desc similarities)
      end
  | None => []
  end.

(** [create_candidate_sheet_data]. [df_new] comes with its row labels,
    which the loop uses as positions in [results]. *)
Definition create_candidate_sheet_data (old_columns : list pystr)
    (df_new : list (nat * Row))
    (df_old_processed : list ProcRow) (df_old_original : list Row)
    (results : list MatchResult)
    (df_old_brands_indexed : gmap pystr (list ProcRow))
    (df_old_multi_indexed : gmap (pystr * pystr) (list ProcRow))
    : res (list Entry) :=
  appended <~ for_each (fun labelled =>
      match nth_error results (fst labelled) with
      | None => Raise IndexError                  (* results[idx] *)
      | Some result =>
          if negb (mr_has_candidate result) then Ok []     (* continue *)
          else
            matched_df <~ sheet_frame old_columns (snd labelled)
                            df_old_brands_indexed df_old_multi_indexed ;;
            Ok (sheet_rows (snd labelled) matched_df df_old_original)
      end) df_new ;;
  Ok (concat appended).

(** [clean_initial_data] on a frame with its row labels: the mask keeps
    the labels of the rows it keeps. *)
Definition clean_initial_data_labelled (df : list (nat * Row)) : list (nat * Row) :=
  List.filter (fun labelled =>
    negb (isna (maker_name (snd labelled)) && isna (brand_code (snd labelled))
          && isna (type_code (snd labelled)))) df.

Variable to_numeric_text : pystr -> option float.

(** [process_master_data] up to the call of [create_candidate_sheet_data]:
    the frames are those of [process_master_data], [df_new] with the labels
    0, 1, 2, ... of the file that was read. *)
Definition process_master_data_sheet (old_columns : list pystr)
    (old_file new_file : list Row) : res (Run * list Entry) :=
  run <~ process_master_data fuzz_ratio float_of_text to_numeric_text old_columns
           old_file new_file ;;
  let df_new :=
    clean_initial_data_labelled
      (combine (seq 0 (length (load_data new_file))) (load_data new_file)) in
  let df_old := clean_initial_data (load_data old_file) in
  let df_old_processed := preprocess_old_data to_numeric_text df_old in
  candidate_sheet_data <~
    create_candidate_sheet_data old_columns df_new df_old_processed df_old (results run)
      (set_index brand_s df_old_processed)
      (set_index (fun r => (maker_s r, type_s r)) df_old_processed) ;;
  Ok (run, candidate_sheet_data).

End Externals.

End CandidateSheet.

(* ===================================================================== *)
(** ** Column names (テストスクリプト/週次統合リスト作成.py)                *)
(* ===================================================================== *)

Module Normalizer.

(** A frame with its column names: the number of rows and the columns in
    order, each with its cells. pandas allows a name to repeat. *)
Record Frame : Type := mkFrame {
  height : nat;
  columns : list (pystr * list cell)
}.

(** [df.columns] *)
Definition header (df : Frame) : list pystr := List.map fst (columns df).

Definition column_mapping : list (pystr * pystr) :=
  [ (lit "JANコード_旧", lit "旧JANコード");
    (lit "JANコード_新", lit "新JANコード");
    (lit "商品名称（カナ）_旧", lit "旧商品名");
    (lit "商品名称（カナ）_新", lit "新商品名");
    (lit "メーカー名称_旧", lit "メーカー名称");
    (lit "メーカー名称_新", lit "メーカー名称");
    (lit "旧JAN", lit "旧JANコード");
    (lit "新JAN", lit "新JANコード");
    (lit "JAN旧", lit "旧JANコード");
    (lit "JAN新", lit "新JANコード") ].

(** The name of a column after [rename]: the entry of the dict, or the
    name itself. *)
Definition renamed (mapping : list (pystr * pystr)) (name : pystr) : pystr :=
  match List.find (fun kv => bool_decide (fst kv = name)) mapping with
  | Some kv => snd kv
  | None => name
  end.

(** [df.rename(columns=mapping)] *)
Definition rename (mapping : list (pystr * pystr)) (df : Frame) : Frame :=
  {| height := height df;
     columns := List.map (fun c => (renamed mapping (fst c), snd c)) (columns df) |}.

(** [if col not in df.columns: df[col] = default_val] *)
Definition add_missing (df : Frame) (col : pystr) (default_val : cell) : Frame :=
  if bool_decide (col ∈ header df) then df
  else {| height := height df;
          columns := columns df ++ [(col, repeat default_val (height df))] |}.

(** [df[names]]: for each name in turn, every column of that name. *)
Definition select (names : list pystr) (df : Frame) : Frame :=
  {| height := height df;
     columns := flat_map (fun name =>
                  List.filter (fun c => bool_decide (fst c = name)) (columns df)) names |}.

(** The dict [required_columns]; [today] is
    [datetime.now().strftime('%Y-%m-%d')]. *)
Definition required_columns (today source : pystr) : list (pystr * cell) :=
  [ (lit "旧JANコード", CStr []);
    (lit "旧商品名", CStr []);
    (lit "新JANコード", CStr []);
    (lit "新商品名", CStr []);
    (lit "メーカー名称", CStr []);
    (lit "備考", CStr []);
    (lit "処理日", CStr today);
    (lit "データソース", CStr source) ].

(** [output_columns]: the keys of [required_columns]. *)
Definition output_columns : list pystr :=
  [ lit "旧JANコード"; lit "旧商品名"; lit "新JANコード"; lit "新商品名";
    lit "メーカー名称"; lit "備考"; lit "処理日"; lit "データソース" ].

Definition normalize_columns (today : pystr) (df : Frame) (source : pystr) : Frame :=
  let df_normalized := rename column_mapping df in
  let df_normalized :=
    fold_left (fun d kv => add_missing d (fst kv) (snd kv))
      (required_columns today source) df_normalized in
  select (List.map fst (required_columns today source)) df_normalized.

(** The header of マッチング結果.csv when some row has a candidate and the
    masters have the required columns only: the names of [report_columns]
    that the frame has. *)
Definition report_header : list pystr :=
  [ lit "照合結果"; lit "JANコード_旧"; lit "商品名称（カナ）_旧"; lit "商品名称（漢字）_旧";
    lit "メーカー名称_旧"; lit "標準分類(タイプ)_旧"; lit "ブランド名称_旧"; lit "目付_旧";
    lit "幅_旧"; lit "高さ_旧"; lit "奥行_旧"; lit "最高類似度"; lit "判定";
    lit "JANコード_新"; lit "商品名称（カナ）_新"; lit "メーカー名称_新";
    lit "標準分類(タイプ)_新"; lit "ブランド名称_新"; lit "目付_新"; lit "候補";
    lit "パターン" ].

(** A frame with this header and no row. *)
Definition report_frame : Frame :=
  {| height := 0; columns := List.map (fun name => (name, [])) report_header |}.

End Normalizer.

(* ===================================================================== *)
(** * Part II. Properties                                                *)
(* ===================================================================== *)

(** ** Lists: first-occurrence deduplication *)

Section DropDuplicates.

Context {A K : Type} `{EqDecision K} (key : A -> K).

Lemma drop_duplicates_from_In (seen : list K) (l : list A) (x : A) :
  In x (drop_duplicates_from key seen l) -> In x l /\ key x ∉ seen.
Proof.
  revert seen. induction l as [|y l IH]; intros seen; simpl; [tauto|].
  case_bool_decide as Hy.
  - intros Hx. destruct (IH _ Hx). auto.
  - intros [<-|Hx]; [auto|].
    destruct (IH _ Hx) as [? Hns]. split; [auto|].
    intros Hin. apply Hns. now right.
Qed.

Lemma drop_duplicates_from_NoDup (seen : list K) (l : list A) :
  NoDup (List.map key (drop_duplicates_from key seen l)).
Proof.
  revert seen. induction l as [|y l IH]; intros seen; simpl; [constructor|].
  case_bool_decide as Hy; [apply IH|].
  simpl. constructor; [|apply IH].
  rewrite list_elem_of_In, in_map_iff. intros (z & Hk & Hz).
  apply drop_duplicates_from_In in Hz as [_ Hz].
  apply Hz. rewrite Hk. now left.
Qed.

(** The first row that carries a key not seen before is kept. *)
Lemma drop_duplicates_from_first (seen : list K) (l1 l2 : list A) (x : A) :
  key x ∉ seen ->
  (forall y, In y l1 -> key y <> key x) ->
  In x (drop_duplicates_from key seen (l1 ++ x :: l2)).
Proof.
  revert seen. induction l1 as [|y l1 IH]; intros seen Hns Hl1; simpl.
  - rewrite bool_decide_eq_false_2 by assumption. now left.
  - case_bool_decide as Hy.
    + apply IH; [assumption|]. intros z Hz. apply Hl1. now right.
    + right. apply IH.
      * intros Hin. apply elem_of_cons in Hin as [Heq|Hin]; [|now apply Hns].
        apply (Hl1 y); [now left|congruence].
      * intros z Hz. apply Hl1. now right.
Qed.

Lemma drop_duplicates_In (l : list A) (x : A) :
  In x (drop_duplicates key l) -> In x l.
Proof. intros Hx. now apply drop_duplicates_from_In in Hx as [? _]. Qed.

Lemma drop_duplicates_NoDup (l : list A) : NoDup (List.map key (drop_duplicates key l)).
Proof. apply drop_duplicates_from_NoDup. Qed.

Lemma drop_duplicates_first (l1 l2 : list A) (x : A) :
  (forall y, In y l1 -> key y <> key x) ->
  In x (drop_duplicates key (l1 ++ x :: l2)).
Proof. apply drop_duplicates_from_first. apply not_elem_of_nil. Qed.

End DropDuplicates.

(** ** Loops that may raise *)

Lemma for_each_Forall2 {A B} (f : A -> res B) (l : list A) (bs : list B) :
  for_each f l = Ok bs -> Forall2 (fun a b => f a = Ok b) l bs.
Proof.
  revert bs. induction l as [|a l IH]; simpl; intros bs.
  - intros [= <-]. constructor.
  - destruct (f a) as [b|e] eqn:Hfa; simpl; [|discriminate].
    destruct (for_each f l) as [bs'|e]; simpl; [|discriminate].
    intros [= <-]. constructor; auto.
Qed.

Lemma for_each_total {A B} (f : A -> res B) (l : list A) :
  (forall a, In a l -> exists b, f a = Ok b) -> exists bs, for_each f l = Ok bs.
Proof.
  induction l as [|a l IH]; simpl; intros Hf; [eauto|].
  destruct (Hf a) as [b ->]; [now left|]. simpl.
  destruct IH as [bs ->]; [intros; apply Hf; now right|]. simpl. eauto.
Qed.

Lemma find_exists {A} (p : A -> bool) (l : list A) (x : A) :
  In x l -> p x = true -> exists y, List.find p l = Some y.
Proof.
  induction l as [|z l IH]; simpl; [tauto|].
  intros [->|Hx] Hp; [rewrite Hp; eauto|]. destruct (p z); eauto.
Qed.

Lemma filter_true_all {A} (l : list A) : List.filter (fun _ => true) l = l.
Proof. induction l as [|x l IH]; simpl; [reflexivity|now rewrite IH]. Qed.

Lemma find_first {A} (p : A -> bool) (l : list A) (x : A) :
  List.find p l = Some x ->
  exists l1 l2, l = l1 ++ x :: l2 /\ p x = true /\ forall y, In y l1 -> p y = false.
Proof.
  induction l as [|z l IH]; simpl; [discriminate|].
  destruct (p z) eqn:Hz.
  - intros [= ->]. exists [], l. split; [reflexivity|]. split; [assumption|intros y []].
  - intros Hx. destruct (IH Hx) as (l1 & l2 & -> & Hp & Hl1).
    exists (z :: l1), l2. split; [reflexivity|]. split; [assumption|].
    intros y [<-|Hy]; auto.
Qed.

(** ** Binary64 comparisons *)

Module FloatFacts.

Local Open Scope float_scope.

Lemma SFcompare_antisym (a b : spec_float) :
  SFcompare b a = option_map CompOpp (SFcompare a b).
Proof.
  destruct a as [sa|sa| |sa ma ea], b as [sb|sb| |sb mb eb]; simpl;
    try reflexivity; try (destruct sa; reflexivity); try (destruct sb; reflexivity);
    try (destruct sa, sb; reflexivity).
  destruct sa, sb; simpl; try reflexivity;
    rewrite (Z.compare_antisym ea eb); destruct (ea ?= eb)%Z; simpl; try reflexivity;
    rewrite (ZC4 mb ma); destruct (Pos.compare_cont Eq ma mb); reflexivity.
Qed.

Lemma ltb_not_leb (x y : float) : PrimFloat.ltb x y = true -> PrimFloat.leb y x = false.
Proof.
  rewrite FloatAxioms.ltb_spec, FloatAxioms.leb_spec. unfold SFltb, SFleb.
  rewrite (SFcompare_antisym (Prim2SF x) (Prim2SF y)).
  destruct (SFcompare (Prim2SF x) (Prim2SF y)) as [[]|]; simpl; congruence.
Qed.

Lemma leb_refl_of_leb_l (x y : float) : PrimFloat.leb x y = true -> PrimFloat.leb x x = true.
Proof.
  rewrite !FloatAxioms.leb_spec. unfold SFleb.
  destruct (Prim2SF x) as [s|s| |s m e], (Prim2SF y) as [sy|sy| |sy my ey]; simpl;
    try congruence; try (destruct s; reflexivity); intros _;
    destruct s; rewrite ?Z.compare_refl, ?Pos.compare_cont_refl; reflexivity.
Qed.

Lemma leb_refl_of_leb_r (x y : float) : PrimFloat.leb x y = true -> PrimFloat.leb y y = true.
Proof.
  rewrite !FloatAxioms.leb_spec. unfold SFleb.
  destruct (Prim2SF x) as [s|s| |s m e], (Prim2SF y) as [sy|sy| |sy my ey]; simpl;
    try congruence; try (destruct sy; reflexivity); intros _;
    destruct sy; rewrite ?Z.compare_refl, ?Pos.compare_cont_refl; reflexivity.
Qed.

Lemma eqb_zero_cases (w : float) : PrimFloat.eqb w 0 = true -> w = 0 \/ w = (-0).
Proof.
  rewrite FloatAxioms.eqb_spec. unfold SFeqb. intros H.
  rewrite <- (SF2Prim_Prim2SF w).
  change (Prim2SF 0) with (S754_zero false) in H.
  destruct (Prim2SF w) as [s|s| |s m e]; simpl in H; try discriminate.
  - destruct s; [right|left]; reflexivity.
  - destruct s; discriminate.
  - destruct s; discriminate.
Qed.

Lemma zero_weight_bounds (w : float) :
  PrimFloat.eqb w 0 = true -> PrimFloat.eqb (w * 0.8) 0 = true /\ PrimFloat.eqb (w * 1.2) 0 = true.
Proof. intros [->| ->]%eqb_zero_cases; split; reflexivity. Qed.

Lemma ltb_irrefl (x : float) : PrimFloat.ltb x x = false.
Proof.
  destruct (PrimFloat.ltb x x) eqn:H; [|reflexivity].
  pose proof (ltb_not_leb _ _ H) as H1.
  rewrite FloatAxioms.ltb_spec in H. rewrite FloatAxioms.leb_spec in H1.
  unfold SFltb, SFleb in *. destruct (SFcompare _ _) as [[]|]; congruence.
Qed.

End FloatFacts.

(** ** The ledger merger *)

Module MergerFacts.
Import Merger.

(** *** SKU canonicalisation *)

Lemma zfill_length (w : nat) (s : pystr) : length (zfill w s) = Nat.max w (length s).
Proof. unfold zfill. rewrite length_app, repeat_length. lia. Qed.

Lemma clean_jan_length (c : cell) : length (clean_jan c) = 13%nat.
Proof. unfold clean_jan. rewrite length_take, zfill_length. lia. Qed.

Lemma clean_jan_digits (c : cell) : Forall (fun ch => isdecimal ch = true) (clean_jan c).
Proof.
  unfold clean_jan, zfill. apply Forall_take, Forall_app. split.
  - apply Forall_forall. intros ch Hch. apply list_elem_of_In, repeat_spec in Hch.
    now subst.
  - apply Forall_forall. intros ch Hch. now apply list_elem_of_In, filter_In in Hch.
Qed.

Lemma clean_jan_no_digit (c : cell) :
  List.filter isdecimal (astype_str c) = [] -> clean_jan c = repeat 48 13.
Proof. unfold clean_jan, zfill. intros ->. reflexivity. Qed.

Lemma clean_jan_long (c : cell) :
  (13 <= length (List.filter isdecimal (astype_str c)))%nat ->
  clean_jan c = take 13 (List.filter isdecimal (astype_str c)).
Proof.
  unfold clean_jan, zfill. intros Hlen.
  replace (13 - _)%nat with 0%nat by lia. reflexivity.
Qed.

(** Canonical SKUs are left alone: a string of 13 decimal digits is its own
    canonical form. *)
Lemma clean_jan_canonical_fixed (s : pystr) :
  length s = 13%nat -> Forall (fun ch => isdecimal ch = true) s -> clean_jan (CStr s) = s.
Proof.
  intros Hlen Hdig. unfold clean_jan, zfill. simpl astype_str.
  assert (List.filter isdecimal s = s) as ->.
  { clear Hlen. induction Hdig as [|ch s Hch _ IH]; simpl; [reflexivity|].
    now rewrite Hch, IH. }
  rewrite Hlen. simpl. rewrite <- Hlen. apply firstn_all.
Qed.

(** *** Lists and sets *)

Lemma filter_all {A} (p : A -> bool) (l : list A) :
  (forall x, In x l -> p x = true) -> List.filter p l = l.
Proof.
  induction l as [|x l IH]; simpl; intros Hp; [reflexivity|].
  rewrite (Hp x) by now left. f_equal. apply IH. intros y Hy. apply Hp. now right.
Qed.

Lemma filter_twice {A} (p q : A -> bool) (l : list A) :
  List.filter q (List.filter p l) = List.filter (fun x => p x && q x) l.
Proof.
  induction l as [|x l IH]; simpl; [reflexivity|].
  destruct (p x); simpl; [destruct (q x)|]; now rewrite IH.
Qed.

Lemma filter_NoDup_map {A B} (k : A -> B) (p : A -> bool) (l : list A) :
  NoDup (List.map k l) -> NoDup (List.map k (List.filter p l)).
Proof.
  induction l as [|x l IH]; simpl; [auto|].
  rewrite NoDup_cons. intros [Hx Hl]. destruct (p x); simpl; [|auto].
  apply NoDup_cons. split; [|auto].
  rewrite list_elem_of_In, in_map_iff in *. intros (y & Hk & Hy).
  apply Hx. exists y. apply filter_In in Hy. tauto.
Qed.

Lemma filter_split_perm {A} (p q : A -> bool) (l : list A) :
  (forall x, p x && q x = false) ->
  Permutation (List.filter p l ++ List.filter q l) (List.filter (fun x => p x || q x) l).
Proof.
  intros Hpq. induction l as [|x l IH]; simpl; [constructor|].
  specialize (Hpq x). destruct (p x), (q x); simpl in *; try discriminate.
  - now constructor.
  - rewrite <- IH. symmetry. apply Permutation_middle.
  - exact IH.
Qed.

Lemma jan_set_spec (column : list cell) (x : pystr) :
  x ∈ jan_set column <-> In (CStr x) column.
Proof.
  unfold jan_set. rewrite elem_of_list_to_set, list_elem_of_In.
  induction column as [|c column IH]; simpl; [tauto|].
  destruct c as [| |s]; simpl; rewrite ?IH; intuition (try discriminate).
  - subst. now left.
  - left. congruence.
Qed.

Lemma isin_collides_new (df : list Row) (c : cell) :
  isin c (jan_set (List.map jan_new df)) = collides c (new_skus df).
Proof.
  destruct c as [| |x]; simpl; try reflexivity. apply bool_decide_ext.
  rewrite jan_set_spec, list_elem_of_In. unfold new_skus.
  induction df as [|r df IH]; simpl; [tauto|].
  rewrite IH. destruct (jan_new r) as [| |s]; simpl; intuition (try discriminate).
  - left. congruence.
  - left. congruence.
Qed.

Lemma isin_collides_old (df : list Row) (c : cell) :
  isin c (jan_set (List.map jan_old df)) = collides c (old_skus df).
Proof.
  destruct c as [| |x]; simpl; try reflexivity. apply bool_decide_ext.
  rewrite jan_set_spec, list_elem_of_In. unfold old_skus.
  induction df as [|r df IH]; simpl; [tauto|].
  rewrite IH. destruct (jan_old r) as [| |s]; simpl; intuition (try discriminate).
  - left. congruence.
  - left. congruence.
Qed.

Lemma collides_spec_new (df : list Row) (x : pystr) :
  collides (CStr x) (new_skus df) = true <-> exists r, In r df /\ jan_new r = CStr x.
Proof.
  simpl. rewrite bool_decide_eq_true, list_elem_of_In. unfold new_skus.
  induction df as [|r df IH]; simpl.
  - split; [tauto|]. intros (? & [] & _).
  - destruct (jan_new r) as [| |s] eqn:Hr; simpl; rewrite ?IH.
    + split; [intros (r' & ? & ?); eauto|]. intros (r' & [<-|?] & ?); [congruence|eauto].
    + split; [intros (r' & ? & ?); eauto|]. intros (r' & [<-|?] & ?); [congruence|eauto].
    + split.
      * intros [<-|(r' & ? & ?)]; eauto.
      * intros (r' & [<-|?] & ?); [left; congruence|right; eauto].
Qed.

(** *** The guards of steps 1 to 3 change nothing *)

Lemma step1_unguarded (pats : list pystr) (existing_df : list Row) :
  (if negb (empty_df existing_df)
   then jan_set (List.map jan_new
                   (List.filter (fun r => str_contains pats (source r)) existing_df))
   else ∅)
  = jan_set (List.map jan_new (List.filter (feed_kind pats) existing_df)).
Proof. destruct existing_df; reflexivity. Qed.

Lemma guard_id {A} (g : bool) (y x : A) :
  (g = false -> y = x) -> (if g then y else x) = y.
Proof. destruct g; [reflexivity|]. intros H. symmetry. now apply H. Qed.

Lemma isin_empty (c : cell) : isin c ∅ = false.
Proof. destruct c; reflexivity. Qed.

(** The code of [remove_duplicates_advanced] computes the merge of the
    specification. *)
Lemma remove_duplicates_with_spec (pats : list pystr) (e f m : list Row) :
  remove_duplicates_with pats e f m = spec_merge pats e f m.
Proof.
  unfold remove_duplicates_with, spec_merge. cbv zeta.
  rewrite step1_unguarded.
  set (S1 := jan_set (List.map jan_new (List.filter (feed_kind pats) e))).
  rewrite (guard_id _ (List.filter (fun r => negb (isin (jan_new r) S1)) m) m).
  2:{ intros Hg. apply andb_false_iff in Hg as [Hg|Hg].
      - destruct m; [reflexivity|discriminate].
      - apply bool_decide_eq_false in Hg. apply dec_stable in Hg.
        apply filter_all. intros r _. now rewrite Hg, isin_empty. }
  rewrite (filter_ext (fun r => negb (isin (jan_new r) S1))
             (fun r => negb (collides (jan_new r)
                               (new_skus (List.filter (feed_kind pats) e)))))
    by (intros r; subst S1; now rewrite isin_collides_new).
  set (m1 := List.filter _ m).
  rewrite guard_id.
  - rewrite filter_twice.
    rewrite (filter_ext
               (fun r => negb (isin (jan_new r) (jan_set (List.map jan_new f)))
                         && negb (isin (jan_old r) (jan_set (List.map jan_old f))))
               (fun r => negb (collides (jan_new r) (new_skus f)
                               || collides (jan_old r) (old_skus f))))
      by (intros r; now rewrite isin_collides_new, isin_collides_old, negb_orb).
    reflexivity.
  - intros Hg. apply andb_false_iff in Hg as [Hg|Hg].
    + destruct f; [|discriminate]. simpl.
      rewrite !filter_all; [reflexivity|intros r _; change (jan_set []) with (∅ : gset pystr); now rewrite isin_empty..].
    + destruct m1; [reflexivity|discriminate].
Qed.

(** *** What the merged ledger holds *)

Lemma app_middle {A} (e f1 f2 m : list A) (x : A) :
  e ++ (f1 ++ x :: f2) ++ m = (e ++ f1) ++ x :: (f2 ++ m).
Proof. now rewrite <- !app_assoc. Qed.

Lemma spec_merge_In (pats : list pystr) (e f m : list Row) (r : Row) :
  In r (spec_merge pats e f m) ->
  (In r e \/ In r f
   \/ (In r m
       /\ collides (jan_new r) (new_skus (List.filter (feed_kind pats) e)) = false
       /\ collides (jan_new r) (new_skus f) = false
       /\ collides (jan_old r) (old_skus f) = false))
  /\ cell_eqb (jan_old r) (jan_new r) = false.
Proof.
  unfold spec_merge. cbv zeta. rewrite filter_In, negb_true_iff.
  intros [Hr Hne]. split; [|assumption].
  apply drop_duplicates_In in Hr. rewrite !in_app_iff, !filter_In in Hr.
  destruct Hr as [?|[?|((? & H1) & H2)]]; [auto..|].
  right; right. apply negb_true_iff in H1. apply negb_true_iff, orb_false_iff in H2.
  tauto.
Qed.

Lemma spec_merge_NoDup (pats : list pystr) (e f m : list Row) :
  NoDup (List.map (fun r => cell_key (jan_new r)) (spec_merge pats e f m)).
Proof. unfold spec_merge. cbv zeta. apply filter_NoDup_map, drop_duplicates_NoDup. Qed.

(** A feed row is in the merged ledger when no accumulated row and no
    earlier feed row has its new JAN, and its two JANs differ. *)
Lemma spec_merge_feed_kept (pats : list pystr) (e f1 f2 m : list Row) (fr : Row) :
  (forall a, In a e -> cell_key (jan_new a) <> cell_key (jan_new fr)) ->
  (forall y, In y f1 -> cell_key (jan_new y) <> cell_key (jan_new fr)) ->
  cell_eqb (jan_old fr) (jan_new fr) = false ->
  In fr (spec_merge pats e (f1 ++ fr :: f2) m).
Proof.
  intros He Hf Hne. unfold spec_merge. cbv zeta. rewrite filter_In. split.
  - rewrite app_middle. apply drop_duplicates_first.
    intros y Hy. apply in_app_iff in Hy as [Hy|Hy]; auto.
  - now rewrite Hne.
Qed.

Lemma cell_eqb_false_neq (a b : cell) : a <> b -> cell_eqb a b = false.
Proof.
  destruct a, b; simpl; try reflexivity. intros Hne.
  apply bool_decide_eq_false_2. congruence.
Qed.

Lemma cell_key_CStr_neq (c : cell) (s : pystr) :
  c <> CStr s -> cell_key c <> cell_key (CStr s).
Proof. destruct c; simpl; congruence. Qed.

(** *** Frames whose JAN columns are canonical *)

Lemma clean_jan_codes_fixed (df : list Row) :
  Forall canonical_row df -> clean_jan_codes df = df.
Proof.
  induction 1 as [|r df [Ho Hn] _ IH]; simpl; [reflexivity|]. rewrite IH. f_equal.
  destruct Ho as (so & Hso & Hlo & Hdo), Hn as (sn & Hsn & Hln & Hdn).
  destruct r; simpl in *. subst.
  now rewrite !clean_jan_canonical_fixed.
Qed.

Lemma clean_jan_codes_canonical (df : list Row) (r : Row) :
  In r (clean_jan_codes df) -> canonical r.
Proof.
  unfold clean_jan_codes. rewrite in_map_iff. intros (r0 & <- & _).
  split; simpl; eauto.
Qed.

Lemma remove_old_kao_planet_In (cols : bool) (df : list Row) (periods : list pystr)
    (r : Row) :
  In r (remove_old_kao_planet cols df periods) -> In r df.
Proof.
  unfold remove_old_kao_planet. destruct (empty_df df); [auto|].
  destruct cols; simpl; [|auto].
  rewrite in_app_iff, !filter_In. tauto.
Qed.

Lemma merge_ledger_ok (pats : list pystr) (e f m : list Row) :
  (forall r, In r e \/ In r f \/ In r m -> canonical r) ->
  ledger_ok (remove_duplicates_with pats e f m).
Proof.
  intros Hcan. rewrite remove_duplicates_with_spec. split.
  - apply NoDup_ListNoDup, (NoDup_map_inv cell_key). rewrite map_map.
    apply NoDup_ListNoDup, spec_merge_NoDup.
  - apply Forall_forall. intros r Hr. apply list_elem_of_In, spec_merge_In in Hr as [Hin Hne].
    destruct (Hcan r) as [[s Hs] [t Ht]]; [tauto|].
    rewrite Hs, Ht in *. simpl in Hne. apply bool_decide_eq_false in Hne. congruence.
Qed.

Lemma remove_old_kao_planet_ok (cols : bool) (df : list Row) (periods : list pystr) :
  ledger_ok df -> ledger_ok (remove_old_kao_planet cols df periods).
Proof.
  intros [Hnd Hne]. unfold remove_old_kao_planet.
  destruct (empty_df df); [now split|].
  destruct cols; simpl; [|now split]. split.
  - apply NoDup_ListNoDup. eapply Permutation_NoDup.
    + symmetry. apply Permutation_map, filter_split_perm.
      intros r. destruct (str_contains feed_pattern_v3 (source r)); reflexivity.
    + now apply NoDup_ListNoDup, filter_NoDup_map.
  - rewrite Forall_forall in *. intros r Hr. apply Hne.
    rewrite list_elem_of_In in *. rewrite in_app_iff, !filter_In in Hr. tauto.
Qed.

End MergerFacts.

Module MergerClaims.
Import Merger MergerFacts.

(** C10. SKU canonicalisation in the ledger merger is total and always
    yields a string of exactly 13 digit characters; a value with no digit
    character (a missing value, rendered 'nan', among them) becomes
    '0000000000000'; a value with more than 13 digits keeps its first 13
    digits; so distinct raw values can collide, and the deduplication on
    the new JAN then treats them as one. *)
Theorem C10_clean_jan_codes_canonical (c : cell) :
  let digits := List.filter isdecimal (astype_str c) in
  length (clean_jan c) = 13%nat
  /\ Forall (fun ch => isdecimal ch = true) (clean_jan c)
  /\ (digits = [] -> clean_jan c = lit "0000000000000")
  /\ clean_jan CNaN = lit "0000000000000"
  /\ ((13 < length digits)%nat -> clean_jan c = take 13 digits)
  /\ (Merger.jan_new Scenario.long_a <> Merger.jan_new Scenario.long_b
      /\ clean_jan (Merger.jan_new Scenario.long_a)
         = clean_jan (Merger.jan_new Scenario.long_b)
      /\ length (weekly_run [] [] [Scenario.long_a; Scenario.long_b]) = 1%nat).
Proof.
  cbv zeta. split; [|split; [|split; [|split; [|split; [|split; [|split]]]]]].
  - apply clean_jan_length.
  - apply clean_jan_digits.
  - intros Hd. now rewrite clean_jan_no_digit.
  - reflexivity.
  - intros Hd. apply clean_jan_long. lia.
  - discriminate.
  - reflexivity.
  - vm_compute. reflexivity.
Qed.

(** C4. In the merged ledger of any run the new JANs are pairwise distinct
    and no row has its old JAN equal to its new JAN, in both mergers
    (週次統合リスト作成.py and 統合スクリプト.py); the other operations of
    the merger keep the invariant: removing old feed periods keeps it, and
    re-canonicalising a ledger of canonical JANs changes nothing. On frames
    that were not canonicalised the merge still leaves one row per new-JAN
    key and no row whose two JANs compare equal. *)
Theorem C4_merged_ledger_invariant (has_columns : bool)
    (existing_df kao_planet_df matching_df : list Row) (periods_to_keep : list pystr) :
  ledger_ok (weekly_run existing_df kao_planet_df matching_df)
  /\ ledger_ok (v3_run has_columns existing_df kao_planet_df matching_df periods_to_keep)
  /\ (forall pats,
        NoDup (List.map (fun r => cell_key (jan_new r))
                 (remove_duplicates_with pats existing_df kao_planet_df matching_df))
        /\ Forall (fun r => cell_eqb (jan_old r) (jan_new r) = false)
             (remove_duplicates_with pats existing_df kao_planet_df matching_df))
  /\ (ledger_ok existing_df ->
      ledger_ok (remove_old_kao_planet has_columns existing_df periods_to_keep))
  /\ (Forall canonical_row existing_df -> clean_jan_codes existing_df = existing_df).
Proof.
  split; [|split; [|split; [|split]]].
  - apply merge_ledger_ok. intros r [H|[H|H]]; eapply clean_jan_codes_canonical, H.
  - apply merge_ledger_ok. intros r [H|[H|H]].
    + apply remove_old_kao_planet_In in H. eapply clean_jan_codes_canonical, H.
    + eapply clean_jan_codes_canonical, H.
    + eapply clean_jan_codes_canonical, H.
  - intros pats. rewrite remove_duplicates_with_spec. split.
    + apply spec_merge_NoDup.
    + apply Forall_forall. intros r Hr.
      now apply list_elem_of_In, spec_merge_In in Hr as [_ Hne].
  - apply remove_old_kao_planet_ok.
  - apply clean_jan_codes_fixed.
Qed.

(** C3 (amended). The ledger merge computes the merge of the specification:
    matching rows whose new JAN is in the accumulated ledger under a feed
    source kind are dropped, then matching rows whose new or old JAN
    collides with this run's feed rows, then accumulated, feed and matching
    rows are concatenated in that order and the first row per new JAN is
    kept (and rows with equal JANs are purged). When a feed entry and a
    matching row claim the same new JAN, every row of the merged ledger
    with that new JAN is an accumulated or a feed row, never the matching
    row; the feed entry itself is in the merged ledger when no accumulated
    row and no earlier feed row has that new JAN and its old JAN differs
    from its new JAN. *)
Theorem C3_merge_priority (existing_df f1 f2 matching_df : list Row)
    (feed_row matching_row : Row) (sku : pystr) :
  In matching_row matching_df ->
  jan_new feed_row = CStr sku ->
  jan_new matching_row = CStr sku ->
  let kao_planet_df := f1 ++ feed_row :: f2 in
  let merged := remove_duplicates_advanced existing_df kao_planet_df matching_df in
  merged = spec_merge feed_pattern_weekly existing_df kao_planet_df matching_df
  /\ (forall r, In r merged -> jan_new r = CStr sku ->
                In r existing_df \/ In r kao_planet_df)
  /\ ((forall a, In a existing_df -> jan_new a <> CStr sku) ->
      (forall y, In y f1 -> jan_new y <> CStr sku) ->
      jan_old feed_row <> jan_new feed_row ->
      In feed_row merged).
Proof.
  intros Hm Hf Hmr kao_planet_df merged.
  assert (Heq : merged
                = spec_merge feed_pattern_weekly existing_df kao_planet_df matching_df)
    by apply remove_duplicates_with_spec.
  split; [exact Heq|]. rewrite Heq. split.
  - intros r Hr Hsku. apply spec_merge_In in Hr as [[?|[?|(_ & _ & Hno & _)]] _]; auto.
    exfalso. rewrite Hsku in Hno.
    assert (collides (CStr sku) (new_skus kao_planet_df) = true) as Hyes.
    { apply collides_spec_new. exists feed_row. split; [|assumption].
      apply in_elt. }
    congruence.
  - intros He Hf1 Hne. apply spec_merge_feed_kept.
    + intros a Ha. rewrite Hf. apply cell_key_CStr_neq. auto.
    + intros y Hy. rewrite Hf. apply cell_key_CStr_neq. auto.
    + now apply cell_eqb_false_neq.
Qed.

(** Scenario D: with an empty ledger the feed entry is kept and the
    matching row is not. *)
Lemma C3_scenario_D :
  In Scenario.feed_d
     (remove_duplicates_advanced [] [Scenario.feed_d] [Scenario.match_d])
  /\ ~ In Scenario.match_d
        (remove_duplicates_advanced [] [Scenario.feed_d] [Scenario.match_d]).
Proof.
  destruct (C3_merge_priority [] [] [] [Scenario.match_d]
              Scenario.feed_d Scenario.match_d (lit "4900000000001"))
    as (_ & Honly & Hkept); [now left|reflexivity|reflexivity|].
  split.
  - apply Hkept; [intros a []|intros y []|discriminate].
  - intros Hin. destruct (Honly _ Hin eq_refl) as [[]|[Heq|[]]]. discriminate Heq.
Defined.

(** C3 as the specification words it does not hold: an accumulated row
    with the same new JAN outranks the feed entry, which is then absent from
    the merged ledger. *)
Lemma C3_feed_entry_can_lose :
  In Scenario.feed_d [Scenario.feed_d]
  /\ In Scenario.match_d [Scenario.match_d]
  /\ jan_new Scenario.feed_d = jan_new Scenario.match_d
  /\ remove_duplicates_advanced [Scenario.acc_d] [Scenario.feed_d] [Scenario.match_d]
     = [Scenario.acc_d]
  /\ ~ In Scenario.feed_d
        (remove_duplicates_advanced [Scenario.acc_d] [Scenario.feed_d] [Scenario.match_d]).
Proof.
  assert (Hrun : remove_duplicates_advanced
                   [Scenario.acc_d] [Scenario.feed_d] [Scenario.match_d]
                 = [Scenario.acc_d]) by (vm_compute; reflexivity).
  split; [now left|]. split; [now left|]. split; [reflexivity|]. split; [exact Hrun|].
  rewrite Hrun. intros [Heq|[]]. discriminate Heq.
Qed.

End MergerClaims.

(** ** The matching engine *)

Module MatcherFacts.
Import Matcher MatcherViews FloatFacts.

Local Open Scope float_scope.

Section Externals.

Variable fuzz_ratio : pystr -> pystr -> Z.
Variable float_of_text : pystr -> option float.
Variable to_numeric_text : pystr -> option float.

Local Abbreviation tier_candidates := (tier_candidates float_of_text).
Local Abbreviation weight_check := (weight_check float_of_text).
Local Abbreviation weight_check_column := (weight_check_column float_of_text).
Local Abbreviation select_best := (select_best fuzz_ratio).
Local Abbreviation find_best_match := (find_best_match fuzz_ratio float_of_text).
Local Abbreviation similarities_of := (similarities_of fuzz_ratio).

(** *** The tier chain *)

(** An index miss is caught: the lookup is an empty frame, not an
    exception. *)
Lemma loc_miss_caught {K} `{Countable K} (idx : gmap K (list ProcRow)) (label : K) :
  idx !! label = None ->
  loc idx label = Raise KeyError /\ try_except_KeyError (loc idx label) [] = Ok [].
Proof. unfold loc. intros ->. split; reflexivity. Qed.

Lemma loc_caught_total {K} `{Countable K} (idx : gmap K (list ProcRow)) (label : K) :
  try_except_KeyError (loc idx label) [] = Ok (default [] (idx !! label)).
Proof. unfold loc. destruct (idx !! label); reflexivity. Qed.

(** A pair that the index holds is answered with its rows. *)
Lemma loc_pair_hit (old_columns : list pystr) (idx : gmap (pystr * pystr) (list ProcRow))
    (label : pystr * pystr) (rows : list ProcRow) :
  idx !! label = Some rows -> loc_pair old_columns idx label = Ok (Rows rows).
Proof. unfold loc_pair. now intros ->. Qed.

(** A pair that the index lacks, when the index has no row of the maker
    or the frame has no column named as the type text: KeyError, caught. *)
Lemma loc_pair_miss_caught (old_columns : list pystr)
    (idx : gmap (pystr * pystr) (list ProcRow)) (label : pystr * pystr) :
  idx !! label = None ->
  types_of idx (fst label) = [] \/ snd label ∉ old_columns ->
  loc_pair old_columns idx label = Raise KeyError
  /\ try_except_KeyError (loc_pair old_columns idx label) (Rows []) = Ok (Rows []).
Proof.
  unfold loc_pair. intros -> Hmiss.
  destruct (types_of idx (fst label)) as [|t ts]; [now split|].
  destruct Hmiss as [|Hcol]; [discriminate|].
  rewrite bool_decide_eq_false_2 by assumption. now split.
Qed.

(** A pair that the index lacks, a maker that it has and a type text that
    names a column: no KeyError. *)
Lemma loc_pair_column (old_columns : list pystr)
    (idx : gmap (pystr * pystr) (list ProcRow)) (label : pystr * pystr) :
  idx !! label = None -> types_of idx (fst label) <> [] -> snd label ∈ old_columns ->
  loc_pair old_columns idx label = Ok (Column (types_of idx (fst label))).
Proof.
  unfold loc_pair. intros -> Hmaker Hcol.
  destruct (types_of idx (fst label)) as [|t ts]; [congruence|].
  now rewrite bool_decide_eq_true_2.
Qed.

(** The types of a maker are those of the pairs of the index. *)
Lemma types_of_In (idx : gmap (pystr * pystr) (list ProcRow)) (maker ty : pystr) :
  ty ∈ types_of idx maker <-> is_Some (idx !! (maker, ty)).
Proof.
  unfold types_of. rewrite list_elem_of_omap. split.
  - intros ([[mk t] rows] & Hin & Hsome). simpl in Hsome.
    case_bool_decide as Hmk; [|discriminate]. injection Hsome as ->. subst mk.
    apply elem_of_map_to_list in Hin. now exists rows.
  - intros [rows Hrows]. exists ((maker, ty), rows). split.
    + now apply elem_of_map_to_list.
    + simpl. now rewrite bool_decide_eq_true_2.
Qed.

Lemma read_columns_raises {A} (labels names : list pystr) :
  exists e, @read_columns A labels names = Raise e.
Proof. unfold read_columns. destruct (forallb _ names); eauto. Qed.

Lemma read_columns_KeyError {A} (labels names : list pystr) (name : pystr) :
  name ∈ names -> name ∉ labels -> @read_columns A labels names = Raise KeyError.
Proof.
  intros Hname Hlabel. unfold read_columns.
  destruct (forallb _ names) eqn:Hall; [|reflexivity].
  rewrite forallb_forall in Hall. apply list_elem_of_In, Hall in Hname.
  now apply bool_decide_eq_true in Hname.
Qed.

Lemma weight_check_column_cases (new_weight : wcell) (labels : list pystr) :
  weight_check_column new_weight labels = Raise KeyError
  \/ weight_check_column new_weight labels = Raise NotFollowed.
Proof.
  unfold Matcher.weight_check_column, read_columns. destruct (notna_w new_weight).
  - destruct (get_weight_range _ _) as [lo hi].
    destruct (_ && _); destruct (forallb _ _); auto.
  - destruct (forallb _ _); auto.
Qed.

(** On the frame of one row the embedding gives no result. *)
Lemma weight_check_column_raises (new_weight : wcell) (labels : list pystr) :
  exists e, weight_check_column new_weight labels = Raise e.
Proof.
  unfold Matcher.weight_check_column. destruct (notna_w new_weight).
  - destruct (get_weight_range _ _) as [lo hi].
    destruct (_ && _); apply read_columns_raises.
  - apply read_columns_raises.
Qed.

Lemma weight_check_column_KeyError (new_weight : wcell) (labels : list pystr) :
  lit "目付_旧_float" ∉ labels -> lit "JANコード_旧" ∉ labels ->
  weight_check_column new_weight labels = Raise KeyError.
Proof.
  intros Hw Hj. unfold Matcher.weight_check_column.
  assert (H1 : @read_columns tier_step labels [lit "目付_旧_float"] = Raise KeyError).
  { apply (read_columns_KeyError _ _ (lit "目付_旧_float")); [|assumption].
    apply list_elem_of_In. now left. }
  assert (H2 : @read_columns tier_step labels [lit "商品名称（カナ）_旧"; lit "JANコード_旧"]
               = Raise KeyError).
  { apply (read_columns_KeyError _ _ (lit "JANコード_旧")); [|assumption].
    apply list_elem_of_In. right. now left. }
  destruct (notna_w new_weight); [|exact H2].
  destruct (get_weight_range _ _) as [lo hi]. now destruct (_ && _).
Qed.

(** The if / elif / else over the keys, with the lookups done. *)
Lemma tier_candidates_unfold (old_columns : list pystr) (new_row : Row)
    (processed : list ProcRow)
    (brands : gmap pystr (list ProcRow)) (multi : gmap (pystr * pystr) (list ProcRow)) :
  tier_candidates old_columns new_row processed brands multi =
  let new_maker_name := norm_key (maker_name new_row) in
  let new_brand := norm_key (brand_code new_row) in
  let new_type := norm_key (type_code new_row) in
  let after tier_miss pat_only pat_weight matching_old :=
    match matching_old with
    | [] => Ok (Return_ (no_candidate tier_miss []))
    | _ :: _ =>
        match weight_check (weight new_row) matching_old pat_only pat_weight with
        | None => Ok (Return_ (no_candidate WeightOutOfRange []))
        | Some (m, skips, pat) => Ok (Continue m skips pat)
        end
    end in
  if reads_column old_columns new_row multi then
    weight_check_column (weight new_row) (types_of multi (default [] new_maker_name))
  else if truthy new_brand then
    after BrandMismatch BrandOnly BrandWeight
      (default [] (brands !! default [] new_brand))
  else if truthy new_maker_name && truthy new_type then
    after MakerTypeMismatch MakerTypeOnly MakerTypeWeight
      (default [] (multi !! (default [] new_maker_name, default [] new_type)))
  else Ok (Return_ (no_candidate InsufficientKey [])).
Proof.
  unfold Matcher.tier_candidates, reads_column, loc_pair. cbv zeta.
  destruct (truthy (norm_key (brand_code new_row))); simpl.
  - now rewrite loc_caught_total.
  - destruct (truthy _ && truthy _); [|reflexivity]. simpl.
    destruct (multi !! _); [reflexivity|].
    destruct (types_of multi _); [reflexivity|].
    now case_bool_decide.
Qed.

(** The tier chain returns only when the lookup is not answered with a
    column. *)
Lemma tier_candidates_Ok (old_columns : list pystr) (new_row : Row)
    (processed : list ProcRow)
    (brands : gmap pystr (list ProcRow)) (multi : gmap (pystr * pystr) (list ProcRow))
    (step : tier_step) :
  tier_candidates old_columns new_row processed brands multi = Ok step ->
  reads_column old_columns new_row multi = false.
Proof.
  rewrite tier_candidates_unfold. cbv zeta.
  destruct (reads_column old_columns new_row multi); [|reflexivity].
  destruct (weight_check_column_raises (weight new_row)
              (types_of multi (default [] (norm_key (maker_name new_row))))) as [e ->].
  discriminate.
Qed.

Lemma find_best_match_Ok (old_columns : list pystr) (new_row : Row)
    (processed : list ProcRow)
    (brands : gmap pystr (list ProcRow)) (multi : gmap (pystr * pystr) (list ProcRow))
    (original : list Row) (r : MatchResult) :
  find_best_match old_columns new_row processed brands multi original = Ok r ->
  reads_column old_columns new_row multi = false.
Proof.
  unfold Matcher.find_best_match.
  destruct (Matcher.tier_candidates _ _ _ _ _ _) as [step|e] eqn:Ht; [|discriminate].
  intros _. eapply tier_candidates_Ok, Ht.
Qed.

(** A row with a brand code, and a row whose pair the index holds, are not
    answered with a column. *)
Lemma reads_column_brand (old_columns : list pystr) (new_row : Row)
    (multi : gmap (pystr * pystr) (list ProcRow)) :
  truthy (norm_key (brand_code new_row)) = true ->
  reads_column old_columns new_row multi = false.
Proof. unfold reads_column. now intros ->. Qed.

Lemma reads_column_hit (old_columns : list pystr) (new_row : Row)
    (multi : gmap (pystr * pystr) (list ProcRow)) :
  is_Some (multi !! (default [] (norm_key (maker_name new_row)),
                     default [] (norm_key (type_code new_row)))) ->
  reads_column old_columns new_row multi = false.
Proof. unfold reads_column. cbv zeta. intros [rows ->]. now rewrite andb_false_r. Qed.

Lemma reads_column_pair (old_columns : list pystr) (new_row : Row)
    (multi : gmap (pystr * pystr) (list ProcRow)) :
  reads_column old_columns new_row multi
  = negb (truthy (norm_key (brand_code new_row)))
    && pair_is_column old_columns new_row multi.
Proof. unfold reads_column, pair_is_column. cbv zeta. now rewrite !andb_assoc. Qed.

Lemma pair_is_column_no_label (old_columns : list pystr) (new_row : Row)
    (multi : gmap (pystr * pystr) (list ProcRow)) :
  (forall ty, norm_key (type_code new_row) = Some ty -> ty ∉ old_columns) ->
  pair_is_column old_columns new_row multi = false.
Proof.
  intros Hty. unfold pair_is_column. cbv zeta.
  destruct (norm_key (type_code new_row)) as [ty|] eqn:Ht;
    [|simpl; now rewrite !andb_false_r].
  specialize (Hty ty eq_refl). simpl.
  destruct (multi !! _); [now rewrite andb_false_r|].
  destruct (types_of multi _); [now rewrite andb_false_r|].
  rewrite bool_decide_eq_false_2 by assumption. now rewrite andb_false_r.
Qed.

(** A type text that names no column is not answered with a column. *)
Lemma reads_column_no_label (old_columns : list pystr) (new_row : Row)
    (multi : gmap (pystr * pystr) (list ProcRow)) :
  (forall ty, norm_key (type_code new_row) = Some ty -> ty ∉ old_columns) ->
  reads_column old_columns new_row multi = false.
Proof.
  intros Hty. rewrite reads_column_pair, (pair_is_column_no_label _ _ _ Hty).
  apply andb_false_r.
Qed.

(** A result with a candidate comes from rows that the tier chain handed
    to the ranking. *)
Lemma find_best_match_tier (old_columns : list pystr) (new_row : Row)
    (processed : list ProcRow)
    (brands : gmap pystr (list ProcRow)) (multi : gmap (pystr * pystr) (list ProcRow))
    (original : list Row) (result : MatchResult) :
  find_best_match old_columns new_row processed brands multi original = Ok result ->
  mr_has_candidate result = true ->
  exists m skips pat,
    tier_candidates old_columns new_row processed brands multi = Ok (Continue m skips pat)
    /\ select_best (kana new_row) m skips pat original = Ok result.
Proof.
  unfold Matcher.find_best_match.
  destruct (Matcher.tier_candidates _ _ _ _ _ _) as [[r0|m skips pat]|e] eqn:Ht; simpl;
    [| |discriminate].
  - intros [= <-] Hc.
    assert (Hr : exists o, r0 = no_candidate o []).
    { pose proof (tier_candidates_Ok _ _ _ _ _ _ Ht) as Hcol. revert Ht.
      rewrite tier_candidates_unfold, Hcol. cbv zeta.
      repeat match goal with
             | |- context [if ?b then _ else _] => destruct b
             | |- context [match ?x with _ => _ end] => destruct x
             end; intros [= <-]; eauto. }
    destruct Hr as [o ->]. discriminate.
  - intros Hsel _. eauto.
Qed.

(** The tier chain never raises when the lookup is not answered with a
    column. *)
Lemma tier_candidates_total (old_columns : list pystr) (new_row : Row)
    (processed : list ProcRow)
    (brands : gmap pystr (list ProcRow)) (multi : gmap (pystr * pystr) (list ProcRow)) :
  reads_column old_columns new_row multi = false ->
  exists step, tier_candidates old_columns new_row processed brands multi = Ok step.
Proof.
  intros Hcol. rewrite tier_candidates_unfold, Hcol. cbv zeta.
  repeat match goal with
         | |- context [if ?b then _ else _] => destruct b
         | |- context [match ?x with _ => _ end] => destruct x
         end; eauto.
Qed.

(** An early return of the tier chain is a result without candidate. *)
Lemma tier_candidates_return (old_columns : list pystr) (new_row : Row)
    (processed : list ProcRow)
    (brands : gmap pystr (list ProcRow)) (multi : gmap (pystr * pystr) (list ProcRow))
    (r : MatchResult) :
  tier_candidates old_columns new_row processed brands multi = Ok (Return_ r) ->
  exists o, r = no_candidate o []
            /\ (o = BrandMismatch \/ o = MakerTypeMismatch \/ o = InsufficientKey
                \/ o = WeightOutOfRange).
Proof.
  intros Ht. pose proof (tier_candidates_Ok _ _ _ _ _ _ Ht) as Hcol. revert Ht.
  rewrite tier_candidates_unfold, Hcol. cbv zeta.
  repeat match goal with
         | |- context [if ?b then _ else _] => destruct b
         | |- context [match ?x with _ => _ end] => destruct x
         end; intros [= <-]; eauto 10.
Qed.

(** *** Ranking *)

(** A result with a candidate comes from the ranking, which labels it by
    [judge] of its score. *)
Lemma select_best_judged (new_name : cell) (matching_old : list ProcRow)
    (skips : list SkipReason) (pat : Pattern) (original : list Row) (r : MatchResult) :
  select_best new_name matching_old skips pat original = Ok r ->
  mr_has_candidate r = true ->
  mr_outcome r = fst (judge (mr_score r)) /\ mr_judgment r = snd (judge (mr_score r)).
Proof.
  unfold Matcher.select_best.
  destruct (candidates_of matching_old) as [|c cs]; [intros [= <-]; discriminate|].
  destruct (sort_desc _) as [|[best_score [best_name best_jan]] ?]; [discriminate|].
  destruct (List.find _ original); [|discriminate].
  intros [= <-] _. split; reflexivity.
Qed.

Lemma find_best_match_judged (old_columns : list pystr) (new_row : Row)
    (processed : list ProcRow)
    (brands : gmap pystr (list ProcRow)) (multi : gmap (pystr * pystr) (list ProcRow))
    (original : list Row) (r : MatchResult) :
  find_best_match old_columns new_row processed brands multi original = Ok r ->
  mr_has_candidate r = true ->
  mr_outcome r = fst (judge (mr_score r)) /\ mr_judgment r = snd (judge (mr_score r)).
Proof.
  unfold Matcher.find_best_match.
  destruct (tier_candidates _ _ _ _ _) as [[r0|m skips pat]|e] eqn:Ht; simpl;
    [|apply select_best_judged|discriminate].
  intros [= <-] Hc. apply tier_candidates_return in Ht as (o & -> & _). discriminate.
Qed.

(** [judge] against the threshold. *)
Lemma judge_high (score : float) :
  fst (judge score) = HighSimilarity <-> PrimFloat.leb 0.8 score = true.
Proof. unfold judge. destruct (PrimFloat.leb 0.8 score); simpl; split; congruence. Qed.

Lemma judge_low_below (score : float) :
  PrimFloat.ltb score 0.8 = true -> judge score = (LowSimilarity, false).
Proof. intros H. unfold judge. now rewrite (ltb_not_leb _ _ H). Qed.

Lemma judge_cases (score : float) :
  judge score = (HighSimilarity, true) \/ judge score = (LowSimilarity, false).
Proof. unfold judge. destruct (PrimFloat.leb 0.8 score); auto. Qed.

(** *** Shapes of the intermediate results *)

Lemma weight_check_shape (new_weight : wcell) (matching_old : list ProcRow)
    (pat_only pat_weight : Pattern) (m : list ProcRow) (skips : list SkipReason)
    (pat : Pattern) :
  weight_check new_weight matching_old pat_only pat_weight = Some (m, skips, pat) ->
  (pat = pat_only \/ pat = pat_weight)
  /\ (skips = [] \/ (skips = [WeightSkipped] /\ notna_w new_weight = false))
  /\ (forall r, In r m -> In r matching_old).
Proof.
  unfold Matcher.weight_check. destruct (notna_w new_weight).
  - destruct (get_weight_range _ _) as [[lo|] [hi|]];
      destruct (_ && _); try (intros [= <- <- <-]; auto).
    destruct (List.filter _ _) as [|x l] eqn:Hf; [discriminate|].
    intros [= <- <- <-]. repeat split; auto.
    intros r Hr. rewrite <- Hf in Hr. now apply filter_In in Hr.
  - intros [= <- <- <-]. auto.
Qed.

Lemma select_best_shape (new_name : cell) (matching_old : list ProcRow)
    (skips : list SkipReason) (pat : Pattern) (original : list Row) (r : MatchResult) :
  select_best new_name matching_old skips pat original = Ok r ->
  r = no_candidate NoNameMatch skips
  \/ (mr_has_candidate r = true /\ mr_pattern r = Some pat /\ mr_skip r = skips
      /\ (mr_outcome r = HighSimilarity \/ mr_outcome r = LowSimilarity)).
Proof.
  unfold Matcher.select_best.
  destruct (candidates_of matching_old) as [|c cs]; [intros [= <-]; auto|].
  destruct (sort_desc _) as [|[best_score [best_name best_jan]] ?]; [discriminate|].
  destruct (List.find _ original); [|discriminate].
  intros [= <-]. right. simpl. repeat split.
  destruct (judge_cases best_score) as [-> | ->]; auto.
Qed.

(** *** The stable descending sort *)

Lemma insert_desc_perm {A} (x : float * A) (l : list (float * A)) :
  Permutation (insert_desc x l) (x :: l).
Proof.
  induction l as [|y l IH]; simpl; [reflexivity|].
  destruct (PrimFloat.ltb (fst x) (fst y)); [|reflexivity].
  rewrite IH. apply perm_swap.
Qed.

Lemma sort_desc_perm {A} (l : list (float * A)) : Permutation (sort_desc l) l.
Proof.
  induction l as [|x l IH]; simpl; [reflexivity|].
  rewrite insert_desc_perm. now constructor.
Qed.

(** The top of the sorted list: an earlier element gives way only to a
    strictly greater score among the later ones. *)
Lemma sort_desc_head {A} (x : float * A) (l : list (float * A)) :
  hd_error (sort_desc (x :: l)) =
  match hd_error (sort_desc l) with
  | Some y => if PrimFloat.ltb (fst x) (fst y) then Some y else Some x
  | None => Some x
  end.
Proof.
  simpl. destruct (sort_desc l) as [|y s]; simpl; [reflexivity|].
  destruct (PrimFloat.ltb (fst x) (fst y)); reflexivity.
Qed.

(** Equal scores: the order is the original one. *)
Lemma sort_desc_const {A} (z : float) (l : list A) :
  sort_desc (List.map (fun c => (z, c)) l) = List.map (fun c => (z, c)) l.
Proof.
  induction l as [|c l IH]; simpl; [reflexivity|].
  fold (sort_desc (List.map (fun c => (z, c)) l)). rewrite IH.
  destruct l as [|c' l]; simpl; [reflexivity|]. now rewrite ltb_irrefl.
Qed.

Lemma similarities_of_na (new_name : cell) (candidates : list (cell * cell)) :
  isna new_name = true ->
  similarities_of new_name candidates = List.map (fun c => (0, c)) candidates.
Proof.
  intros Hna. unfold Matcher.similarities_of, calculate_similarity. now rewrite Hna.
Qed.

(** *** The weight band *)

(** Weight present, readable as a float, both bounds true in Python's
    sense: the band is applied. *)
Lemma weight_check_applied (new_weight : wcell) (w : float)
    (matching_old : list ProcRow) (pat_only pat_weight : Pattern) :
  notna_w new_weight = true ->
  py_float float_of_text new_weight = Some w ->
  truthy_f (Some (w * 0.8)) && truthy_f (Some (w * 1.2)) = true ->
  weight_check new_weight matching_old pat_only pat_weight =
  match List.filter (in_window (w * 0.8) (w * 1.2)) matching_old with
  | [] => None
  | weight_filtered => Some (weight_filtered, [], pat_weight)
  end.
Proof.
  intros Hna Hw Ht. unfold Matcher.weight_check, get_weight_range.
  now rewrite Hna, Hw, Ht.
Qed.

(** Weight absent: nothing is filtered and the skip is recorded. *)
Lemma weight_check_absent (new_weight : wcell)
    (matching_old : list ProcRow) (pat_only pat_weight : Pattern) :
  notna_w new_weight = false ->
  weight_check new_weight matching_old pat_only pat_weight
  = Some (matching_old, [WeightSkipped], pat_only).
Proof. intros Hna. unfold Matcher.weight_check. now rewrite Hna. Qed.

(** Weight present but a bound is false in Python's sense (the weight is
    zero), or the weight is not readable as a float: nothing is filtered
    and nothing is recorded. *)
Lemma weight_check_bypassed (new_weight : wcell)
    (matching_old : list ProcRow) (pat_only pat_weight : Pattern) :
  notna_w new_weight = true ->
  truthy_f (fst (get_weight_range float_of_text new_weight))
  && truthy_f (snd (get_weight_range float_of_text new_weight)) = false ->
  weight_check new_weight matching_old pat_only pat_weight
  = Some (matching_old, [], pat_only).
Proof.
  intros Hna Ht. unfold Matcher.weight_check. rewrite Hna.
  destruct (get_weight_range _ _) as [lo hi]. simpl in Ht. now rewrite Ht.
Qed.

Lemma in_window_spec (lo hi : float) (matching_old : list ProcRow) (r : ProcRow) :
  In r (List.filter (in_window lo hi) matching_old) <->
  In r matching_old /\ PrimFloat.leb lo (weight_float r) = true
  /\ PrimFloat.leb (weight_float r) hi = true.
Proof. rewrite filter_In. unfold in_window. now rewrite andb_true_iff. Qed.

(** Both edges of a non-empty window are inside it. *)
Lemma in_window_edges (lo hi : float) (r : ProcRow) :
  PrimFloat.leb lo hi = true ->
  weight_float r = lo \/ weight_float r = hi ->
  in_window lo hi r = true.
Proof.
  unfold in_window. intros Hle [-> | ->]; rewrite Hle.
  - now rewrite (leb_refl_of_leb_l _ _ Hle).
  - now rewrite (leb_refl_of_leb_r _ _ Hle).
Qed.

(** *** When the matcher returns *)

Lemma set_index_In {K} `{Countable K} (key : ProcRow -> K) (rows : list ProcRow)
    (label : K) (found : list ProcRow) (r : ProcRow) :
  set_index key rows !! label = Some found -> In r found -> In r rows.
Proof.
  revert found. induction rows as [|x rows IH]; simpl; intros found.
  - now rewrite lookup_empty.
  - destruct (decide (key x = label)) as [<-|Hne].
    + rewrite lookup_insert_eq. intros [= <-] [->|Hr]; [now left|]. right.
      destruct (set_index key rows !! key x) as [l|] eqn:Hl; simpl in Hr; [|tauto].
      eapply IH; eauto.
    + rewrite lookup_insert_ne by assumption. intros Hl Hr. right. eauto.
Qed.

Lemma candidates_of_In (matching_old : list ProcRow) (c : cell * cell) :
  In c (candidates_of matching_old) ->
  exists r, In r matching_old /\ c = (kana (orig r), jan (orig r)).
Proof.
  unfold candidates_of. intros Hc%drop_duplicates_In.
  apply in_map_iff in Hc as (r & <- & Hr). eauto.
Qed.

(** The ranking returns when the old master holds a row for the JAN of
    every candidate. *)
Lemma select_best_total (new_name : cell) (matching_old : list ProcRow)
    (skips : list SkipReason) (pat : Pattern) (original : list Row) :
  (forall r, In r matching_old ->
             exists o, In o original /\ cell_eqb (jan o) (jan (orig r)) = true) ->
  exists res, select_best new_name matching_old skips pat original = Ok res.
Proof.
  intros Hold. unfold Matcher.select_best.
  destruct (candidates_of matching_old) as [|c cs] eqn:Hc; [eauto|].
  pose proof (sort_desc_perm (similarities_of new_name (c :: cs))) as Hperm.
  destruct (sort_desc _) as [|[best_score [best_name best_jan]] rest].
  - apply Permutation_nil in Hperm. discriminate.
  - assert (Hin : In (best_score, (best_name, best_jan))
                     (similarities_of new_name (c :: cs))).
    { eapply Permutation_in; [exact Hperm|now left]. }
    unfold Matcher.similarities_of in Hin. apply in_map_iff in Hin as (c0 & [= _ ->] & Hc0).
    rewrite <- Hc in Hc0. apply candidates_of_In in Hc0 as (r & Hr & [= -> ->]).
    destruct (Hold r Hr) as (o & Ho & Heq).
    destruct (find_exists (fun r0 => cell_eqb (jan r0) (jan (orig r))) original o Ho Heq)
      as [y ->]. eauto.
Qed.

(** The matcher returns when the lookup is not answered with a column and
    the old master holds a row for the JAN of every indexed row. *)
Lemma find_best_match_total (old_columns : list pystr) (new_row : Row)
    (processed : list ProcRow)
    (brands : gmap pystr (list ProcRow)) (multi : gmap (pystr * pystr) (list ProcRow))
    (original : list Row) :
  reads_column old_columns new_row multi = false ->
  (forall k found r, brands !! k = Some found -> In r found ->
     exists o, In o original /\ cell_eqb (jan o) (jan (orig r)) = true) ->
  (forall k found r, multi !! k = Some found -> In r found ->
     exists o, In o original /\ cell_eqb (jan o) (jan (orig r)) = true) ->
  exists res, find_best_match old_columns new_row processed brands multi original = Ok res.
Proof.
  intros Hcol Hb Hm. unfold Matcher.find_best_match.
  destruct (tier_candidates _ _ _ _ _) as [[r0|m skips pat]|e] eqn:Ht; simpl.
  - eauto.
  - apply select_best_total. intros r Hr.
    revert Ht. rewrite tier_candidates_unfold, Hcol. cbv zeta.
    destruct (truthy (norm_key (brand_code new_row))).
    + destruct (brands !! _) as [found|] eqn:Hl; simpl; [|discriminate].
      destruct found as [|r1 rs]; [discriminate|].
      destruct (weight_check _ _ _ _) as [[[m' sk'] p']|] eqn:Hw; [|discriminate].
      intros [= -> -> ->]. apply weight_check_shape in Hw as (_ & _ & Hsub).
      eapply Hb; eauto.
    + destruct (truthy _ && truthy _); [|discriminate].
      destruct (multi !! _) as [found|] eqn:Hl; simpl; [|discriminate].
      destruct found as [|r1 rs]; [discriminate|].
      destruct (weight_check _ _ _ _) as [[[m' sk'] p']|] eqn:Hw; [|discriminate].
      intros [= -> -> ->]. apply weight_check_shape in Hw as (_ & _ & Hsub).
      eapply Hm; eauto.
  - destruct (tier_candidates_total old_columns new_row processed brands multi Hcol)
      as [step Hs].
    congruence.
Qed.

Lemma preprocess_old_data_In (df_old : list Row) (r : ProcRow) :
  In r (preprocess_old_data to_numeric_text df_old) -> In (orig r) df_old.
Proof.
  unfold preprocess_old_data. rewrite in_map_iff. intros (o & <- & Ho). exact Ho.
Qed.

Lemma cell_eqb_refl_notna (c : cell) : isna c = false -> cell_eqb c c = true.
Proof. destruct c; simpl; try discriminate. intros _. now apply bool_decide_eq_true_2. Qed.

End Externals.

End MatcherFacts.

Module MatcherClaims.
Import Matcher MatcherViews FloatFacts MatcherFacts.

Local Open Scope float_scope.

(** The threshold on the percentage [fuzz.ratio] returns: the score
    [ratio / 100.0] reaches 0.8 exactly from ratio 80 on. *)
Lemma ratio_threshold (ratio : Z) :
  (0 <= ratio <= 100)%Z ->
  PrimFloat.leb 0.8 (float_of_int ratio / 100) = (80 <=? ratio)%Z.
Proof.
  intros Hr.
  assert (Hall : forallb (fun n => Bool.eqb
                   (PrimFloat.leb 0.8 (float_of_int (Z.of_nat n) / 100))
                   (80 <=? Z.of_nat n)%Z) (seq 0 101) = true)
    by (vm_compute; reflexivity).
  rewrite forallb_forall in Hall. specialize (Hall (Z.to_nat ratio)).
  rewrite Z2Nat.id in Hall by lia. apply eqb_prop, Hall, in_seq. lia.
Qed.

(** C5. A result with a winning candidate is labelled high-similarity
    (判定 ○) exactly when its score is at least 0.8; a score strictly below
    0.8 gives the low-similarity label that asks for a manual check; there
    is no third label. *)
Theorem C5_confidence_threshold
    (fuzz_ratio : pystr -> pystr -> Z) (float_of_text : pystr -> option float)
    (old_columns : list pystr) (new_row : Row) (df_old_processed : list ProcRow)
    (df_old_brands_indexed : gmap pystr (list ProcRow))
    (df_old_multi_indexed : gmap (pystr * pystr) (list ProcRow))
    (df_old_original : list Row) (r : MatchResult) :
  find_best_match fuzz_ratio float_of_text old_columns new_row df_old_processed
    df_old_brands_indexed df_old_multi_indexed df_old_original = Ok r ->
  mr_has_candidate r = true ->
  (mr_outcome r = HighSimilarity <-> PrimFloat.leb 0.8 (mr_score r) = true)
  /\ (mr_judgment r = true <-> PrimFloat.leb 0.8 (mr_score r) = true)
  /\ (PrimFloat.ltb (mr_score r) 0.8 = true ->
      mr_outcome r = LowSimilarity /\ mr_judgment r = false)
  /\ (mr_outcome r = HighSimilarity \/ mr_outcome r = LowSimilarity).
Proof.
  intros Hr Hc. destruct (find_best_match_judged _ _ _ _ _ _ _ _ _ Hr Hc) as [Ho Hj].
  rewrite Ho, Hj. split; [apply judge_high|]. split; [|split].
  - unfold judge. destruct (PrimFloat.leb 0.8 (mr_score r)); simpl; split; congruence.
  - intros Hlt. now rewrite (judge_low_below _ Hlt).
  - destruct (judge_cases (mr_score r)) as [-> | ->]; auto.
Qed.

(** Scenario A: the score is 0.92 and the label is the high one. *)
Lemma C5_scenario_A :
  exists r, Scenario.sample_match Scenario.new_a = Ok r
    /\ mr_has_candidate r = true
    /\ mr_old r = Some Scenario.old_a
    /\ mr_score r = 0.92
    /\ mr_outcome r = HighSimilarity.
Proof.
  eexists. split; [vm_compute; reflexivity|].
  split; [reflexivity|]. split; [reflexivity|]. split; [reflexivity|].
  refine (proj2 (proj1 (C5_confidence_threshold Scenario.sample_ratio Scenario.no_text
                   Scenario.sample_columns Scenario.new_a Scenario.sample_processed Scenario.sample_brands
                   Scenario.sample_multi Scenario.sample_old _ _ _)) _);
    vm_compute; reflexivity.
Defined.

(** C1 (the code departs from it). Matching one new row is a priority
    chain that reads the indexes. With a brand code the brand index is
    read: rows found there go to the weight check, and an empty or missing
    entry ends the row as a brand mismatch, whatever the maker name and
    type code are. Without a brand code and with maker name and type code
    the (maker, type) index is read: rows found there go to the weight
    check, and an empty entry ends the row as a maker+type mismatch, as does
    a missing pair when the index has no row of the maker or the old frame
    no column named as the type text. Otherwise the row ends as insufficient
    key. A label that an index lacks gives the empty frame as a value in
    those cases: the KeyError does not leave the matcher. The departure: a
    missing pair whose maker the index has and whose type text names a
    column of the old frame is answered by pandas with that column, no
    KeyError is raised inside the try, the frame is not empty and the
    row does not end as a maker+type mismatch: the matcher raises KeyError
    at the next column it reads, as soon as 目付_旧_float and JANコード_旧 are
    not among the type texts of the maker (otherwise the embedding stops
    following it). A row with a brand code never gets an outcome or a
    pattern of the maker+type tier. *)
Theorem C1_tier_chain
    (fuzz_ratio : pystr -> pystr -> Z) (float_of_text : pystr -> option float)
    (old_columns : list pystr) (new_row : Row) (df_old_processed : list ProcRow)
    (df_old_brands_indexed : gmap pystr (list ProcRow))
    (df_old_multi_indexed : gmap (pystr * pystr) (list ProcRow))
    (df_old_original : list Row) :
  let new_brand := norm_key (brand_code new_row) in
  let new_maker_name := norm_key (maker_name new_row) in
  let new_type := norm_key (type_code new_row) in
  let tier :=
    tier_candidates float_of_text old_columns new_row df_old_processed
      df_old_brands_indexed df_old_multi_indexed in
  let result :=
    find_best_match fuzz_ratio float_of_text old_columns new_row df_old_processed
      df_old_brands_indexed df_old_multi_indexed df_old_original in
  let checked pat_only pat_weight matching_old :=
    match weight_check float_of_text (weight new_row) matching_old pat_only pat_weight with
    | None => Ok (Return_ (no_candidate WeightOutOfRange []))
    | Some (m, skips, pat) => Ok (Continue m skips pat)
    end in
  (forall b, new_brand = Some b -> b <> [] ->
     (forall rows, df_old_brands_indexed !! b = Some rows -> rows <> [] ->
        tier = checked BrandOnly BrandWeight rows)
     /\ (df_old_brands_indexed !! b = None \/ df_old_brands_indexed !! b = Some [] ->
         result = Ok (no_candidate BrandMismatch [])))
  /\ (forall mk ty, truthy new_brand = false ->
        new_maker_name = Some mk -> mk <> [] -> new_type = Some ty -> ty <> [] ->
        (forall rows, df_old_multi_indexed !! (mk, ty) = Some rows -> rows <> [] ->
           tier = checked MakerTypeOnly MakerTypeWeight rows)
        /\ (df_old_multi_indexed !! (mk, ty) = Some []
            \/ (df_old_multi_indexed !! (mk, ty) = None
                /\ (types_of df_old_multi_indexed mk = [] \/ ty ∉ old_columns)) ->
            result = Ok (no_candidate MakerTypeMismatch []))
        /\ (df_old_multi_indexed !! (mk, ty) = None ->
            types_of df_old_multi_indexed mk <> [] -> ty ∈ old_columns ->
            loc_pair old_columns df_old_multi_indexed (mk, ty)
              = Ok (Column (types_of df_old_multi_indexed mk))
            /\ (result = Raise KeyError \/ result = Raise NotFollowed)
            /\ (lit "目付_旧_float" ∉ types_of df_old_multi_indexed mk ->
                lit "JANコード_旧" ∉ types_of df_old_multi_indexed mk ->
                result = Raise KeyError)))
  /\ (truthy new_brand = false -> truthy new_maker_name && truthy new_type = false ->
      result = Ok (no_candidate InsufficientKey []))
  /\ (forall b, df_old_brands_indexed !! b = None ->
        loc df_old_brands_indexed b = Raise KeyError
        /\ try_except_KeyError (loc df_old_brands_indexed b) [] = Ok [])
  /\ (forall mk ty, df_old_multi_indexed !! (mk, ty) = None ->
        types_of df_old_multi_indexed mk = [] \/ ty ∉ old_columns ->
        loc_pair old_columns df_old_multi_indexed (mk, ty) = Raise KeyError
        /\ try_except_KeyError (loc_pair old_columns df_old_multi_indexed (mk, ty))
             (Rows []) = Ok (Rows []))
  /\ (forall r, truthy new_brand = true -> result = Ok r ->
        mr_outcome r <> MakerTypeMismatch /\ mr_outcome r <> InsufficientKey
        /\ mr_pattern r <> Some MakerTypeOnly /\ mr_pattern r <> Some MakerTypeWeight).
Proof.
  cbv zeta. unfold find_best_match. rewrite tier_candidates_unfold. cbv zeta.
  split; [|split; [|split; [|split; [|split]]]].
  - intros b Hbrand Hb.
    assert (Ht : truthy (norm_key (brand_code new_row)) = true)
      by (rewrite Hbrand; destruct b; [congruence|reflexivity]).
    rewrite (reads_column_brand _ _ _ Ht), Ht, Hbrand. simpl. split.
    + intros rows -> Hrows. simpl. destruct rows; congruence.
    + now intros [-> | ->].
  - intros mk ty Hbrand Hmk Hmk' Hty Hty'.
    assert (Ht : truthy (norm_key (maker_name new_row))
                 && truthy (norm_key (type_code new_row)) = true)
      by (rewrite Hmk, Hty; destruct mk, ty; try congruence; reflexivity).
    unfold reads_column. cbv zeta. rewrite Hbrand, Ht, Hmk, Hty. simpl.
    split; [|split].
    + intros rows -> Hrows. simpl. destruct rows; congruence.
    + intros [-> | (-> & Hmiss)]; [reflexivity|]. simpl.
      destruct (types_of df_old_multi_indexed mk) as [|t ts]; [reflexivity|].
      destruct Hmiss as [|Hcol]; [discriminate|].
      now rewrite bool_decide_eq_false_2.
    + intros Hpair Hmaker Hcol.
      split; [now apply (loc_pair_column old_columns df_old_multi_indexed (mk, ty))|].
      rewrite Hpair.
      destruct (types_of df_old_multi_indexed mk) as [|t ts] eqn:Htypes; [congruence|].
      rewrite bool_decide_eq_true_2 by assumption. split.
      * destruct (weight_check_column_cases float_of_text (weight new_row) (t :: ts))
          as [-> | ->]; auto.
      * intros Hw Hj. now rewrite weight_check_column_KeyError.
  - intros Hbrand Hkeys. unfold reads_column. cbv zeta. now rewrite Hbrand, Hkeys.
  - intros b Hb. now apply loc_miss_caught.
  - intros mk ty Hpair Hmiss.
    now apply (loc_pair_miss_caught old_columns df_old_multi_indexed (mk, ty)).
  - intros r Ht. rewrite (reads_column_brand _ _ _ Ht), Ht.
    destruct (default [] _) as [|r0 rs]; [intros [= <-]; simpl; repeat split; discriminate|].
    destruct (weight_check _ _ _ _ _) as [[[m skips] pat]|] eqn:Hw;
      [|intros [= <-]; simpl; repeat split; discriminate].
    apply weight_check_shape in Hw as (Hpat & _ & _). simpl.
    intros [-> | (_ & -> & _ & Ho)]%select_best_shape; simpl;
      [repeat split; discriminate|].
    repeat split; try (destruct Ho as [-> | ->]; discriminate);
      destruct Hpat as [-> | ->]; discriminate.
Qed.

(** The departure on the samples: a new product without brand code, of
    the maker X of the old products, whose type code is the text
    JANコード_旧. The pair is not in the index, the maker is, the text names a
    column: the matcher raises KeyError. *)
Lemma C1_type_text_names_column :
  Scenario.sample_multi !! (lit "X", lit "JANコード_旧") = None
  /\ types_of Scenario.sample_multi (lit "X") = [lit "7"]
  /\ Scenario.sample_match Scenario.new_column_type = Raise KeyError.
Proof.
  split; [vm_compute; reflexivity|]. split; [vm_compute; reflexivity|].
  refine (proj2 (proj2 (proj2 (proj2
    (proj1 (proj2 (C1_tier_chain Scenario.sample_ratio Scenario.no_text
                     Scenario.sample_columns Scenario.new_column_type
                     Scenario.sample_processed Scenario.sample_brands Scenario.sample_multi
                     Scenario.sample_old))
       (lit "X") (lit "JANコード_旧") _ _ _ _ _)) _ _ _)) _ _).
  - vm_compute. reflexivity.
  - vm_compute. reflexivity.
  - vm_compute. discriminate.
  - vm_compute. reflexivity.
  - vm_compute. discriminate.
  - vm_compute. reflexivity.
  - vm_compute. discriminate.
  - refine (bool_decide_eq_true_1 _ _). vm_compute. reflexivity.
  - refine (bool_decide_eq_false_1 _ _). vm_compute. reflexivity.
  - refine (bool_decide_eq_false_1 _ _). vm_compute. reflexivity.
Defined.

(** A brand that no old product has ends the row as a brand mismatch,
    although its maker name and type code are those of old products. *)
Lemma brand_miss_no_fallback :
  Scenario.sample_multi !! (lit "X", lit "7") <> None
  /\ Scenario.sample_match Scenario.new_miss = Ok (no_candidate BrandMismatch []).
Proof. split; [vm_compute; discriminate|vm_compute; reflexivity]. Qed.

(** The two other ends of the chain, on the samples. *)
Lemma tier_chain_samples :
  Scenario.sample_match Scenario.new_miss_mt = Ok (no_candidate MakerTypeMismatch [])
  /\ Scenario.sample_match Scenario.new_nokey = Ok (no_candidate InsufficientKey []).
Proof. split; vm_compute; reflexivity. Qed.

(** C8. When the new row has no name in kana, every deduplicated candidate
    scores 0.0, the stable descending sort leaves the candidates in their
    original order, and the first candidate is the winner (with the low
    label and score 0.0); the matcher returns it as soon as the old master
    holds a row with the winner's JAN. In general the sort gives the top to
    an earlier candidate unless a later one scores strictly more. *)
Theorem C8_absent_name_first_candidate
    (fuzz_ratio : pystr -> pystr -> Z) (float_of_text : pystr -> option float)
    (old_columns : list pystr) (new_row : Row) (df_old_processed : list ProcRow)
    (df_old_brands_indexed : gmap pystr (list ProcRow))
    (df_old_multi_indexed : gmap (pystr * pystr) (list ProcRow))
    (df_old_original : list Row)
    (matching_old : list ProcRow) (skip_reasons : list SkipReason) (pattern_name : Pattern)
    (first : cell * cell) (rest : list (cell * cell)) :
  isna (kana new_row) = true ->
  tier_candidates float_of_text old_columns new_row df_old_processed
    df_old_brands_indexed df_old_multi_indexed
    = Ok (Continue matching_old skip_reasons pattern_name) ->
  candidates_of matching_old = first :: rest ->
  let similarities := similarities_of fuzz_ratio (kana new_row) (first :: rest) in
  similarities = List.map (fun c => (0, c)) (first :: rest)
  /\ sort_desc similarities = similarities
  /\ find_best_match fuzz_ratio float_of_text old_columns new_row df_old_processed
       df_old_brands_indexed df_old_multi_indexed df_old_original
     = match List.find (fun r => cell_eqb (jan r) (snd first)) df_old_original with
       | None => Raise IndexError
       | Some best_old_row =>
           Ok {| mr_outcome := LowSimilarity; mr_score := 0; mr_judgment := false;
                 mr_candidate := Some (fst first, 0); mr_skip := skip_reasons;
                 mr_has_candidate := true; mr_old := Some best_old_row;
                 mr_pattern := Some pattern_name |}
       end
  /\ (forall (x : float * (cell * cell)) l,
        hd_error (sort_desc (x :: l)) =
        match hd_error (sort_desc l) with
        | Some y => if PrimFloat.ltb (fst x) (fst y) then Some y else Some x
        | None => Some x
        end).
Proof.
  intros Hna Htier Hcands similarities.
  assert (Hsim : similarities = List.map (fun c => (0, c)) (first :: rest))
    by now apply similarities_of_na.
  assert (Hsort : sort_desc similarities = similarities)
    by (rewrite Hsim; apply sort_desc_const).
  split; [exact Hsim|]. split; [exact Hsort|]. split; [|apply sort_desc_head].
  unfold find_best_match. rewrite Htier. simpl. unfold select_best.
  rewrite Hcands. fold similarities. rewrite Hsort, Hsim. simpl.
  destruct first as [best_name best_jan]. simpl.
  destruct (List.find _ df_old_original); reflexivity.
Qed.

(** Two old products of brand B1 and a new row without a name: the first
    of the two wins. *)
Lemma C8_first_of_two :
  candidates_of (default [] (Scenario.sample_brands !! lit "B1"))
    = [(kana Scenario.old_a, jan Scenario.old_a); (kana Scenario.old_a2, jan Scenario.old_a2)]
  /\ Scenario.sample_match Scenario.new_noname
     = Ok {| mr_outcome := LowSimilarity; mr_score := 0; mr_judgment := false;
             mr_candidate := Some (kana Scenario.old_a, 0); mr_skip := [WeightSkipped];
             mr_has_candidate := true; mr_old := Some Scenario.old_a;
             mr_pattern := Some BrandOnly |}.
Proof.
  split; [vm_compute; reflexivity|].
  refine (proj1 (proj2 (proj2
    (C8_absent_name_first_candidate Scenario.sample_ratio Scenario.no_text
       Scenario.sample_columns Scenario.new_noname Scenario.sample_processed Scenario.sample_brands
       Scenario.sample_multi Scenario.sample_old
       (default [] (Scenario.sample_brands !! lit "B1")) [WeightSkipped] BrandOnly
       (kana Scenario.old_a, jan Scenario.old_a)
       [(kana Scenario.old_a2, jan Scenario.old_a2)] _ _ _)))).
  - reflexivity.
  - vm_compute. reflexivity.
  - vm_compute. reflexivity.
Defined.

(** The weight band where it is applied. Take a new row whose tier
    (brand, or maker+type without brand) found a non-empty candidate set.
    If its weight is present, reads as a float w, and both bounds w*0.8 and
    w*1.2 are true in Python's sense (non-zero), the candidates kept are
    exactly those whose old weight lies in [w*0.8, w*1.2], bounds included:
    an old weight equal to an edge of a non-empty window is kept; when none
    is kept the row ends as weight-out-of-range, otherwise the tier goes on
    with the kept candidates under the weight pattern. If the weight is
    absent nothing is filtered, the skip reason 目付スキップ is recorded and
    the tier goes on with all candidates. *)
Lemma weight_band
    (fuzz_ratio : pystr -> pystr -> Z) (float_of_text : pystr -> option float)
    (old_columns : list pystr) (new_row : Row) (df_old_processed : list ProcRow)
    (df_old_brands_indexed : gmap pystr (list ProcRow))
    (df_old_multi_indexed : gmap (pystr * pystr) (list ProcRow))
    (df_old_original : list Row)
    (matching_old : list ProcRow) (pat_only pat_weight : Pattern) :
  let new_brand := norm_key (brand_code new_row) in
  let new_maker_name := norm_key (maker_name new_row) in
  let new_type := norm_key (type_code new_row) in
  (truthy new_brand = true
   /\ default [] (df_old_brands_indexed !! default [] new_brand) = matching_old
   /\ pat_only = BrandOnly /\ pat_weight = BrandWeight)
  \/ (truthy new_brand = false /\ truthy new_maker_name && truthy new_type = true
      /\ default [] (df_old_multi_indexed
                       !! (default [] new_maker_name, default [] new_type)) = matching_old
      /\ pat_only = MakerTypeOnly /\ pat_weight = MakerTypeWeight) ->
  matching_old <> [] ->
  let tier := tier_candidates float_of_text old_columns new_row df_old_processed
                df_old_brands_indexed df_old_multi_indexed in
  let result := find_best_match fuzz_ratio float_of_text old_columns new_row
                  df_old_processed df_old_brands_indexed df_old_multi_indexed
                  df_old_original in
  (forall w,
     notna_w (weight new_row) = true ->
     py_float float_of_text (weight new_row) = Some w ->
     truthy_f (Some (w * 0.8)) && truthy_f (Some (w * 1.2)) = true ->
     let kept := List.filter (in_window (w * 0.8) (w * 1.2)) matching_old in
     (forall r, In r kept <->
                In r matching_old /\ PrimFloat.leb (w * 0.8) (weight_float r) = true
                /\ PrimFloat.leb (weight_float r) (w * 1.2) = true)
     /\ (forall r, In r matching_old -> PrimFloat.leb (w * 0.8) (w * 1.2) = true ->
                   weight_float r = w * 0.8 \/ weight_float r = w * 1.2 -> In r kept)
     /\ (kept = [] -> result = Ok (no_candidate WeightOutOfRange []))
     /\ (kept <> [] -> tier = Ok (Continue kept [] pat_weight)))
  /\ (notna_w (weight new_row) = false ->
      tier = Ok (Continue matching_old [WeightSkipped] pat_only)).
Proof.
  cbv zeta. intros Htier Hne.
  assert (Hcol : reads_column old_columns new_row df_old_multi_indexed = false).
  { destruct Htier as [(Hb & _)|(_ & _ & Hm & _)]; [now apply reads_column_brand|].
    apply reads_column_hit. destruct (df_old_multi_indexed !! _); [eauto|].
    simpl in Hm. congruence. }
  unfold find_best_match. rewrite tier_candidates_unfold, Hcol. cbv zeta.
  assert (Hafter : forall X (k : list ProcRow -> X) (e : X),
            match matching_old with [] => e | _ :: _ => k matching_old end
            = k matching_old) by (intros; now destruct matching_old).
  split.
  - intros w Hna Hw Ht. split; [intros r; apply in_window_spec|]. split.
    { intros r Hr Hle Hedge. apply filter_In. split; [assumption|].
      now apply in_window_edges. }
    pose proof (weight_check_applied float_of_text (weight new_row) w matching_old
                  pat_only pat_weight Hna Hw Ht) as Hwc.
    destruct Htier as [(-> & Hm & -> & ->)|(-> & -> & Hm & -> & ->)];
      rewrite Hm; destruct matching_old as [|r0 rs]; try congruence;
      rewrite Hwc; (split; [intros ->; reflexivity|]);
      destruct (List.filter _ _); congruence.
  - intros Hna.
    pose proof (weight_check_absent float_of_text (weight new_row) matching_old
                  pat_only pat_weight Hna) as Hwc.
    destruct Htier as [(-> & Hm & -> & ->)|(-> & -> & Hm & -> & ->)];
      rewrite Hm; destruct matching_old as [|r0 rs]; try congruence;
      now rewrite Hwc.
Qed.

(** Scenario B: weight 200, window [160, 240], old weights 100 and 150:
    weight-out-of-range. *)
Lemma weight_band_scenario_B :
  Scenario.sample_match Scenario.new_b = Ok (no_candidate WeightOutOfRange []).
Proof.
  refine (proj1 (proj2 (proj2 (proj1
    (weight_band Scenario.sample_ratio Scenario.no_text Scenario.sample_columns
       Scenario.new_b
       Scenario.sample_processed Scenario.sample_brands Scenario.sample_multi
       Scenario.sample_old Scenario.brand_b1 BrandOnly BrandWeight _ _)
    200 _ _ _))) _).
  - left. vm_compute. auto.
  - vm_compute. discriminate.
  - reflexivity.
  - reflexivity.
  - vm_compute. reflexivity.
  - vm_compute. reflexivity.
Defined.

(** The edges are inside: with weight 125 the window is [100.0, 150.0] and
    both old products, of weight 100 and 150, stay candidates. *)
Lemma weight_edges_kept :
  get_weight_range Scenario.no_text (weight Scenario.new_edge) = (Some 100, Some 150)
  /\ tier_candidates Scenario.no_text Scenario.sample_columns Scenario.new_edge
       Scenario.sample_processed Scenario.sample_brands Scenario.sample_multi
     = Ok (Continue Scenario.brand_b1 [] BrandWeight)
  /\ List.map weight_float Scenario.brand_b1 = [100; 150].
Proof. repeat split; vm_compute; reflexivity. Qed.

(** The edges are the binary64 products: for a new weight 3 the upper
    edge 3 * 1.2 is just below 3.6 and the lower edge 3 * 0.8 is just above
    2.4, so old weights 3.6 and 2.4 are outside the window. *)
Lemma window_edges_are_float_products :
  PrimFloat.ltb (3 * 1.2) 3.6 = true /\ PrimFloat.ltb 2.4 (3 * 0.8) = true
  /\ (forall r, weight_float r = 3.6 \/ weight_float r = 2.4 ->
                 in_window (3 * 0.8) (3 * 1.2) r = false).
Proof.
  split; [reflexivity|]. split; [reflexivity|].
  intros r [Hr|Hr]; unfold in_window; rewrite Hr; reflexivity.
Qed.

(** C2 (the code departs from it). A new row of brand B1 whose weight is
    present and is the number zero: the window is [0.0, 0.0], both
    candidates of the brand (old weights 100 and 150) lie outside it, and
    yet none is dropped and the row does not end as weight-out-of-range: it
    is matched under the pattern without weight. The guard
    [if min_w and max_w] tests the truth value of the bounds where the
    missing bounds of [get_weight_range] are [None]. *)
Lemma C2_zero_weight_not_filtered :
  notna_w (weight Scenario.new_zero) = true
  /\ get_weight_range Scenario.no_text (weight Scenario.new_zero) = (Some 0, Some 0)
  /\ List.filter (in_window 0 0) Scenario.brand_b1 = []
  /\ Scenario.sample_match Scenario.new_zero
     = Ok {| mr_outcome := HighSimilarity; mr_score := 0.92; mr_judgment := true;
             mr_candidate := Some (kana Scenario.old_a, 0.92); mr_skip := [];
             mr_has_candidate := true; mr_old := Some Scenario.old_a;
             mr_pattern := Some BrandOnly |}.
Proof. repeat split; vm_compute; reflexivity. Qed.

(** C9. A new row whose weight is present and reads as the float zero gets
    no weight band: the bounds are zero, the guard [if min_w and max_w] is
    false, the candidates pass unfiltered and no skip reason is recorded;
    such a row never ends as weight-out-of-range. *)
Theorem C9_zero_weight_no_band
    (fuzz_ratio : pystr -> pystr -> Z) (float_of_text : pystr -> option float)
    (old_columns : list pystr) (new_row : Row) (df_old_processed : list ProcRow)
    (df_old_brands_indexed : gmap pystr (list ProcRow))
    (df_old_multi_indexed : gmap (pystr * pystr) (list ProcRow))
    (df_old_original : list Row) (w : float) :
  notna_w (weight new_row) = true ->
  py_float float_of_text (weight new_row) = Some w ->
  PrimFloat.eqb w 0 = true ->
  get_weight_range float_of_text (weight new_row) = (Some (w * 0.8), Some (w * 1.2))
  /\ PrimFloat.eqb (w * 0.8) 0 = true /\ PrimFloat.eqb (w * 1.2) 0 = true
  /\ truthy_f (Some (w * 0.8)) && truthy_f (Some (w * 1.2)) = false
  /\ (forall matching_old pat_only pat_weight,
        weight_check float_of_text (weight new_row) matching_old pat_only pat_weight
        = Some (matching_old, [], pat_only))
  /\ (forall r,
        find_best_match fuzz_ratio float_of_text old_columns new_row df_old_processed
          df_old_brands_indexed df_old_multi_indexed df_old_original = Ok r ->
        mr_outcome r <> WeightOutOfRange /\ mr_skip r = []).
Proof.
  intros Hna Hw Hz. destruct (zero_weight_bounds w Hz) as [Hlo Hhi].
  assert (Hrange : get_weight_range float_of_text (weight new_row)
                   = (Some (w * 0.8), Some (w * 1.2)))
    by (unfold get_weight_range; now rewrite Hw).
  assert (Hguard : truthy_f (Some (w * 0.8)) && truthy_f (Some (w * 1.2)) = false)
    by (simpl; now rewrite Hlo).
  assert (Hwc : forall matching_old pat_only pat_weight,
            weight_check float_of_text (weight new_row) matching_old pat_only pat_weight
            = Some (matching_old, [], pat_only)).
  { intros. apply weight_check_bypassed; [assumption|]. now rewrite Hrange. }
  repeat (split; [assumption|]).
  intros r Hr. pose proof (find_best_match_Ok _ _ _ _ _ _ _ _ _ Hr) as Hcol.
  revert Hr. unfold find_best_match. rewrite tier_candidates_unfold, Hcol. cbv zeta.
  assert (Hafter : forall o pat_only pat_weight matching_old,
            (y <~ match matching_old with
                  | [] => Ok (Return_ (no_candidate o []))
                  | _ :: _ =>
                      match weight_check float_of_text (weight new_row) matching_old
                              pat_only pat_weight with
                      | None => Ok (Return_ (no_candidate WeightOutOfRange []))
                      | Some (m, skips, pat) => Ok (Continue m skips pat)
                      end
                  end ;;
             match y with
             | Return_ r0 => Ok r0
             | Continue m skips pat =>
                 select_best fuzz_ratio (kana new_row) m skips pat df_old_original
             end) = Ok r ->
            o <> WeightOutOfRange ->
            mr_outcome r <> WeightOutOfRange /\ mr_skip r = []).
  { intros o p1 p2 m. destruct m as [|r0 rs]; simpl.
    - intros [= <-] Ho. now split.
    - rewrite Hwc. simpl.
      intros [-> | (_ & _ & -> & Ho)]%select_best_shape _; simpl;
        [split; [discriminate|reflexivity]|].
      split; [destruct Ho as [-> | ->]; discriminate|reflexivity]. }
  destruct (truthy (norm_key (brand_code new_row))).
  - intros H. now apply Hafter in H.
  - destruct (truthy _ && truthy _).
    + intros H. now apply Hafter in H.
    + simpl. intros [= <-]. split; [discriminate|reflexivity].
Qed.

(** The zero-weight sample: matched, no band, no skip reason. *)
Lemma C9_zero_weight_sample :
  (forall r, Scenario.sample_match Scenario.new_zero = Ok r ->
             mr_outcome r <> WeightOutOfRange /\ mr_skip r = [])
  /\ exists r, Scenario.sample_match Scenario.new_zero = Ok r
               /\ mr_pattern r = Some BrandOnly.
Proof.
  split.
  - refine (proj2 (proj2 (proj2 (proj2 (proj2
      (C9_zero_weight_no_band Scenario.sample_ratio Scenario.no_text
         Scenario.sample_columns Scenario.new_zero
         Scenario.sample_processed Scenario.sample_brands Scenario.sample_multi
         Scenario.sample_old 0 _ _ _)))))); reflexivity.
  - eexists. split; [vm_compute; reflexivity|reflexivity].
Defined.

(** C6 (amended). When every old row that survives cleansing has a JAN
    and no new row that survives cleansing has a type code whose text names
    a column of the old frame, the pipeline returns; it computes exactly one
    result per new row that survives cleansing, in row order, each being
    what [find_best_match] returns for that row; the primary report holds
    exactly the rows whose result has a candidate (their outcome is the high
    or the low label), in order. A row whose result has no candidate (brand
    or maker+type mismatch, weight out of range, insufficient key) is not in
    the report. *)
Theorem C6_results_and_report
    (fuzz_ratio : pystr -> pystr -> Z) (float_of_text to_numeric_text : pystr -> option float)
    (old_columns : list pystr) (old_file new_file : list Row) :
  let df_new := clean_initial_data (load_data new_file) in
  let df_old := clean_initial_data (load_data old_file) in
  let df_old_processed := preprocess_old_data to_numeric_text df_old in
  Forall (fun r => isna (jan r) = false) df_old ->
  Forall (fun r => forall ty, norm_key (type_code r) = Some ty -> ty ∉ old_columns) df_new ->
  exists run,
    process_master_data fuzz_ratio float_of_text to_numeric_text old_columns
      old_file new_file = Ok run
    /\ length (results run) = length df_new
    /\ Forall2 (fun new_row r =>
                  find_best_match fuzz_ratio float_of_text old_columns new_row
                    df_old_processed
                    (set_index brand_s df_old_processed)
                    (set_index (fun p => (maker_s p, type_s p)) df_old_processed)
                    df_old = Ok r) df_new (results run)
    /\ report run
       = List.filter (fun row => mr_has_candidate (snd row)) (combine df_new (results run))
    /\ Forall (fun row => mr_outcome (snd row) = HighSimilarity
                          \/ mr_outcome (snd row) = LowSimilarity) (report run)
    /\ (forall row, mr_has_candidate (snd row) = false -> ~ In row (report run)).
Proof.
  cbv zeta. intros Hjan Htype. unfold process_master_data.
  set (df_new := clean_initial_data (load_data new_file)) in *.
  set (df_old := clean_initial_data (load_data old_file)) in *.
  set (processed := preprocess_old_data to_numeric_text df_old).
  set (f := fun new_row =>
              find_best_match fuzz_ratio float_of_text old_columns new_row processed _ _
                df_old).
  assert (Hold : forall r, In r processed ->
            exists o, In o df_old /\ cell_eqb (jan o) (jan (orig r)) = true).
  { intros r Hr%preprocess_old_data_In. exists (orig r). split; [assumption|].
    apply cell_eqb_refl_notna. rewrite Forall_forall in Hjan.
    now apply Hjan, list_elem_of_In. }
  destruct (for_each_total f df_new) as [rs Hrs].
  { intros new_row Hnew. apply find_best_match_total.
    - apply reads_column_no_label. rewrite Forall_forall in Htype.
      now apply Htype, list_elem_of_In.
    - intros k found r Hk Hr. apply Hold. eapply set_index_In; eauto.
    - intros k found r Hk Hr. apply Hold. eapply set_index_In; eauto. }
  rewrite Hrs. simpl.
  pose proof (for_each_Forall2 _ _ _ Hrs) as Hall.
  assert (Hreport :
    match rs with
    | [] => combine df_new rs
    | _ :: _ => List.filter (fun row => mr_has_candidate (snd row)) (combine df_new rs)
    end = List.filter (fun row => mr_has_candidate (snd row)) (combine df_new rs)).
  { destruct rs; [|reflexivity]. now rewrite combine_nil. }
  eexists. split; [reflexivity|]. simpl. rewrite Hreport.
  split; [symmetry; eapply Forall2_length; eassumption|].
  split; [exact Hall|]. split; [reflexivity|]. split.
  - apply Forall_forall. intros [new_row r] Hrow.
    apply list_elem_of_In, filter_In in Hrow as [Hin Hc]. simpl in *.
    assert (Hf : f new_row = Ok r).
    { clear Hrs Hreport Hc Htype.
      induction Hall as [|a b l l' Hab _ IH]; simpl in Hin; [tauto|].
      destruct Hin as [[= -> ->]|Hin]; auto. }
    destruct (find_best_match_judged _ _ _ _ _ _ _ _ _ Hf Hc) as [-> _].
    destruct (judge_cases (mr_score r)) as [-> | ->]; auto.
  - intros row Hno Hin. apply filter_In in Hin as [_ Hc]. congruence.
Qed.

(** Three new rows, one matched and two without candidate: three results,
    one report row. *)
Lemma C6_sample_run :
  exists run,
    Scenario.sample_run Scenario.sample_old
      [Scenario.new_a; Scenario.new_miss; Scenario.new_nokey] = Ok run
    /\ length (results run) = 3%nat
    /\ List.map fst (report run) = [Scenario.new_a].
Proof.
  destruct (C6_results_and_report Scenario.sample_ratio Scenario.no_text Scenario.no_text
              Scenario.sample_columns
              Scenario.sample_old [Scenario.new_a; Scenario.new_miss; Scenario.new_nokey])
    as (run & Hrun & Hlen & _ & Hrep & _).
  { repeat constructor. }
  { repeat constructor; intros ty [= <-]; refine (bool_decide_eq_false_1 _ _);
      vm_compute; reflexivity. }
  exists run. split; [exact Hrun|]. split; [exact Hlen|].
  rewrite Hrep.
  assert (Hv : Scenario.sample_run Scenario.sample_old
                 [Scenario.new_a; Scenario.new_miss; Scenario.new_nokey]
               = Ok run) by exact Hrun.
  vm_compute in Hv. injection Hv as <-. vm_compute. reflexivity.
Defined.

(** C6 as the specification words it does not hold: a new row that
    survives cleansing and ends as a brand mismatch has its result in
    [results] and no row in the primary report. *)
Lemma C6_no_candidate_row_absent :
  clean_initial_data (load_data [Scenario.new_miss]) = [Scenario.new_miss]
  /\ Scenario.sample_run Scenario.sample_old [Scenario.new_miss]
     = Ok {| results := [no_candidate BrandMismatch []]; report := [] |}.
Proof. split; vm_compute; reflexivity. Qed.

(** What normalisation does achieve. On the new side a key is never the
    text 'nan', and the marker 'NULL' and an empty field are both absent.
    On either side a weight that is absent or does not parse is absent (NaN
    in 目付_旧_float, no bounds in [get_weight_range]), never zero. *)
Lemma normalisation_new_side_and_weight
    (float_of_text to_numeric_text : pystr -> option float) (c : cell) (s : pystr) :
  norm_key c <> Some (lit "nan")
  /\ norm_key (replace_NULL (CStr (lit "NULL"))) = None
  /\ norm_key CNaN = None
  /\ PrimFloat.is_nan (to_numeric to_numeric_text (replace_NULL_w (WText (lit "NULL")))) = true
  /\ (to_numeric_text s = None ->
      PrimFloat.is_nan (to_numeric to_numeric_text (WText s)) = true)
  /\ (float_of_text s = None ->
      get_weight_range float_of_text (WText s) = (None, None)).
Proof.
  split; [|split; [|split; [|split; [|split]]]]; try reflexivity.
  - unfold norm_key. destruct (notna c); [|discriminate].
    case_bool_decide; congruence.
  - intros Hs. simpl. now rewrite Hs.
  - intros Hs. unfold get_weight_range. simpl. now rewrite Hs.
Qed.

(** C7 (the code departs from it). On the old side [preprocess_old_data]
    turns every key cell into text: an old row whose brand code was the
    marker 'NULL' (made [pd.NA] by [load_data]) carries the brand text
    '<NA>', and one whose maker name was an empty field carries the maker
    text 'nan', where the reading of a new row's key ([norm_key]) gives
    absence for the same cell. The text is a label of the brand index: a new
    row whose brand code is the text '<NA>' is matched to that old row. *)
Lemma C7_old_key_holds_missing_text :
  let df_old := clean_initial_data (load_data [Scenario.old_null]) in
  let df_old_processed := preprocess_old_data Scenario.no_text df_old in
  List.map brand_code df_old = [CNA]
  /\ List.map brand_s df_old_processed = [lit "<NA>"]
  /\ List.map maker_s df_old_processed = [lit "nan"]
  /\ List.map (fun r => norm_key (brand_code r)) df_old = [None]
  /\ (exists r,
        find_best_match Scenario.sample_ratio Scenario.no_text Scenario.sample_columns
          Scenario.new_na_text df_old_processed (set_index brand_s df_old_processed)
          (set_index (fun p => (maker_s p, type_s p)) df_old_processed) df_old = Ok r
        /\ mr_has_candidate r = true
        /\ option_map jan (mr_old r) = Some (jan Scenario.old_null)).
Proof.
  cbv zeta. split; [vm_compute; reflexivity|]. split; [vm_compute; reflexivity|].
  split; [vm_compute; reflexivity|]. split; [vm_compute; reflexivity|].
  eexists. split; [vm_compute; reflexivity|]. split; reflexivity.
Qed.

End MatcherClaims.

(* ===================================================================== *)
(** * Part III. Further properties of the matching engine                *)
(* ===================================================================== *)

Module MatcherMore.
Import Matcher MatcherViews FloatFacts MatcherFacts.

Local Open Scope float_scope.

(** ** The index against the frame it was built from *)

Lemma set_index_lookup {K} `{Countable K} (key : ProcRow -> K) (rows : list ProcRow)
    (label : K) :
  set_index key rows !! label =
  match List.filter (fun r => bool_decide (key r = label)) rows with
  | [] => None
  | found => Some found
  end.
Proof.
  induction rows as [|x rows IH]; simpl; [apply lookup_empty|].
  case_bool_decide as Hk.
  - subst label. rewrite lookup_insert_eq, IH.
    now destruct (List.filter _ rows).
  - now rewrite lookup_insert_ne.
Qed.

Lemma default_set_index {K} `{Countable K} (key : ProcRow -> K) (rows : list ProcRow)
    (label : K) :
  default [] (set_index key rows !! label)
  = List.filter (fun r => bool_decide (key r = label)) rows.
Proof. rewrite set_index_lookup. now destruct (List.filter _ rows). Qed.

Section Externals.

Variable fuzz_ratio : pystr -> pystr -> Z.
Variable float_of_text : pystr -> option float.

Lemma weight_check_passes (new_weight : wcell) (matching_old : list ProcRow)
    (pat_only pat_weight : Pattern) :
  weight_check float_of_text new_weight matching_old pat_only pat_weight =
  match applied_window float_of_text new_weight with
  | Some _ =>
      match List.filter (passes_weight float_of_text new_weight) matching_old with
      | [] => None
      | kept => Some (kept, [], pat_weight)
      end
  | None =>
      Some (List.filter (passes_weight float_of_text new_weight) matching_old,
            if notna_w new_weight then [] else [WeightSkipped], pat_only)
  end.
Proof.
  unfold weight_check, passes_weight, applied_window.
  destruct (notna_w new_weight); [|now rewrite filter_true_all].
  destruct (get_weight_range float_of_text new_weight) as [[lo|] [hi|]];
    try (destruct (_ && _); now rewrite ?filter_true_all).
Qed.

Lemma weight_check_kept (new_weight : wcell) (rows m : list ProcRow)
    (pat_only pat_weight pat : Pattern) (skips : list SkipReason) :
  weight_check float_of_text new_weight rows pat_only pat_weight = Some (m, skips, pat) ->
  m = List.filter (passes_weight float_of_text new_weight) rows.
Proof.
  rewrite weight_check_passes. destruct (applied_window _ _).
  - destruct (List.filter _ rows); [discriminate|]. now intros [= <- _ _].
  - now intros [= <- _ _].
Qed.

Lemma weight_check_some (new_weight : wcell) (rows : list ProcRow)
    (pat_only pat_weight : Pattern) (p : ProcRow) :
  In p rows -> passes_weight float_of_text new_weight p = true ->
  exists skips pat,
    weight_check float_of_text new_weight rows pat_only pat_weight
    = Some (List.filter (passes_weight float_of_text new_weight) rows, skips, pat).
Proof.
  intros Hp Hpass. rewrite weight_check_passes.
  assert (Hin : In p (List.filter (passes_weight float_of_text new_weight) rows))
    by (apply filter_In; auto).
  destruct (applied_window _ _); [|eauto].
  destruct (List.filter _ rows); [destruct Hin|eauto].
Qed.

(** With the indexes built from [df_old_processed], the tier chain reads
    the rows that a scan of the frame for the key would give. *)
Lemma tier_candidates_scan (old_columns : list pystr) (new_row : Row)
    (processed : list ProcRow) :
  reads_column old_columns new_row (set_index (fun r => (maker_s r, type_s r)) processed)
  = false ->
  tier_candidates float_of_text old_columns new_row processed
    (set_index brand_s processed)
    (set_index (fun r => (maker_s r, type_s r)) processed) =
  let new_maker_name := norm_key (maker_name new_row) in
  let new_brand := norm_key (brand_code new_row) in
  let new_type := norm_key (type_code new_row) in
  let after tier_miss pat_only pat_weight matching_old :=
    match matching_old with
    | [] => Ok (Return_ (no_candidate tier_miss []))
    | _ :: _ =>
        match weight_check float_of_text (weight new_row) matching_old
                pat_only pat_weight with
        | None => Ok (Return_ (no_candidate WeightOutOfRange []))
        | Some (m, skips, pat) => Ok (Continue m skips pat)
        end
    end in
  if truthy new_brand then
    after BrandMismatch BrandOnly BrandWeight
      (List.filter (fun r => bool_decide (brand_s r = default [] new_brand)) processed)
  else if truthy new_maker_name && truthy new_type then
    after MakerTypeMismatch MakerTypeOnly MakerTypeWeight
      (List.filter (fun r => bool_decide ((maker_s r, type_s r)
                                          = (default [] new_maker_name, default [] new_type)))
         processed)
  else Ok (Return_ (no_candidate InsufficientKey [])).
Proof.
  intros Hcol. rewrite tier_candidates_unfold, Hcol. cbv zeta.
  now rewrite !default_set_index.
Qed.

(** A row of the frame under the pair of the new row: the lookup is not
    answered with a column. *)
Lemma reads_column_member (old_columns : list pystr) (new_row : Row)
    (processed : list ProcRow) (p : ProcRow) :
  In p processed ->
  norm_key (maker_name new_row) = Some (maker_s p) ->
  norm_key (type_code new_row) = Some (type_s p) ->
  reads_column old_columns new_row (set_index (fun r => (maker_s r, type_s r)) processed)
  = false.
Proof.
  intros Hp Hm Ht. apply reads_column_hit. rewrite Hm, Ht. simpl.
  rewrite set_index_lookup.
  destruct (List.filter _ processed) as [|r0 rs] eqn:Hrows; [|eauto].
  assert (Hin : In p []); [|destruct Hin].
  rewrite <- Hrows. apply filter_In. split; [assumption|].
  now apply bool_decide_eq_true_2.
Qed.

(** The rows a tier may hand to the ranking, for a key [k] of the new row
    and the key [key] of old rows. *)
Lemma after_lookup_members {K} `{EqDecision K} (key : ProcRow -> K) (k : K)
    (new_weight : wcell) (processed : list ProcRow)
    (tier_miss : Outcome) (pat_only pat_weight : Pattern) (p : ProcRow) :
  (exists m skips pat,
     match List.filter (fun r => bool_decide (key r = k)) processed with
     | [] => Ok (Return_ (no_candidate tier_miss []))
     | _ :: _ =>
         match weight_check float_of_text new_weight
                 (List.filter (fun r => bool_decide (key r = k)) processed)
                 pat_only pat_weight with
         | None => Ok (Return_ (no_candidate WeightOutOfRange []))
         | Some (m, skips, pat) => Ok (Continue m skips pat)
         end
     end = Ok (Continue m skips pat) /\ In p m)
  <-> In p processed /\ key p = k /\ passes_weight float_of_text new_weight p = true.
Proof.
  set (rows := List.filter (fun r => bool_decide (key r = k)) processed).
  assert (Hrows : forall q, In q rows <-> In q processed /\ key q = k).
  { intros q. unfold rows. rewrite filter_In, bool_decide_eq_true. tauto. }
  split.
  - intros (m & skips & pat & Hstep & Hp).
    destruct rows as [|r0 rs] eqn:Hr; [discriminate|]. rewrite <- Hr in *.
    destruct (weight_check _ _ rows _ _) as [[[m' sk'] p']|] eqn:Hw; [|discriminate].
    injection Hstep as -> -> ->. apply weight_check_kept in Hw. subst m.
    apply filter_In in Hp as [Hp Hpass]. apply Hrows in Hp. tauto.
  - intros (Hp & Hk & Hpass).
    assert (Hin : In p rows) by (apply Hrows; auto).
    destruct (weight_check_some new_weight rows pat_only pat_weight p Hin Hpass)
      as (skips & pat & Hw).
    exists (List.filter (passes_weight float_of_text new_weight) rows), skips, pat.
    destruct rows as [|r0 rs] eqn:Hr; [destruct Hin|]. rewrite <- Hr in *.
    rewrite Hw. split; [reflexivity|]. apply filter_In. auto.
Qed.

End Externals.

(** X1. With the indexes built from the processed old master, an old row
    is among the candidates that the tier chain hands to the ranking exactly
    when it is a row of the processed master, passes the weight check of
    the new row (it lies in the window when a window applies), and shares
    the key of the tier: the new row's brand code when that is present,
    otherwise its maker name and type code when both are present. *)
Theorem candidates_characterised
    (float_of_text : pystr -> option float) (old_columns : list pystr) (new_row : Row)
    (df_old_processed : list ProcRow) (p : ProcRow) :
  (exists matching_old skip_reasons pattern_name,
     tier_candidates float_of_text old_columns new_row df_old_processed
       (set_index brand_s df_old_processed)
       (set_index (fun r => (maker_s r, type_s r)) df_old_processed)
     = Ok (Continue matching_old skip_reasons pattern_name)
     /\ In p matching_old)
  <->
  In p df_old_processed
  /\ passes_weight float_of_text (weight new_row) p = true
  /\ ((truthy (norm_key (brand_code new_row)) = true
       /\ norm_key (brand_code new_row) = Some (brand_s p))
      \/ (truthy (norm_key (brand_code new_row)) = false
          /\ truthy (norm_key (maker_name new_row)) = true
          /\ truthy (norm_key (type_code new_row)) = true
          /\ norm_key (maker_name new_row) = Some (maker_s p)
          /\ norm_key (type_code new_row) = Some (type_s p))).
Proof.
  assert (Hcol : reads_column old_columns new_row
                   (set_index (fun r => (maker_s r, type_s r)) df_old_processed) = true ->
                 In p df_old_processed ->
                 (truthy (norm_key (brand_code new_row)) = true
                  /\ norm_key (brand_code new_row) = Some (brand_s p))
                 \/ (truthy (norm_key (brand_code new_row)) = false
                     /\ truthy (norm_key (maker_name new_row)) = true
                     /\ truthy (norm_key (type_code new_row)) = true
                     /\ norm_key (maker_name new_row) = Some (maker_s p)
                     /\ norm_key (type_code new_row) = Some (type_s p)) -> False).
  { intros Hc Hp [(Hb & _)|(_ & _ & _ & Hm & Ht)].
    - rewrite (reads_column_brand _ _ _ Hb) in Hc. discriminate.
    - rewrite (reads_column_member _ _ _ _ Hp Hm Ht) in Hc. discriminate. }
  destruct (reads_column old_columns new_row
              (set_index (fun r => (maker_s r, type_s r)) df_old_processed)) eqn:Hc.
  { split.
    - intros (m & skips & pat & Ht & _). apply tier_candidates_Ok in Ht. congruence.
    - intros (Hp & _ & Hkey). destruct (Hcol eq_refl Hp Hkey). }
  clear Hcol. rewrite (tier_candidates_scan _ _ _ _ Hc). cbv zeta.
  destruct (truthy (norm_key (brand_code new_row))) eqn:Hb.
  - rewrite after_lookup_members.
    destruct (norm_key (brand_code new_row)) as [b|]; [|discriminate]. simpl.
    split.
    + intros (? & -> & ?). auto.
    + intros (? & ? & [(_ & [= ->])|(? & _)]); [auto|discriminate].
  - destruct (truthy (norm_key (maker_name new_row))) eqn:Hm;
      destruct (truthy (norm_key (type_code new_row))) eqn:Ht; simpl;
      try (split; [intros (? & ? & ? & [= ] & _)
                  |intros (_ & _ & [(? & _)|(_ & ? & ? & _)]); discriminate]).
    rewrite after_lookup_members.
    destruct (norm_key (maker_name new_row)) as [mk|]; [|discriminate].
    destruct (norm_key (type_code new_row)) as [ty|]; [|discriminate]. simpl.
    split.
    + intros (? & [= -> ->] & ?). split; [assumption|]. split; [assumption|].
      right. auto.
    + intros (? & ? & [(? & _)|(_ & _ & _ & [= ->] & [= ->])]); [discriminate|auto].
Qed.

(** Scenario A: the old product is a candidate of the new one. *)
Lemma candidates_characterised_scenario_A :
  exists matching_old skip_reasons pattern_name,
    tier_candidates Scenario.no_text Scenario.sample_columns Scenario.new_a
      Scenario.sample_processed Scenario.sample_brands Scenario.sample_multi
    = Ok (Continue matching_old skip_reasons pattern_name)
    /\ List.map orig matching_old = [Scenario.old_a].
Proof.
  destruct (proj2 (candidates_characterised Scenario.no_text Scenario.sample_columns
                     Scenario.new_a
                     Scenario.sample_processed
                     (mkProc Scenario.old_a (lit "X") (lit "B1") (lit "7") 100)))
    as (m & skips & pat & Ht & _).
  { split; [now left|]. split; [vm_compute; reflexivity|].
    left. split; vm_compute; reflexivity. }
  exists m, skips, pat. split; [exact Ht|].
  vm_compute in Ht. injection Ht as <- _ _. reflexivity.
Defined.

(** ** Scores *)

(** On percentages the order of the scores is the order of the integers. *)
Lemma score_of_ratio_order (a b : Z) :
  (0 <= a <= 100)%Z -> (0 <= b <= 100)%Z ->
  PrimFloat.ltb (score_of_ratio a) (score_of_ratio b) = (a <? b)%Z
  /\ PrimFloat.leb (score_of_ratio a) (score_of_ratio b) = (a <=? b)%Z.
Proof.
  intros Ha Hb.
  assert (Hall : forallb (fun n => forallb (fun m =>
            Bool.eqb (PrimFloat.ltb (score_of_ratio (Z.of_nat n)) (score_of_ratio (Z.of_nat m)))
                     (Z.of_nat n <? Z.of_nat m)%Z
            && Bool.eqb (PrimFloat.leb (score_of_ratio (Z.of_nat n))
                           (score_of_ratio (Z.of_nat m)))
                        (Z.of_nat n <=? Z.of_nat m)%Z) (seq 0 101)) (seq 0 101) = true)
    by (vm_compute; reflexivity).
  rewrite forallb_forall in Hall. specialize (Hall (Z.to_nat a)).
  rewrite forallb_forall in Hall.
  specialize (Hall ltac:(apply in_seq; lia) (Z.to_nat b) ltac:(apply in_seq; lia)).
  rewrite !Z2Nat.id in Hall by lia.
  apply andb_true_iff in Hall as [H1 H2]. split; now apply eqb_prop.
Qed.

Lemma score_of_ratio_bounds (a : Z) :
  (0 <= a <= 100)%Z ->
  PrimFloat.leb 0 (score_of_ratio a) = true /\ PrimFloat.leb (score_of_ratio a) 1 = true.
Proof.
  intros Ha.
  change 0 with (score_of_ratio 0). change 1 with (score_of_ratio 100).
  rewrite (proj2 (score_of_ratio_order 0 a ltac:(lia) Ha)).
  rewrite (proj2 (score_of_ratio_order a 100 Ha ltac:(lia))).
  split; apply Z.leb_le; lia.
Qed.

Lemma is_score_ltb (x y : float) :
  is_score x -> is_score y ->
  exists a b, (0 <= a <= 100)%Z /\ (0 <= b <= 100)%Z
    /\ PrimFloat.ltb x y = (a <? b)%Z /\ PrimFloat.ltb y x = (b <? a)%Z
    /\ PrimFloat.leb x y = (a <=? b)%Z /\ PrimFloat.leb y x = (b <=? a)%Z.
Proof.
  intros (a & Ha & ->) (b & Hb & ->). exists a, b.
  destruct (score_of_ratio_order a b Ha Hb), (score_of_ratio_order b a Hb Ha). auto 10.
Qed.

Lemma is_score_leb_refl (x : float) : is_score x -> PrimFloat.leb x x = true.
Proof.
  intros (z & Hz & ->). rewrite (proj2 (score_of_ratio_order z z Hz Hz)).
  apply Z.leb_le. lia.
Qed.

(** The top of the stable descending sort of scored items: it is an item
    of the list, every item before it scores strictly less, and no item
    scores more. *)
Lemma sort_desc_top {A} (l : list (float * A)) (h : float * A) (t : list (float * A)) :
  Forall (fun x => is_score (fst x)) l ->
  sort_desc l = h :: t ->
  exists l1 l2, l = l1 ++ h :: l2
    /\ (forall y, In y l1 -> PrimFloat.ltb (fst y) (fst h) = true)
    /\ (forall y, In y l -> PrimFloat.leb (fst y) (fst h) = true).
Proof.
  intros Hall. revert h t. induction Hall as [|x l Hx Hl IH]; intros h t; [discriminate|].
  pose proof (sort_desc_head x l) as Hhead. intros Hs. rewrite Hs in Hhead. simpl in Hhead.
  destruct (sort_desc l) as [|h' t'] eqn:Hl'.
  - injection Hhead as Heq. subst h.
    assert (l = []) as ->.
    { pose proof (sort_desc_perm l) as Hp. rewrite Hl' in Hp.
      now apply Permutation_nil in Hp. }
    exists [], []. split; [reflexivity|]. split; [intros y []|].
    intros y [<-|[]]. now apply is_score_leb_refl.
  - destruct (IH h' t' eq_refl) as (l1 & l2 & -> & Hbefore & Hmax).
    assert (Hh' : is_score (fst h')).
    { rewrite Forall_forall in Hl. apply Hl, list_elem_of_In, in_elt. }
    simpl in Hhead. destruct (is_score_ltb _ _ Hx Hh') as (a & b & Ha & Hb & Hlt & _ & _ & Hle).
    destruct (PrimFloat.ltb (fst x) (fst h')) eqn:Hxh; injection Hhead as Heq; subst h.
    + exists (x :: l1), l2. split; [reflexivity|]. split.
      * intros y [<-|Hy]; [assumption|auto].
      * intros y [<-|Hy]; [|auto].
        destruct (is_score_ltb _ _ Hx Hh') as (a' & b' & _ & _ & Hlt' & _ & Hle' & _).
        rewrite Hle'. rewrite Hlt' in Hxh. apply Z.ltb_lt in Hxh. apply Z.leb_le. lia.
    + exists [], (l1 ++ h' :: l2). split; [reflexivity|]. split; [intros y []|].
      intros y [<-|Hy].
      * now apply is_score_leb_refl.
      * assert (Hy' : is_score (fst y)).
        { rewrite Forall_forall in Hl. now apply Hl, list_elem_of_In. }
        specialize (Hmax y Hy).
        destruct Hx as (zx & Hzx & Ex), Hh' as (zh & Hzh & Eh), Hy' as (zy & Hzy & Ey).
        rewrite Ex, Eh, Ey in *.
        rewrite (proj1 (score_of_ratio_order zx zh Hzx Hzh)) in Hxh.
        rewrite (proj2 (score_of_ratio_order zy zh Hzy Hzh)) in Hmax.
        rewrite (proj2 (score_of_ratio_order zy zx Hzy Hzx)).
        apply Z.ltb_ge in Hxh. apply Z.leb_le in Hmax. apply Z.leb_le. lia.
Qed.

Lemma calculate_similarity_is_score (fuzz_ratio : pystr -> pystr -> Z) (s1 s2 : cell) :
  (forall a b, 0 <= fuzz_ratio a b <= 100)%Z ->
  is_score (calculate_similarity fuzz_ratio s1 s2).
Proof.
  intros Hrange. unfold calculate_similarity.
  destruct (isna s1 || isna s2).
  - exists 0%Z. split; [lia|reflexivity].
  - eexists. split; [apply Hrange|reflexivity].
Qed.

(** The stand-in of the samples is a percentage. *)
Lemma sample_ratio_range (a b : pystr) : (0 <= Scenario.sample_ratio a b <= 100)%Z.
Proof.
  unfold Scenario.sample_ratio. cbv zeta.
  assert (Hcp : (Scenario.common_prefix a b <= length a
                 /\ Scenario.common_prefix a b <= length b)%nat).
  { revert b. induction a as [|x a IH]; intros [|y b]; simpl; try lia.
    destruct (x =? y)%N; [specialize (IH b)|]; lia. }
  destruct (Z.eqb_spec (Z.of_nat (length a + length b)) 0) as [|Hne]; [lia|].
  set (t := Z.of_nat (length a + length b)) in *.
  set (c := Z.of_nat (Scenario.common_prefix a b)).
  assert (0 < t)%Z by lia. assert (0 <= c /\ 2 * c <= t)%Z by lia.
  assert (0 <= t / 2 < t)%Z by (split; [apply Z.div_pos; lia|apply Z.div_lt; lia]).
  split.
  - apply Z.div_pos; lia.
  - enough ((200 * c + t / 2) / t < 101)%Z by lia.
    apply Z.div_lt_upper_bound; lia.
Qed.

(** X2. When [fuzz.ratio] returns percentages, the result of
    [find_best_match] that has a candidate names the first candidate with
    the greatest similarity: its score is that candidate's similarity to the
    new name, every deduplicated candidate before it scores strictly less
    and none scores more; the old row reported is the first row of the old
    master whose JAN is the winner's. *)
Theorem winner_is_first_best
    (fuzz_ratio : pystr -> pystr -> Z) (float_of_text : pystr -> option float)
    (old_columns : list pystr) (new_row : Row) (df_old_processed : list ProcRow)
    (df_old_brands_indexed : gmap pystr (list ProcRow))
    (df_old_multi_indexed : gmap (pystr * pystr) (list ProcRow))
    (df_old_original : list Row)
    (matching_old : list ProcRow) (skip_reasons : list SkipReason) (pattern_name : Pattern)
    (r : MatchResult) :
  (forall a b, 0 <= fuzz_ratio a b <= 100)%Z ->
  tier_candidates float_of_text old_columns new_row df_old_processed
    df_old_brands_indexed df_old_multi_indexed
    = Ok (Continue matching_old skip_reasons pattern_name) ->
  find_best_match fuzz_ratio float_of_text old_columns new_row df_old_processed
    df_old_brands_indexed df_old_multi_indexed df_old_original = Ok r ->
  mr_has_candidate r = true ->
  let similarity c := calculate_similarity fuzz_ratio (kana new_row) (fst c) in
  exists before best after,
    candidates_of matching_old = before ++ best :: after
    /\ mr_candidate r = Some (fst best, similarity best)
    /\ mr_score r = similarity best
    /\ (forall c, In c before -> PrimFloat.ltb (similarity c) (mr_score r) = true)
    /\ (forall c, In c (candidates_of matching_old) ->
                  PrimFloat.leb (similarity c) (mr_score r) = true)
    /\ exists o earlier later,
         mr_old r = Some o /\ df_old_original = earlier ++ o :: later
         /\ cell_eqb (jan o) (snd best) = true
         /\ forall y, In y earlier -> cell_eqb (jan y) (snd best) = false.
Proof.
  intros Hrange Htier Hr Hc similarity.
  unfold find_best_match in Hr. rewrite Htier in Hr. simpl in Hr.
  unfold select_best in Hr.
  destruct (candidates_of matching_old) as [|c0 cs] eqn:Hcands;
    [injection Hr as <-; discriminate|].
  destruct (sort_desc _) as [|[best_score [best_name best_jan]] rest] eqn:Hsort;
    [discriminate|].
  destruct (List.find _ df_old_original) as [o|] eqn:Hfind; [|discriminate].
  injection Hr as <-. simpl.
  apply sort_desc_top in Hsort as (l1 & l2 & Hl & Hbefore & Hmax).
  2:{ apply Forall_forall. intros x Hx. apply list_elem_of_In, in_map_iff in Hx as (c & <- & _).
      now apply calculate_similarity_is_score. }
  unfold similarities_of in Hl.
  apply map_eq_app in Hl as (before & tl & Hsplit & Hb & Htl).
  apply map_eq_cons in Htl as (best & after & -> & Hbest & Hafter).
  injection Hbest as Hscore Hpair. subst best_score. destruct best as [bn bj].
  injection Hpair as -> ->.
  exists before, (best_name, best_jan), after. split; [exact Hsplit|].
  split; [reflexivity|]. split; [reflexivity|]. split; [|split].
  - intros c H. apply (Hbefore (calculate_similarity fuzz_ratio (kana new_row) (fst c), c)).
    rewrite <- Hb.
    exact (in_map (fun c => (calculate_similarity fuzz_ratio (kana new_row) (fst c), c))
             _ _ H).
  - intros c H. change (In c (c0 :: cs)) in H.
    apply (Hmax (calculate_similarity fuzz_ratio (kana new_row) (fst c), c)).
    exact (in_map (fun c => (calculate_similarity fuzz_ratio (kana new_row) (fst c), c))
             _ _ H).
  - apply find_first in Hfind as (earlier & later & -> & Hp & Hearlier).
    exists o, earlier, later. auto.
Qed.

(** Two candidates of brand B1 score 0.92 both: the first one wins. *)
Lemma winner_is_first_best_sample :
  exists r, Scenario.sample_match Scenario.new_edge = Ok r
    /\ mr_candidate r = Some (kana Scenario.old_a, 0.92)
    /\ List.map fst (candidates_of Scenario.brand_b1)
       = [kana Scenario.old_a; kana Scenario.old_a2]
    /\ List.map (fun c => calculate_similarity Scenario.sample_ratio
                            (kana Scenario.new_edge) (fst c))
         (candidates_of Scenario.brand_b1) = [0.92; 0.92].
Proof.
  eexists. split; [vm_compute; reflexivity|].
  destruct (winner_is_first_best Scenario.sample_ratio Scenario.no_text
              Scenario.sample_columns Scenario.new_edge
              Scenario.sample_processed Scenario.sample_brands Scenario.sample_multi
              Scenario.sample_old Scenario.brand_b1 [] BrandWeight _
              sample_ratio_range ltac:(vm_compute; reflexivity)
              ltac:(vm_compute; reflexivity) eq_refl)
    as (before & best & after & _).
  split; [reflexivity|]. split; vm_compute; reflexivity.
Defined.

(** X3. When [fuzz.ratio] returns percentages, [calculate_similarity] lies
    between 0.0 and 1.0; it is 0.0 as soon as one of the two names is
    missing; and for two present names the label is the high one exactly
    when the percentage is at least 80. *)
Theorem similarity_range_and_threshold
    (fuzz_ratio : pystr -> pystr -> Z) (s1 s2 : cell) :
  (forall a b, 0 <= fuzz_ratio a b <= 100)%Z ->
  PrimFloat.leb 0 (calculate_similarity fuzz_ratio s1 s2) = true
  /\ PrimFloat.leb (calculate_similarity fuzz_ratio s1 s2) 1 = true
  /\ (isna s1 = true \/ isna s2 = true -> calculate_similarity fuzz_ratio s1 s2 = 0)
  /\ (isna s1 = false -> isna s2 = false ->
      (judge (calculate_similarity fuzz_ratio s1 s2) = (HighSimilarity, true)
       <-> (80 <= fuzz_ratio (astype_str s1) (astype_str s2))%Z)
      /\ (judge (calculate_similarity fuzz_ratio s1 s2) = (LowSimilarity, false)
          <-> (fuzz_ratio (astype_str s1) (astype_str s2) < 80)%Z)).
Proof.
  intros Hrange.
  destruct (calculate_similarity_is_score fuzz_ratio s1 s2 Hrange) as (z & Hz & Hs).
  rewrite Hs. destruct (score_of_ratio_bounds z Hz) as [H0 H1].
  split; [exact H0|]. split; [exact H1|]. rewrite <- Hs. split.
  - unfold calculate_similarity. intros [-> | ->]; [reflexivity|].
    now rewrite orb_true_r.
  - intros N1 N2. unfold calculate_similarity. rewrite N1, N2. simpl.
    set (ratio := fuzz_ratio (astype_str s1) (astype_str s2)).
    assert (Hratio : (0 <= ratio <= 100)%Z) by apply Hrange.
    unfold judge.
    change (float_of_int ratio / 100) with (score_of_ratio ratio).
    change 0.8 with (score_of_ratio 80).
    rewrite (proj2 (score_of_ratio_order 80 ratio ltac:(lia) Hratio)).
    destruct (Z.leb_spec 80 ratio); split; split; intros; try congruence; lia.
Qed.

(** On the names of scenario A the percentage is 92 and the label high. *)
Lemma similarity_range_and_threshold_sample :
  calculate_similarity Scenario.sample_ratio (kana Scenario.new_a) (kana Scenario.old_a) = 0.92
  /\ judge (calculate_similarity Scenario.sample_ratio
              (kana Scenario.new_a) (kana Scenario.old_a)) = (HighSimilarity, true).
Proof.
  split; [vm_compute; reflexivity|].
  apply (proj2 (proj2 (proj2 (similarity_range_and_threshold Scenario.sample_ratio
                                (kana Scenario.new_a) (kana Scenario.old_a)
                                sample_ratio_range))) eq_refl eq_refl).
  vm_compute. discriminate.
Defined.

(** ** What the tier chain hands on is never empty *)

Lemma weight_check_nonempty (float_of_text : pystr -> option float) (new_weight : wcell)
    (rows m : list ProcRow) (pat_only pat_weight pat : Pattern) (skips : list SkipReason) :
  weight_check float_of_text new_weight rows pat_only pat_weight = Some (m, skips, pat) ->
  rows <> [] -> m <> [].
Proof.
  rewrite weight_check_passes. unfold passes_weight.
  destruct (applied_window _ _) as [[lo hi]|].
  - destruct (List.filter _ rows); [discriminate|]. now intros [= <- _ _].
  - rewrite filter_true_all. now intros [= <- _ _].
Qed.

Lemma tier_continue_nonempty (float_of_text : pystr -> option float)
    (old_columns : list pystr) (new_row : Row)
    (processed : list ProcRow) (brands : gmap pystr (list ProcRow))
    (multi : gmap (pystr * pystr) (list ProcRow))
    (m : list ProcRow) (skips : list SkipReason) (pat : Pattern) :
  tier_candidates float_of_text old_columns new_row processed brands multi
  = Ok (Continue m skips pat) ->
  m <> [].
Proof.
  intros Ht. pose proof (tier_candidates_Ok _ _ _ _ _ _ _ Ht) as Hcol. revert Ht.
  rewrite tier_candidates_unfold, Hcol. cbv zeta.
  destruct (truthy (norm_key (brand_code new_row))).
  - destruct (default [] _) as [|r0 rows] eqn:Hrows; [discriminate|].
    destruct (weight_check _ _ _ _ _) as [[[m' s'] p']|] eqn:Hw; [|discriminate].
    intros [= <- <- <-]. now apply weight_check_nonempty in Hw.
  - destruct (_ && _); [|discriminate].
    destruct (default [] _) as [|r0 rows] eqn:Hrows; [discriminate|].
    destruct (weight_check _ _ _ _ _) as [[[m' s'] p']|] eqn:Hw; [|discriminate].
    intros [= <- <- <-]. now apply weight_check_nonempty in Hw.
Qed.

Lemma candidates_of_nonempty (m : list ProcRow) : m <> [] -> candidates_of m <> [].
Proof. destruct m as [|r m]; [congruence|]. intros _. discriminate. Qed.

(** X4. [find_best_match] never answers 候補なし（名称一致なし）: the frame
    that reaches the ranking holds a row, so its deduplicated candidates are
    not empty. A result without a candidate is one of the four early returns
    and carries no skip reason; a result with a candidate is labelled high
    or low. *)
Theorem find_best_match_outcomes
    (fuzz_ratio : pystr -> pystr -> Z) (float_of_text : pystr -> option float)
    (old_columns : list pystr) (new_row : Row) (df_old_processed : list ProcRow)
    (df_old_brands_indexed : gmap pystr (list ProcRow))
    (df_old_multi_indexed : gmap (pystr * pystr) (list ProcRow))
    (df_old_original : list Row) (r : MatchResult) :
  find_best_match fuzz_ratio float_of_text old_columns new_row df_old_processed
    df_old_brands_indexed df_old_multi_indexed df_old_original = Ok r ->
  mr_outcome r <> NoNameMatch
  /\ (mr_has_candidate r = false ->
      r = no_candidate (mr_outcome r) []
      /\ (mr_outcome r = BrandMismatch \/ mr_outcome r = MakerTypeMismatch
          \/ mr_outcome r = InsufficientKey \/ mr_outcome r = WeightOutOfRange))
  /\ (mr_has_candidate r = true ->
      mr_outcome r = HighSimilarity \/ mr_outcome r = LowSimilarity).
Proof.
  unfold find_best_match.
  destruct (tier_candidates _ _ _ _ _ _) as [[r0|m skips pat]|e] eqn:Ht; simpl;
    [| |discriminate].
  - intros [= <-]. apply tier_candidates_return in Ht as (o & -> & Ho). simpl.
    split; [destruct Ho as [-> | [-> | [-> | ->]]]; discriminate|].
    split; [auto|discriminate].
  - apply tier_continue_nonempty, candidates_of_nonempty in Ht.
    unfold select_best. destruct (candidates_of m) as [|c0 cs]; [congruence|].
    destruct (sort_desc _) as [|[best_score [best_name best_jan]] rest]; [discriminate|].
    destruct (List.find _ _); [|discriminate]. intros [= <-]. simpl.
    destruct (judge_cases best_score) as [-> | ->]; simpl;
      (split; [discriminate|]); (split; [discriminate|]); auto.
Qed.

(** Scenario A is answered with one of the two labels of a candidate. *)
Lemma find_best_match_outcomes_scenario_A :
  exists r, Scenario.sample_match Scenario.new_a = Ok r
    /\ (mr_outcome r = HighSimilarity \/ mr_outcome r = LowSimilarity).
Proof.
  eexists. split; [vm_compute; reflexivity|].
  apply (find_best_match_outcomes Scenario.sample_ratio Scenario.no_text
           Scenario.sample_columns Scenario.new_a
           Scenario.sample_processed Scenario.sample_brands Scenario.sample_multi
           Scenario.sample_old _ ltac:(vm_compute; reflexivity)).
  reflexivity.
Defined.

(** ** Cleansing against matching *)

Lemma norm_key_isna (c : cell) : isna c = true -> norm_key c = None.
Proof. unfold norm_key, notna. now intros ->. Qed.

(** X5. A row that [clean_initial_data] drops is a row that
    [find_best_match] would answer with 候補なし（キーコード不足） against any
    old master: the cleansing of the new master loses no match. *)
Theorem cleansing_drops_only_unmatchable
    (fuzz_ratio : pystr -> pystr -> Z) (float_of_text : pystr -> option float)
    (old_columns : list pystr) (df : list Row) (new_row : Row)
    (df_old_processed : list ProcRow)
    (df_old_brands_indexed : gmap pystr (list ProcRow))
    (df_old_multi_indexed : gmap (pystr * pystr) (list ProcRow))
    (df_old_original : list Row) :
  In new_row df ->
  ~ In new_row (clean_initial_data df) ->
  find_best_match fuzz_ratio float_of_text old_columns new_row df_old_processed
    df_old_brands_indexed df_old_multi_indexed df_old_original
  = Ok (no_candidate InsufficientKey []).
Proof.
  intros Hin Hdropped.
  assert (Hkeys : isna (maker_name new_row) && isna (brand_code new_row)
                  && isna (type_code new_row) = true).
  { destruct (_ && _) eqn:Hk; [reflexivity|]. exfalso. apply Hdropped.
    unfold clean_initial_data. apply filter_In. now rewrite Hk. }
  apply andb_true_iff in Hkeys as [[Hm Hb]%andb_true_iff Ht].
  unfold find_best_match. rewrite tier_candidates_unfold. unfold reads_column. cbv zeta.
  now rewrite (norm_key_isna _ Hm), (norm_key_isna _ Hb), (norm_key_isna _ Ht).
Qed.

(** A new row without keys is dropped, and unmatched if it were kept. *)
Lemma cleansing_drops_only_unmatchable_sample :
  clean_initial_data [Scenario.new_blank; Scenario.new_a] = [Scenario.new_a]
  /\ Scenario.sample_match Scenario.new_blank = Ok (no_candidate InsufficientKey []).
Proof.
  split; [reflexivity|].
  apply (cleansing_drops_only_unmatchable Scenario.sample_ratio Scenario.no_text
           Scenario.sample_columns [Scenario.new_blank; Scenario.new_a]); [now left|].
  vm_compute. intros [H|[]]. discriminate H.
Defined.

(** ** Old weights that do not read as numbers *)

Lemma leb_not_nan (x y : float) :
  PrimFloat.leb x y = true -> PrimFloat.is_nan x = false /\ PrimFloat.is_nan y = false.
Proof.
  intros H. unfold PrimFloat.is_nan.
  pose proof (leb_refl_of_leb_l _ _ H) as Hx. pose proof (leb_refl_of_leb_r _ _ H) as Hy.
  revert Hx Hy. rewrite !FloatAxioms.leb_spec, !FloatAxioms.eqb_spec. unfold SFleb, SFeqb.
  destruct (SFcompare (Prim2SF x) (Prim2SF x)) as [[]|] eqn:Ex;
    destruct (SFcompare (Prim2SF y) (Prim2SF y)) as [[]|] eqn:Ey; try discriminate; auto;
    intros _ _;
    try (pose proof (SFcompare_antisym (Prim2SF x) (Prim2SF x)) as Hax;
         rewrite Ex in Hax; discriminate);
    try (pose proof (SFcompare_antisym (Prim2SF y) (Prim2SF y)) as Hay;
         rewrite Ey in Hay; discriminate).
Qed.

Lemma to_numeric_unreadable (to_numeric_text : pystr -> option float) (w : wcell) :
  PrimFloat.is_nan (to_numeric to_numeric_text w) = false ->
  w <> WNA /\ forall s, w = WText s -> to_numeric_text s <> None.
Proof.
  destruct w as [|f|s]; simpl.
  - discriminate.
  - intros _. split; [discriminate|]. intros s [=].
  - intros H. split; [discriminate|]. intros s' [= <-] Hs. now rewrite Hs in H.
Qed.

Lemma weight_check_weight_pattern (float_of_text : pystr -> option float)
    (new_weight : wcell) (rows m : list ProcRow) (pat_only pat_weight pat : Pattern)
    (skips : list SkipReason) :
  weight_check float_of_text new_weight rows pat_only pat_weight = Some (m, skips, pat) ->
  pat_only <> pat_weight -> pat = pat_weight ->
  exists lo hi, applied_window float_of_text new_weight = Some (lo, hi)
    /\ m = List.filter (in_window lo hi) rows.
Proof.
  rewrite weight_check_passes. unfold passes_weight.
  destruct (applied_window _ _) as [[lo hi]|].
  - destruct (List.filter _ rows) eqn:Hf; [discriminate|].
    intros [= <- _ _] _ _. eauto.
  - intros [= _ _ <-] Hne Heq. congruence.
Qed.

(** X6. When the pattern of a new row is one with 目付, a window was
    applied and every candidate handed to the ranking has an old weight
    that [pd.to_numeric] read as a number inside the window: an old row
    whose weight is missing or does not parse is never a candidate under
    such a pattern. *)
Theorem weight_pattern_needs_readable_old_weight
    (float_of_text to_numeric_text : pystr -> option float)
    (old_columns : list pystr) (new_row : Row) (df_old : list Row)
    (matching_old : list ProcRow) (skip_reasons : list SkipReason) (pattern_name : Pattern)
    (p : ProcRow) :
  let df_old_processed := preprocess_old_data to_numeric_text df_old in
  tier_candidates float_of_text old_columns new_row df_old_processed
    (set_index brand_s df_old_processed)
    (set_index (fun r => (maker_s r, type_s r)) df_old_processed)
  = Ok (Continue matching_old skip_reasons pattern_name) ->
  pattern_name = BrandWeight \/ pattern_name = MakerTypeWeight ->
  In p matching_old ->
  (exists lo hi, applied_window float_of_text (weight new_row) = Some (lo, hi)
     /\ PrimFloat.leb lo (weight_float p) = true
     /\ PrimFloat.leb (weight_float p) hi = true)
  /\ PrimFloat.is_nan (weight_float p) = false
  /\ weight (orig p) <> WNA
  /\ (forall s, weight (orig p) = WText s -> to_numeric_text s <> None).
Proof.
  intros processed Ht Hpat Hp.
  assert (Hstep : exists rows pat_only pat_weight,
             weight_check float_of_text (weight new_row) rows pat_only pat_weight
             = Some (matching_old, skip_reasons, pattern_name)
             /\ pat_only <> pat_weight /\ pattern_name = pat_weight
             /\ forall q, In q rows -> In q processed).
  { pose proof (tier_candidates_Ok _ _ _ _ _ _ _ Ht) as Hcol.
    rewrite (tier_candidates_scan _ _ _ _ Hcol) in Ht. cbv zeta in Ht.
    destruct (truthy (norm_key (brand_code new_row))).
    - destruct (List.filter _ processed) as [|r0 rows] eqn:Hrows; [discriminate|].
      destruct (weight_check _ _ _ _ _) as [[[m' s'] p']|] eqn:Hw; [|discriminate].
      injection Ht as -> -> ->. exists (r0 :: rows), BrandOnly, BrandWeight.
      split; [exact Hw|]. split; [discriminate|]. split.
      + apply weight_check_shape in Hw as ([-> | ->] & _ & _); [|reflexivity].
        destruct Hpat; discriminate.
      + intros q Hq. rewrite <- Hrows in Hq. now apply filter_In in Hq as [? _].
    - destruct (_ && _); [|discriminate].
      destruct (List.filter _ processed) as [|r0 rows] eqn:Hrows; [discriminate|].
      destruct (weight_check _ _ _ _ _) as [[[m' s'] p']|] eqn:Hw; [|discriminate].
      injection Ht as -> -> ->. exists (r0 :: rows), MakerTypeOnly, MakerTypeWeight.
      split; [exact Hw|]. split; [discriminate|]. split.
      + apply weight_check_shape in Hw as ([-> | ->] & _ & _); [|reflexivity].
        destruct Hpat; discriminate.
      + intros q Hq. rewrite <- Hrows in Hq. now apply filter_In in Hq as [? _]. }
  destruct Hstep as (rows & pat_only & pat_weight & Hw & Hne & Heq & Hrows).
  destruct (weight_check_weight_pattern _ _ _ _ _ _ _ _ Hw Hne Heq) as (lo & hi & Ha & ->).
  apply filter_In in Hp as [Hp Hwin]. unfold in_window in Hwin.
  apply andb_true_iff in Hwin as [Hlo Hhi].
  destruct (leb_not_nan _ _ Hlo) as [_ Hnan].
  split; [eauto|]. split; [exact Hnan|].
  apply Hrows in Hp. unfold processed, preprocess_old_data in Hp.
  apply in_map_iff in Hp as (r & <- & _). simpl in *.
  now apply to_numeric_unreadable.
Qed.

(** Scenario A: the pattern is ブランド+目付 and the candidate weighs 100. *)
Lemma weight_pattern_needs_readable_old_weight_scenario_A :
  exists m, tier_candidates Scenario.no_text Scenario.sample_columns Scenario.new_a
              Scenario.sample_processed Scenario.sample_brands Scenario.sample_multi
            = Ok (Continue m [] BrandWeight)
    /\ Forall (fun p => PrimFloat.is_nan (weight_float p) = false) m.
Proof.
  eexists. split; [vm_compute; reflexivity|].
  apply Forall_forall. intros p Hp. apply list_elem_of_In in Hp.
  apply (weight_pattern_needs_readable_old_weight Scenario.no_text Scenario.no_text
           Scenario.sample_columns Scenario.new_a Scenario.sample_old _ [] BrandWeight p
           ltac:(vm_compute; reflexivity) ltac:(now left) Hp).
Defined.
End MatcherMore.

(* ===================================================================== *)
(** * Part IV. Further properties of the ledger merger                   *)
(* ===================================================================== *)

(** ** First-occurrence deduplication over a concatenation *)

Section DropDuplicatesMore.

Context {A K : Type} `{EqDecision K} (key : A -> K).

Lemma drop_duplicates_from_ext (seen seen' : list K) (l : list A) :
  (forall k, k ∈ seen <-> k ∈ seen') ->
  drop_duplicates_from key seen l = drop_duplicates_from key seen' l.
Proof.
  revert seen seen'. induction l as [|x l IH]; intros seen seen' Hs; simpl; [reflexivity|].
  rewrite (bool_decide_ext (key x ∈ seen) (key x ∈ seen')) by apply Hs.
  case_bool_decide; [now apply IH|]. f_equal. apply IH.
  intros k. rewrite !elem_of_cons, Hs. tauto.
Qed.

Lemma drop_duplicates_from_app (seen : list K) (l1 l2 : list A) :
  drop_duplicates_from key seen (l1 ++ l2)
  = drop_duplicates_from key seen l1
    ++ drop_duplicates_from key (List.map key l1 ++ seen) l2.
Proof.
  revert seen. induction l1 as [|x l1 IH]; intros seen; simpl; [reflexivity|].
  case_bool_decide as Hx.
  - rewrite IH. f_equal. apply drop_duplicates_from_ext.
    intros k. rewrite elem_of_cons, !elem_of_app.
    split; [tauto|]. intros [->|?]; tauto.
  - simpl. f_equal. rewrite IH. f_equal. apply drop_duplicates_from_ext.
    intros k. rewrite !elem_of_cons, !elem_of_app, !elem_of_cons. tauto.
Qed.

(** Rows whose key has been seen may be taken out beforehand. *)
Lemma drop_duplicates_from_filter (q : A -> bool) (seen : list K) (l : list A) :
  (forall x, In x l -> q x = false -> key x ∈ seen) ->
  drop_duplicates_from key seen (List.filter q l) = drop_duplicates_from key seen l.
Proof.
  revert seen. induction l as [|x l IH]; intros seen Hq; simpl; [reflexivity|].
  destruct (q x) eqn:Hqx; simpl.
  - case_bool_decide.
    + apply IH. intros y Hy. apply Hq. now right.
    + f_equal. apply IH. intros y Hy Hqy. apply elem_of_cons. right. apply Hq; auto.
      now right.
  - rewrite bool_decide_eq_true_2 by (apply Hq; [now left|assumption]).
    apply IH. intros y Hy. apply Hq. now right.
Qed.

(** A frame without repeated keys, none of them seen, is left as it is. *)
Lemma drop_duplicates_from_id (seen : list K) (l : list A) :
  NoDup (List.map key l) -> (forall x, In x l -> key x ∉ seen) ->
  drop_duplicates_from key seen l = l.
Proof.
  revert seen. induction l as [|x l IH]; intros seen Hnd Hs; simpl; [reflexivity|].
  inversion Hnd as [|? ? Hx Hnd']; subst.
  rewrite bool_decide_eq_false_2 by (apply Hs; now left).
  f_equal. apply IH; [assumption|].
  intros y Hy [Heq|Hin]%elem_of_cons.
  - apply Hx. rewrite <- Heq. now apply list_elem_of_In, in_map.
  - apply (Hs y); [now right|assumption].
Qed.

(** A row that is kept is the first one of its key. *)
Lemma drop_duplicates_from_is_first (seen : list K) (l : list A) (x : A) :
  In x (drop_duplicates_from key seen l) ->
  exists l1 l2, l = l1 ++ x :: l2 /\ forall y, In y l1 -> key y <> key x.
Proof.
  revert seen. induction l as [|z l IH]; intros seen; simpl; [tauto|].
  case_bool_decide as Hz.
  - intros Hx. pose proof (drop_duplicates_from_In key _ _ _ Hx) as [_ Hns].
    destruct (IH _ Hx) as (l1 & l2 & -> & Hl1).
    exists (z :: l1), l2. split; [reflexivity|].
    intros y [<-|Hy]; [congruence|auto].
  - intros [<-|Hx].
    + exists [], l. split; [reflexivity|]. intros y [].
    + pose proof (drop_duplicates_from_In key _ _ _ Hx) as [_ Hns].
      destruct (IH _ Hx) as (l1 & l2 & -> & Hl1).
      exists (z :: l1), l2. split; [reflexivity|].
      intros y [<-|Hy]; [|auto]. intros Heq. apply Hns. rewrite <- Heq. now left.
Qed.

End DropDuplicatesMore.

Module MergerMore.
Import Merger MergerViews MergerFacts.

Lemma filter_none {A} (p : A -> bool) (l : list A) :
  (forall x, In x l -> p x = false) -> List.filter p l = [].
Proof.
  induction l as [|x l IH]; simpl; intros Hp; [reflexivity|].
  rewrite (Hp x) by now left. apply IH. intros y Hy. apply Hp. now right.
Qed.

Lemma collides_key (c : cell) (df : list Row) :
  collides c (new_skus df) = true -> cell_key c ∈ List.map new_key df.
Proof.
  destruct c as [| |s]; try discriminate. intros H.
  apply collides_spec_new in H as (r & Hr & Hs).
  apply list_elem_of_In, in_map_iff. exists r. split; [|assumption].
  unfold new_key. now rewrite Hs.
Qed.

(** Steps 1 to 3 reduce to the filter on the old JANs of the feed. *)
Lemma remove_duplicates_with_short (pats : list pystr) (e f m : list Row) :
  remove_duplicates_with pats e f m =
  List.filter (fun r => cell_neb (jan_old r) (jan_new r))
    (drop_duplicates new_key (e ++ f ++ matching_kept f m)).
Proof.
  rewrite remove_duplicates_with_spec. unfold spec_merge, matching_kept. cbv zeta.
  change (fun r : Row => negb (cell_eqb (jan_old r) (jan_new r)))
    with (fun r : Row => cell_neb (jan_old r) (jan_new r)).
  f_equal. unfold drop_duplicates.
  change (fun r : Row => cell_key (jan_new r)) with new_key.
  rewrite !app_assoc, !drop_duplicates_from_app. f_equal.
  rewrite filter_twice.
  rewrite (filter_ext
             (fun r => negb (collides (jan_new r)
                               (new_skus (List.filter (feed_kind pats) e)))
                       && negb (collides (jan_new r) (new_skus f)
                                || collides (jan_old r) (old_skus f)))
             (fun r => negb (isin (jan_old r) (jan_set (List.map jan_old f)))
                       && (negb (collides (jan_new r)
                                   (new_skus (List.filter (feed_kind pats) e)))
                           && negb (collides (jan_new r) (new_skus f)))))
    by (intros r; rewrite isin_collides_old;
        destruct (collides (jan_new r) _), (collides (jan_new r) _),
          (collides (jan_old r) _); reflexivity).
  rewrite <- filter_twice. apply drop_duplicates_from_filter.
  intros r _ Hr. rewrite app_nil_r, map_app, elem_of_app.
  apply andb_false_iff in Hr as [Hr|Hr]; apply negb_false_iff, collides_key in Hr.
  - left. apply list_elem_of_In, in_map_iff in Hr as (x & Hx & [Hin _]%filter_In).
    apply list_elem_of_In, in_map_iff. eauto.
  - now right.
Qed.

Lemma remove_duplicates_with_settled (pats : list pystr) (e f m : list Row) :
  settled (remove_duplicates_with pats e f m).
Proof.
  rewrite remove_duplicates_with_short. split.
  - apply filter_NoDup_map, drop_duplicates_NoDup.
  - intros r Hr. now apply filter_In in Hr as [_ ?].
Qed.

(** On a settled ledger the merge keeps every row, in place, and appends. *)
Lemma remove_duplicates_with_prefix (pats : list pystr) (e f m : list Row) :
  settled e ->
  remove_duplicates_with pats e f m =
  e ++ List.filter (fun r => cell_neb (jan_old r) (jan_new r))
         (drop_duplicates_from new_key (List.map new_key e) (f ++ matching_kept f m)).
Proof.
  intros [Hnd Hne]. rewrite remove_duplicates_with_short. unfold drop_duplicates.
  rewrite drop_duplicates_from_app, app_nil_r, List.filter_app.
  rewrite (drop_duplicates_from_id new_key [] e Hnd) by (intros; apply not_elem_of_nil).
  now rewrite (filter_all _ e Hne).
Qed.

(** X7. The merged ledger is the accumulated ledger, the feed and the
    matching rows whose old JAN is not an old JAN of the feed, in this
    order, deduplicated on the new JAN (first occurrence) and purged of the
    rows with old JAN = new JAN. Steps 1 and 2 and the new-JAN half of step 3
    never change the result: whatever the source kinds that step 1 looks
    for, the merged ledger is the same. *)
Theorem merge_ignores_source_kind (pats : list pystr)
    (existing_df kao_planet_df matching_df : list Row) :
  remove_duplicates_with pats existing_df kao_planet_df matching_df
  = List.filter (fun r => cell_neb (jan_old r) (jan_new r))
      (drop_duplicates new_key
         (existing_df ++ kao_planet_df ++ matching_kept kao_planet_df matching_df))
  /\ forall other_pats,
       remove_duplicates_with other_pats existing_df kao_planet_df matching_df
       = remove_duplicates_with pats existing_df kao_planet_df matching_df.
Proof.
  split; [apply remove_duplicates_with_short|].
  intros other_pats. now rewrite !remove_duplicates_with_short.
Qed.

(** X8. An accumulated ledger that is settled (no repeated new JAN, no row
    with old JAN = new JAN) is kept whole and in place: the merged ledger
    is that ledger followed by rows of this run's feed and matching
    frames, none of which carries a new JAN of the ledger; with no feed and
    no matching frame the ledger comes back unchanged. *)
Theorem accumulated_ledger_is_kept (pats : list pystr)
    (existing_df kao_planet_df matching_df : list Row) :
  settled existing_df ->
  (exists added,
     remove_duplicates_with pats existing_df kao_planet_df matching_df
     = existing_df ++ added
     /\ forall r, In r added ->
          (In r kao_planet_df \/ In r matching_df)
          /\ forall a, In a existing_df -> new_key a <> new_key r)
  /\ remove_duplicates_with pats existing_df [] [] = existing_df.
Proof.
  intros Hs. split.
  - rewrite (remove_duplicates_with_prefix pats _ _ _ Hs).
    eexists. split; [reflexivity|].
    intros r [Hr _]%filter_In. apply drop_duplicates_from_In in Hr as [Hin Hkey].
    split.
    + apply in_app_iff in Hin as [?|Hin]; [now left|].
      right. unfold matching_kept in Hin. now apply filter_In in Hin as [? _].
    + intros a Ha Heq. apply Hkey. rewrite <- Heq. now apply list_elem_of_In, in_map.
  - rewrite (remove_duplicates_with_prefix pats _ _ _ Hs). apply app_nil_r.
Qed.

(** The accumulated row of the samples stays first; the feed row, which
    has its new JAN, is not added, the matching row is. *)
Lemma accumulated_ledger_is_kept_sample :
  remove_duplicates_advanced [Scenario.acc_d] [Scenario.feed_d] [Scenario.long_a]
  = [Scenario.acc_d; Scenario.long_a]
  /\ exists added,
       remove_duplicates_advanced [Scenario.acc_d] [Scenario.feed_d] [Scenario.long_a]
       = [Scenario.acc_d] ++ added.
Proof.
  split; [vm_compute; reflexivity|].
  assert (Hs : settled [Scenario.acc_d]).
  { split; [apply NoDup_singleton|]. intros r [<-|[]]. vm_compute. reflexivity. }
  destruct (accumulated_ledger_is_kept feed_pattern_weekly [Scenario.acc_d]
              [Scenario.feed_d] [Scenario.long_a] Hs) as [(added & Heq & _) _].
  exists added. exact Heq.
Defined.

(** X9. Running the merge again on its own output, with the same feed and
    the same matching frame, changes nothing when the accumulated ledger
    was settled. *)
Theorem rerun_changes_nothing (pats : list pystr)
    (existing_df kao_planet_df matching_df : list Row) :
  settled existing_df ->
  remove_duplicates_with pats
    (remove_duplicates_with pats existing_df kao_planet_df matching_df)
    kao_planet_df matching_df
  = remove_duplicates_with pats existing_df kao_planet_df matching_df.
Proof.
  intros Hs.
  rewrite (remove_duplicates_with_prefix pats _ kao_planet_df matching_df
             (remove_duplicates_with_settled pats existing_df kao_planet_df matching_df)).
  rewrite <- (app_nil_r (remove_duplicates_with pats existing_df kao_planet_df matching_df))
    at 3.
  f_equal. apply filter_none. intros x Hx.
  destruct (cell_neb (jan_old x) (jan_new x)) eqn:Hneq; [exfalso|reflexivity].
  pose proof (drop_duplicates_from_In new_key _ _ _ Hx) as [_ Hkey].
  apply drop_duplicates_from_is_first in Hx as (l1 & l2 & Hl & Hfirst).
  apply Hkey, list_elem_of_In, in_map.
  rewrite (remove_duplicates_with_prefix pats _ _ _ Hs).
  apply in_app_iff. right. apply filter_In. split; [|assumption].
  rewrite Hl. apply drop_duplicates_from_first; [|assumption].
  intros Hin. apply Hkey.
  rewrite (remove_duplicates_with_prefix pats _ _ _ Hs), map_app, elem_of_app. now left.
Qed.

Lemma rerun_changes_nothing_sample :
  remove_duplicates_advanced
    (remove_duplicates_advanced [Scenario.acc_d] [Scenario.feed_d] [Scenario.long_a])
    [Scenario.feed_d] [Scenario.long_a]
  = remove_duplicates_advanced [Scenario.acc_d] [Scenario.feed_d] [Scenario.long_a].
Proof.
  apply (rerun_changes_nothing feed_pattern_weekly).
  split; [apply NoDup_singleton|]. intros r [<-|[]]. vm_compute. reflexivity.
Defined.

(** Without the hypothesis the second run can differ: a ledger row with
    old JAN = new JAN takes the place of a matching row with the same new
    JAN in the first run and is purged; the second run keeps the matching
    row. *)
Lemma rerun_needs_settled_ledger :
  let same := Scenario.ledger_row "4900000000001" "4900000000001" "マッチング" in
  remove_duplicates_advanced [same] [] [Scenario.match_d] = []
  /\ remove_duplicates_advanced [] [] [Scenario.match_d] = [Scenario.match_d].
Proof. split; vm_compute; reflexivity. Qed.

(** ** Week after week *)

Lemma remove_duplicates_with_In (pats : list pystr) (e f m : list Row) (r : Row) :
  In r (remove_duplicates_with pats e f m) -> In r e \/ In r f \/ In r m.
Proof.
  rewrite remove_duplicates_with_short. intros [Hr _]%filter_In.
  apply drop_duplicates_In in Hr. rewrite !in_app_iff in Hr.
  unfold matching_kept in Hr. rewrite filter_In in Hr. tauto.
Qed.

Lemma clean_jan_codes_canonical_row (df : list Row) (r : Row) :
  In r (clean_jan_codes df) -> canonical_row r.
Proof.
  unfold clean_jan_codes. intros (x & <- & _)%in_map_iff.
  split; simpl; eexists; (split; [reflexivity|]);
    (split; [apply clean_jan_length|apply clean_jan_digits]).
Qed.

Lemma weekly_run_canonical (e f m : list Row) : Forall canonical_row (weekly_run e f m).
Proof.
  apply Forall_forall. intros r Hr. apply list_elem_of_In in Hr.
  unfold weekly_run, remove_duplicates_advanced in Hr.
  apply remove_duplicates_with_In in Hr as [Hr|[Hr|Hr]];
    now apply clean_jan_codes_canonical_row in Hr.
Qed.

(** X10. The ledger accumulates: when the merged ledger of one weekly run
    is the accumulated ledger of the next, that run cleans it without
    changing it and keeps it whole and in place, followed by rows of the
    new feed and matching frames; with the frames of the run that made it,
    or with none, it comes back unchanged. *)
Theorem weekly_ledger_accumulates
    (existing_df kao_planet_df matching_df next_kao_planet_df next_matching_df : list Row) :
  let ledger := weekly_run existing_df kao_planet_df matching_df in
  clean_jan_codes ledger = ledger
  /\ (exists added,
        weekly_run ledger next_kao_planet_df next_matching_df = ledger ++ added
        /\ forall r, In r added ->
             In r (clean_jan_codes next_kao_planet_df)
             \/ In r (clean_jan_codes next_matching_df))
  /\ weekly_run ledger [] [] = ledger.
Proof.
  intros ledger.
  assert (Hclean : clean_jan_codes ledger = ledger)
    by apply clean_jan_codes_fixed, weekly_run_canonical.
  assert (Hs : settled ledger) by apply remove_duplicates_with_settled.
  split; [exact Hclean|]. unfold weekly_run. rewrite Hclean.
  unfold remove_duplicates_advanced. split.
  - rewrite (remove_duplicates_with_prefix _ _ _ _ Hs). eexists. split; [reflexivity|].
    intros r [Hr _]%filter_In. apply drop_duplicates_from_In in Hr as [Hin _].
    apply in_app_iff in Hin as [?|Hin]; [now left|].
    right. unfold matching_kept in Hin. now apply filter_In in Hin as [? _].
  - rewrite (remove_duplicates_with_prefix _ _ _ _ Hs). apply app_nil_r.
Qed.

End MergerMore.

(* ===================================================================== *)
(** * Part V. The candidate sheet                                        *)
(* ===================================================================== *)

Module SheetFacts.
Import Matcher MatcherViews CandidateSheet FloatFacts MatcherFacts MatcherMore.

Local Open Scope float_scope.

(** ** The pattern chain *)

(** A try block never raises: a label that is not in the index leaves
    [matched_df] as it was, as an empty selection does. *)
Lemma try_pattern_total {K} `{Countable K} (idx : gmap K (list ProcRow)) (label : K)
    (window : option (float * float)) (pat : Pattern) (multi : bool)
    (matched_df : option Matched) :
  try_pattern idx label window pat multi matched_df =
  Ok match match window with
           | Some (min_w, max_w) =>
               List.filter (in_window min_w max_w) (default [] (idx !! label))
           | None => default [] (idx !! label)
           end with
     | [] => matched_df
     | pattern_rows => Some (mkMatched pattern_rows pat multi)
     end.
Proof.
  unfold try_pattern, loc. destruct (idx !! label) as [found|]; simpl.
  - destruct window as [[lo hi]|]; [destruct (List.filter _ found)|destruct found];
      reflexivity.
  - destruct window as [[lo hi]|]; reflexivity.
Qed.

(** The chain as one expression: the first of the four patterns that
    finds rows; when the two patterns by brand find none and the pair of
    the new row is answered with a column, the reads of that column's frame
    of one row. *)
Lemma sheet_frame_unfold (float_of_text : pystr -> option float)
    (old_columns : list pystr) (new_row : Row)
    (brands : gmap pystr (list ProcRow)) (multi : gmap (pystr * pystr) (list ProcRow)) :
  sheet_frame float_of_text old_columns new_row brands multi =
  let by_brand := truthy (norm_key (brand_code new_row)) in
  let by_maker_type :=
    truthy (norm_key (maker_name new_row)) && truthy (norm_key (type_code new_row)) in
  let brand_rows := default [] (brands !! default [] (norm_key (brand_code new_row))) in
  let multi_rows :=
    default [] (multi !! (default [] (norm_key (maker_name new_row)),
                          default [] (norm_key (type_code new_row)))) in
  let labels := types_of multi (default [] (norm_key (maker_name new_row))) in
  let found (use : bool) (found_rows : list ProcRow) (pat : Pattern) (from : bool) :=
    if use then
      match found_rows with
      | [] => None
      | _ :: _ => Some (mkMatched found_rows pat from)
      end
    else None in
  let in_band (found_rows : list ProcRow) :=
    match applied_window float_of_text (weight new_row) with
    | Some (lo, hi) => List.filter (in_window lo hi) found_rows
    | None => []
    end in
  match found by_brand (in_band brand_rows) BrandWeight false with
  | Some a => Ok (Some a)
  | None =>
      match found by_brand brand_rows BrandOnly false with
      | Some b => Ok (Some b)
      | None =>
          if pair_is_column old_columns new_row multi then
            _ <~ match applied_window float_of_text (weight new_row) with
                 | Some _ =>
                     try_except_KeyError
                       (@read_columns (option Matched) labels [lit "目付_旧_float"]) None
                 | None => Ok None
                 end ;;
            read_columns labels [lit "JANコード_旧"]
          else
            Ok match found by_maker_type (in_band multi_rows) MakerTypeWeight true with
               | Some c => Some c
               | None => found by_maker_type multi_rows MakerTypeOnly true
               end
      end
  end.
Proof.
  unfold sheet_frame, pair_is_column, applied_window, try_pattern, try_pattern_c,
    try_pattern_d, loc, loc_pair, read_columns, try_except_KeyError.
  cbv zeta.
  destruct (brands !! _) as [brand_rows|]; destruct (multi !! _) as [multi_rows|];
    destruct (truthy (norm_key (brand_code new_row)));
    destruct (truthy (norm_key (maker_name new_row)));
    destruct (truthy (norm_key (type_code new_row)));
    destruct (notna_w (weight new_row));
    destruct (get_weight_range float_of_text (weight new_row)) as [[lo|] [hi|]];
    destruct (types_of multi _) as [|t ts];
    cbn [fst snd];
    try destruct (bool_decide (default [] (norm_key (type_code new_row)) ∈ old_columns));
    simpl;
    repeat match goal with
           | |- context [PrimFloat.eqb ?a ?b] => destruct (PrimFloat.eqb a b); simpl
           end;
    repeat match goal with
           | |- context [List.filter ?q ?l] => destruct (List.filter q l); simpl
           end;
    try (destruct brand_rows; simpl); try (destruct multi_rows; simpl);
    repeat match goal with
           | |- context [bool_decide ?P] => destruct (bool_decide P); simpl
           end;
    reflexivity.
Qed.

(** The chain returns when the pair of the new row is not answered with a
    column. *)
Lemma sheet_frame_total (float_of_text : pystr -> option float)
    (old_columns : list pystr) (new_row : Row)
    (brands : gmap pystr (list ProcRow)) (multi : gmap (pystr * pystr) (list ProcRow)) :
  pair_is_column old_columns new_row multi = false ->
  exists matched_df,
    sheet_frame float_of_text old_columns new_row brands multi = Ok matched_df.
Proof.
  intros Hcol. rewrite sheet_frame_unfold, Hcol. cbv zeta.
  repeat match goal with
         | |- context [if ?b then _ else _] => destruct b
         | |- context [match ?x with _ => _ end] => destruct x
         end; eauto.
Qed.

Lemma sheet_frame_of_tier (float_of_text : pystr -> option float)
    (old_columns : list pystr) (new_row : Row)
    (df_old_processed : list ProcRow)
    (df_old_brands_indexed : gmap pystr (list ProcRow))
    (df_old_multi_indexed : gmap (pystr * pystr) (list ProcRow))
    (matching_old : list ProcRow) (skip_reasons : list SkipReason)
    (pattern_name : Pattern) :
  tier_candidates float_of_text old_columns new_row df_old_processed
    df_old_brands_indexed df_old_multi_indexed
  = Ok (Continue matching_old skip_reasons pattern_name) ->
  sheet_frame float_of_text old_columns new_row df_old_brands_indexed df_old_multi_indexed
  = Ok (Some (mkMatched matching_old pattern_name
                (negb (truthy (norm_key (brand_code new_row)))))).
Proof.
  intros Ht. pose proof (tier_candidates_Ok _ _ _ _ _ _ _ Ht) as Hcol.
  rewrite tier_candidates_unfold, Hcol in Ht. rewrite sheet_frame_unfold.
  rewrite reads_column_pair in Hcol.
  cbv zeta in *.
  destruct (truthy (norm_key (brand_code new_row))); simpl in *.
  - destruct (default [] (df_old_brands_indexed !! _)) as [|r0 found]; [discriminate|].
    rewrite weight_check_passes in Ht. unfold passes_weight in Ht.
    destruct (applied_window _ _) as [[lo hi]|].
    + destruct (List.filter _ (r0 :: found)); [discriminate|].
      now injection Ht as <- <- <-.
    + rewrite filter_true_all in Ht. now injection Ht as <- <- <-.
  - rewrite Hcol.
    destruct (truthy (norm_key (maker_name new_row)) && truthy (norm_key (type_code new_row)));
      [|discriminate].
    destruct (default [] (df_old_multi_indexed !! _)) as [|r0 found]; [discriminate|].
    rewrite weight_check_passes in Ht. unfold passes_weight in Ht.
    destruct (applied_window _ _) as [[lo hi]|].
    + destruct (List.filter _ (r0 :: found)); [discriminate|].
      now injection Ht as <- <- <-.
    + rewrite filter_true_all in Ht. now injection Ht as <- <- <-.
Qed.

(** X11. For a new row whose tier chain in [find_best_match] hands rows to
    the ranking, the pattern chain A to D of the candidate sheet selects
    the same rows under the same pattern name: from the frame indexed by
    brand when the brand code is present, from the frame indexed by maker
    name and type otherwise. *)
Theorem sheet_frame_agrees (float_of_text : pystr -> option float)
    (old_columns : list pystr) (new_row : Row)
    (df_old_processed : list ProcRow)
    (df_old_brands_indexed : gmap pystr (list ProcRow))
    (df_old_multi_indexed : gmap (pystr * pystr) (list ProcRow))
    (matching_old : list ProcRow) (skip_reasons : list SkipReason)
    (pattern_name : Pattern) :
  tier_candidates float_of_text old_columns new_row df_old_processed
    df_old_brands_indexed df_old_multi_indexed
  = Ok (Continue matching_old skip_reasons pattern_name) ->
  sheet_frame float_of_text old_columns new_row df_old_brands_indexed df_old_multi_indexed
  = Ok (Some (mkMatched matching_old pattern_name
                (negb (truthy (norm_key (brand_code new_row)))))).
Proof. apply sheet_frame_of_tier. Qed.

(** Scenario A: the sheet reads the rows of brand B1 inside the band. *)
Lemma sheet_frame_agrees_scenario_A :
  exists m,
    sheet_frame Scenario.no_text Scenario.sample_columns Scenario.new_a
      Scenario.sample_brands Scenario.sample_multi
    = Ok (Some (mkMatched m BrandWeight false))
    /\ List.map orig m = [Scenario.old_a].
Proof.
  eexists. split.
  - apply (sheet_frame_agrees Scenario.no_text Scenario.sample_columns Scenario.new_a
             Scenario.sample_processed
             Scenario.sample_brands Scenario.sample_multi _ [] BrandWeight).
    vm_compute. reflexivity.
  - reflexivity.
Defined.

(** ** Row labels against positions *)

Section Labels.

Variable keep : Row -> bool.

(** A frame read from a file, with the labels from [k] on, after a mask. *)
Local Abbreviation masked k df :=
  (List.filter (fun labelled : nat * Row => keep (snd labelled))
     (combine (seq k (length df)) df)).

Lemma masked_rows (k : nat) (df : list Row) :
  List.map snd (masked k df) = List.filter keep df.
Proof.
  revert k. induction df as [|x df IH]; intros k; simpl; [reflexivity|].
  destruct (keep x); simpl; now rewrite IH.
Qed.

Lemma masked_length (k : nat) (df : list Row) :
  length (masked k df) = length (List.filter keep df).
Proof. now rewrite <- (masked_rows k df), length_map. Qed.

Lemma masked_In (k : nat) (df : list Row) (r : Row) :
  In r df -> keep r = true -> exists i, In (i, r) (masked k df).
Proof.
  revert k. induction df as [|x df IH]; intros k; simpl; [tauto|].
  intros [->|Hr] Hk.
  - rewrite Hk. exists k. now left.
  - destruct (IH (S k) Hr Hk) as [i Hi]. exists i. destruct (keep x); [now right|assumption].
Qed.

(** The last label kept is at least its position. *)
Lemma masked_last (k : nat) (df : list Row) :
  masked k df <> [] ->
  exists labelled, In labelled (masked k df) /\ (k + length (masked k df) <= S (fst labelled))%nat.
Proof.
  revert k. induction df as [|x df IH]; intros k; simpl; [congruence|].
  destruct (keep x); simpl.
  - intros _. destruct (masked (S k) df) as [|l0 ls] eqn:Hm.
    + exists (k, x). split; [now left|]. simpl. lia.
    + destruct (IH (S k)) as (l & Hl & Hle); [now rewrite Hm|].
      rewrite Hm in Hl, Hle. exists l. split; [now right|]. simpl in *. lia.
  - intros Hne. destruct (IH (S k) Hne) as (l & Hl & Hle). exists l. split; [assumption|lia].
Qed.

(** A label is beyond the number of rows kept exactly when a row that the
    mask drops comes before a row that it keeps. *)
Lemma masked_label_beyond (k : nat) (df : list Row) :
  (exists labelled, In labelled (masked k df)
                    /\ (k + length (masked k df) <= fst labelled)%nat)
  <-> exists pre r mid r' post,
        df = pre ++ r :: mid ++ r' :: post /\ keep r = false /\ keep r' = true.
Proof.
  revert k. induction df as [|x df IH]; intros k; simpl.
  - split; [intros (? & [] & _)|]. intros (pre & r & mid & r' & post & H & _).
    now destruct pre.
  - destruct (keep x) eqn:Hx; simpl.
    + split.
      * intros (l & [<-|Hl] & Hle); [simpl in Hle; lia|].
        destruct (proj1 (IH (S k))) as (pre & r & mid & r' & post & -> & Hr & Hr').
        { exists l. split; [assumption|lia]. }
        exists (x :: pre), r, mid, r', post. auto.
      * intros (pre & r & mid & r' & post & H & Hr & Hr').
        destruct pre as [|y pre]; simpl in H; injection H as -> ->; [congruence|].
        destruct (proj2 (IH (S k))) as (l & Hl & Hle); [eauto 10|].
        exists l. split; [now right|lia].
    + split.
      * intros (l & Hl & _). apply filter_In in Hl as [Hl Hkeep].
        destruct l as [i r']. apply in_combine_r in Hl. simpl in Hkeep.
        apply in_split in Hl as (mid & post & ->).
        exists [], x, mid, r', post. auto.
      * intros (pre & r & mid & r' & post & H & Hr & Hr').
        assert (Hin : In r' df).
        { destruct pre as [|y pre]; simpl in H; injection H as -> ->.
          - apply in_app_iff. right. now left.
          - apply in_app_iff. right. right. apply in_app_iff. right. now left. }
        destruct (masked_In (S k) df r' Hin Hr') as [i Hi].
        destruct (masked_last (S k) df) as (l & Hl & Hle).
        { intros Hnil. rewrite Hnil in Hi. destruct Hi. }
        exists l. split; [assumption|lia].
Qed.

End Labels.

(** ** The loop over [results] *)

Lemma label_cases (df_new : list (nat * Row)) (n : nat) :
  (exists labelled, In labelled df_new /\ (n <= fst labelled)%nat)
  \/ (forall labelled, In labelled df_new -> (fst labelled < n)%nat).
Proof.
  induction df_new as [|l df_new IH]; [right; intros ? []|].
  destruct IH as [(l' & Hl' & Hle)|Hall]; [left; exists l'; split; [now right|assumption]|].
  destruct (le_lt_dec n (fst l)) as [Hle|Hlt].
  - left. exists l. split; [now left|assumption].
  - right. intros l' [<-|Hl']; auto.
Qed.

Section Loop.

Variable fuzz_ratio : pystr -> pystr -> Z.
Variable float_of_text : pystr -> option float.

(** When the loop returns, every label was a position of [results]. *)
Lemma create_candidate_sheet_data_labels (old_columns : list pystr)
    (df_new : list (nat * Row))
    (processed : list ProcRow) (original : list Row) (results : list MatchResult)
    (brands : gmap pystr (list ProcRow)) (multi : gmap (pystr * pystr) (list ProcRow))
    (sheet : list Entry) :
  create_candidate_sheet_data fuzz_ratio float_of_text old_columns df_new processed original
    results brands multi = Ok sheet ->
  forall labelled, In labelled df_new -> (fst labelled < length results)%nat.
Proof.
  unfold create_candidate_sheet_data. revert sheet.
  induction df_new as [|l df_new IH]; intros sheet; simpl; [intros _ ? []|].
  destruct (nth_error results (fst l)) as [result|] eqn:Hnth; [|discriminate].
  destruct (if negb (mr_has_candidate result) then _ else _) as [part|]; [|discriminate].
  simpl. destruct (for_each _ df_new) as [parts|] eqn:Hparts; [|discriminate].
  intros _ l' [<-|Hl'].
  - apply nth_error_Some. congruence.
  - now apply (IH (concat parts)).
Qed.

(** When the pattern chain returns for every row, the loop raises
    IndexError exactly when a label is not a position of [results];
    nothing else in its body raises. *)
Lemma create_candidate_sheet_data_raises (old_columns : list pystr)
    (df_new : list (nat * Row))
    (processed : list ProcRow) (original : list Row) (results : list MatchResult)
    (brands : gmap pystr (list ProcRow)) (multi : gmap (pystr * pystr) (list ProcRow)) :
  (forall labelled, In labelled df_new ->
     exists matched_df,
       sheet_frame float_of_text old_columns (snd labelled) brands multi = Ok matched_df) ->
  (create_candidate_sheet_data fuzz_ratio float_of_text old_columns df_new processed original
     results brands multi = Raise IndexError
   /\ exists labelled, In labelled df_new /\ (length results <= fst labelled)%nat)
  \/ ((exists sheet,
         create_candidate_sheet_data fuzz_ratio float_of_text old_columns df_new processed
           original results brands multi = Ok sheet)
      /\ forall labelled, In labelled df_new -> (fst labelled < length results)%nat).
Proof.
  unfold create_candidate_sheet_data.
  induction df_new as [|l df_new IH]; intros Hframe; simpl.
  - right. split; [eauto|]. intros ? [].
  - specialize (IH (fun l' Hl' => Hframe l' (or_intror Hl'))).
    destruct (nth_error results (fst l)) as [result|] eqn:Hnth.
    + assert (Hlt : (fst l < length results)%nat) by (apply nth_error_Some; congruence).
      assert (Hbody : exists part,
                 (if negb (mr_has_candidate result) then Ok []
                  else matched_df <~ sheet_frame float_of_text old_columns (snd l)
                                       brands multi ;;
                       Ok (sheet_rows fuzz_ratio (snd l) matched_df original))
                 = Ok part).
      { destruct (negb _); [eauto|].
        destruct (Hframe l (or_introl eq_refl)) as [matched_df ->]. simpl. eauto. }
      destruct Hbody as [part ->]. simpl.
      destruct IH as [[IH (l' & Hl' & Hle)]|[[sheet IH] Hall]].
      * left. destruct (for_each _ df_new); [discriminate|].
        simpl in *. split; [assumption|]. exists l'. auto.
      * right. destruct (for_each _ df_new) as [parts|]; [|discriminate].
        simpl in *. split; [eauto|]. intros l' [<-|Hl']; auto.
    + apply nth_error_None in Hnth. left. simpl. split; [reflexivity|].
      exists l. auto.
Qed.

End Loop.

(** ** The sheet in a run *)

Lemma for_each_length {A B} (f : A -> res B) (l : list A) (bs : list B) :
  for_each f l = Ok bs -> length bs = length l.
Proof.
  intros H. apply for_each_Forall2 in H. symmetry.
  induction H; simpl; congruence.
Qed.

Lemma process_master_data_results
    (fuzz_ratio : pystr -> pystr -> Z) (float_of_text to_numeric_text : pystr -> option float)
    (old_columns : list pystr) (old_file new_file : list Row) (run : Run) :
  process_master_data fuzz_ratio float_of_text to_numeric_text old_columns
    old_file new_file = Ok run ->
  let df_new := clean_initial_data (load_data new_file) in
  let df_old := clean_initial_data (load_data old_file) in
  let df_old_processed := preprocess_old_data to_numeric_text df_old in
  for_each (fun new_row =>
              find_best_match fuzz_ratio float_of_text old_columns new_row df_old_processed
                (set_index brand_s df_old_processed)
                (set_index (fun r => (maker_s r, type_s r)) df_old_processed) df_old)
    df_new = Ok (results run)
  /\ report run = List.filter (fun row => mr_has_candidate (snd row))
                    (combine df_new (results run)).
Proof.
  unfold process_master_data. cbv zeta.
  destruct (for_each _ _) as [rs|] eqn:Hrs; simpl; [|discriminate].
  intros [= <-]. simpl. split; [reflexivity|].
  destruct rs; [|reflexivity]. now rewrite combine_nil.
Qed.

(** *** Labels in place *)

Lemma masked_in_place (keep : Row -> bool) (k : nat) (df : list Row) :
  (forall labelled,
     In labelled (List.filter (fun labelled : nat * Row => keep (snd labelled))
                    (combine (seq k (length df)) df)) ->
     (fst labelled < k + length (List.filter keep df))%nat) ->
  List.filter (fun labelled : nat * Row => keep (snd labelled))
    (combine (seq k (length df)) df)
  = combine (seq k (length (List.filter keep df))) (List.filter keep df).
Proof.
  revert k. induction df as [|x df IH]; intros k; simpl; [reflexivity|].
  destruct (keep x) eqn:Hx; simpl; intros Hall.
  - f_equal. apply IH. intros l Hl. specialize (Hall l (or_intror Hl)). lia.
  - destruct (List.filter (fun labelled : nat * Row => keep (snd labelled))
                (combine (seq (S k) (length df)) df)) as [|l0 ls] eqn:Hm.
    + pose proof (masked_length keep (S k) df) as Hlen. rewrite Hm in Hlen.
      simpl in Hlen. destruct (List.filter keep df); [reflexivity|discriminate].
    + destruct (masked_last keep (S k) df) as (l & Hl & Hle); [now rewrite Hm|].
      rewrite (masked_length keep (S k) df) in Hle.
      specialize (Hall l). rewrite <- Hm in Hall. specialize (Hall Hl). lia.
Qed.

(** With the labels in place the loop reads, for each row, its own result. *)
Lemma for_each_own_result {B} (body : Row -> MatchResult -> res B)
    (rows : list Row) (done rest : list MatchResult) :
  length rest = length rows ->
  for_each (fun labelled : nat * Row =>
              match nth_error (done ++ rest) (fst labelled) with
              | None => Raise IndexError
              | Some result => body (snd labelled) result
              end)
    (combine (seq (length done) (length rows)) rows)
  = for_each (fun pair => body (fst pair) (snd pair)) (combine rows rest).
Proof.
  revert done rest. induction rows as [|x rows IH]; intros done [|r rest]; simpl;
    try discriminate; [reflexivity|].
  intros [= Hlen].
  rewrite nth_error_app2, Nat.sub_diag by lia. simpl.
  replace (done ++ r :: rest) with ((done ++ [r]) ++ rest) by now rewrite <- app_assoc.
  replace (S (length done)) with (length (done ++ [r])) by (rewrite length_app; simpl; lia).
  now rewrite (IH (done ++ [r]) rest Hlen).
Qed.

Lemma for_each_Ok_map {A B} (f : A -> res B) (g : A -> B) (l : list A) :
  (forall a, In a l -> f a = Ok (g a)) -> for_each f l = Ok (List.map g l).
Proof.
  induction l as [|a l IH]; simpl; intros Hf; [reflexivity|].
  rewrite (Hf a) by now left. simpl. rewrite IH by (intros; apply Hf; now right).
  reflexivity.
Qed.

Lemma concat_map_filter {A B} (p : A -> bool) (g : A -> list B) (l : list A) :
  concat (List.map (fun a => if negb (p a) then [] else g a) l)
  = flat_map g (List.filter p l).
Proof.
  induction l as [|a l IH]; simpl; [reflexivity|].
  destruct (p a); simpl; now rewrite IH.
Qed.

(** *** Deduplication keeps a row of every key *)

Lemma drop_duplicates_from_represents {A K} `{EqDecision K} (key : A -> K)
    (seen : list K) (l : list A) (x : A) :
  In x l -> key x ∉ seen ->
  exists y, In y (drop_duplicates_from key seen l) /\ key y = key x.
Proof.
  revert seen. induction l as [|z l IH]; intros seen; simpl; [tauto|].
  intros [->|Hx] Hns.
  - rewrite bool_decide_eq_false_2 by assumption. exists x. split; [now left|reflexivity].
  - case_bool_decide as Hz; [now apply IH|].
    destruct (decide (key z = key x)) as [Heq|Hne].
    + exists z. split; [now left|assumption].
    + destruct (IH (key z :: seen) Hx) as (y & Hy & Hk).
      { intros [?|?]%elem_of_cons; [congruence|contradiction]. }
      exists y. split; [now right|assumption].
Qed.

Lemma merge_maker_In (matched_df : list ProcRow) (info : list (cell * cell)) (r : ProcRow) :
  In r matched_df -> exists mk, In (r, mk) (merge_maker matched_df info).
Proof.
  intros Hr. unfold merge_maker.
  destruct (List.filter (fun c => bool_decide (cell_key (fst c) = cell_key (jan (orig r))))
              info) as [|c listed] eqn:Hl.
  - exists CNaN. apply in_flat_map. exists r. split; [assumption|]. rewrite Hl. now left.
  - exists (snd c). apply in_flat_map. exists r. split; [assumption|]. rewrite Hl. now left.
Qed.

Lemma merge_maker_rows (matched_df : list ProcRow) (info : list (cell * cell))
    (row : ProcRow * cell) :
  In row (merge_maker matched_df info) -> In (fst row) matched_df.
Proof.
  unfold merge_maker. intros (r & Hr & Hrow)%in_flat_map.
  destruct (List.filter _ info) as [|c listed].
  - destruct Hrow as [<-|[]]. assumption.
  - apply in_map_iff in Hrow as (c' & <- & _). assumption.
Qed.

Lemma cell_eqb_eq (a b : cell) : cell_eqb a b = true -> a = b.
Proof.
  destruct a as [| |s], b as [| |t]; simpl; try discriminate.
  intros H. apply bool_decide_eq_true in H. congruence.
Qed.

Lemma cell_key_eq_text (a : cell) (s : pystr) : cell_key a = cell_key (CStr s) -> a = CStr s.
Proof. destruct a; simpl; congruence. Qed.

(** *** The entries of one row *)

Section Entries.

Variable fuzz_ratio : pystr -> pystr -> Z.

Lemma sheet_rows_In (new_row0 : Row) (m : Matched) (original : list Row) (e : Entry) :
  In e (sheet_rows fuzz_ratio new_row0 (Some m) original) ->
  new_row e = new_row0 /\ pattern e = found_by m
  /\ exists p, In p (rows m) /\ old_jan e = jan (orig p) /\ old_name e = kana (orig p)
               /\ old_weight e = weight (orig p)
               /\ score e = calculate_similarity fuzz_ratio (kana new_row0) (kana (orig p)).
Proof.
  unfold sheet_rows. destruct (rows m) as [|r0 found] eqn:Hrows; [intros []|]. cbv zeta.
  intros (s & <- & Hs)%in_map_iff. simpl.
  split; [reflexivity|]. split; [reflexivity|].
  apply (Permutation_in _ (sort_desc_perm _)) in Hs.
  apply in_map_iff in Hs as (row & <- & Hrow). simpl.
  exists (fst row). split; [|auto].
  destruct (from_multi m).
  - apply merge_maker_rows in Hrow. now apply drop_duplicates_In in Hrow.
  - apply in_map_iff in Hrow as (r & <- & Hr). simpl. now apply drop_duplicates_In in Hr.
Qed.

Lemma sheet_rows_represent (new_row0 : Row) (m : Matched) (original : list Row)
    (p : ProcRow) (s : pystr) :
  In p (rows m) -> jan (orig p) = CStr s ->
  exists e, In e (sheet_rows fuzz_ratio new_row0 (Some m) original)
            /\ old_jan e = CStr s /\ new_row e = new_row0 /\ pattern e = found_by m.
Proof.
  intros Hp Hs. unfold sheet_rows.
  destruct (rows m) as [|r0 found] eqn:Hrows; [destruct Hp|]. cbv zeta.
  destruct (drop_duplicates_from_represents (fun r => cell_key (jan (orig r))) []
              (r0 :: found) p Hp) as (p' & Hp' & Hkey); [apply not_elem_of_nil|].
  rewrite Hs in Hkey. apply cell_key_eq_text in Hkey.
  fold (drop_duplicates (fun r => cell_key (jan (orig r))) (r0 :: found)) in Hp'.
  assert (Hrow : exists mk,
             In (p', mk)
               (if from_multi m
                then merge_maker (drop_duplicates (fun r => cell_key (jan (orig r)))
                                    (r0 :: found)) (maker_info original)
                else List.map (fun r => (r, CStr (maker_s r)))
                       (drop_duplicates (fun r => cell_key (jan (orig r))) (r0 :: found)))).
  { destruct (from_multi m); [now apply merge_maker_In|].
    exists (CStr (maker_s p')). apply in_map_iff. eauto. }
  destruct Hrow as (mk & Hrow).
  eexists. split.
  - apply in_map_iff. eexists. split; [reflexivity|].
    apply (Permutation_in _ (Permutation_sym (sort_desc_perm _))).
    apply in_map_iff. exists (p', mk). split; [reflexivity|exact Hrow].
  - simpl. auto.
Qed.

End Entries.

(** *** The rows of the report *)

Lemma Forall2_combine_In {A B} (P : A -> B -> Prop) (l1 : list A) (l2 : list B)
    (a : A) (b : B) :
  Forall2 P l1 l2 -> In (a, b) (combine l1 l2) -> P a b.
Proof.
  intros H. induction H as [|x y l1 l2 Hxy H IH]; simpl; [tauto|].
  intros [[= -> ->]|Hin]; auto.
Qed.

Lemma tier_continue_members (float_of_text : pystr -> option float)
    (old_columns : list pystr) (new_row0 : Row)
    (processed : list ProcRow) (m : list ProcRow) (skips : list SkipReason) (pat : Pattern)
    (p : ProcRow) :
  tier_candidates float_of_text old_columns new_row0 processed (set_index brand_s processed)
    (set_index (fun r => (maker_s r, type_s r)) processed) = Ok (Continue m skips pat) ->
  In p m -> In p processed.
Proof.
  intros Ht. pose proof (tier_candidates_Ok _ _ _ _ _ _ _ Ht) as Hcol. revert Ht.
  rewrite (tier_candidates_scan _ _ _ _ Hcol). cbv zeta.
  destruct (truthy (norm_key (brand_code new_row0))).
  - destruct (List.filter _ processed) as [|r0 found] eqn:Hrows; [discriminate|].
    destruct (weight_check _ _ _ _ _) as [[[m' s'] p']|] eqn:Hw; [|discriminate].
    intros [= <- <- <-] Hp. apply weight_check_shape in Hw as (_ & _ & Hsub).
    apply Hsub in Hp. rewrite <- Hrows in Hp. now apply filter_In in Hp as [? _].
  - destruct (_ && _); [|discriminate].
    destruct (List.filter _ processed) as [|r0 found] eqn:Hrows; [discriminate|].
    destruct (weight_check _ _ _ _ _) as [[[m' s'] p']|] eqn:Hw; [|discriminate].
    intros [= <- <- <-] Hp. apply weight_check_shape in Hw as (_ & _ & Hsub).
    apply Hsub in Hp. rewrite <- Hrows in Hp. now apply filter_In in Hp as [? _].
Qed.

Lemma select_best_winner (fuzz_ratio : pystr -> pystr -> Z) (new_name : cell)
    (m : list ProcRow) (skips : list SkipReason) (pat : Pattern) (original : list Row)
    (result : MatchResult) (o : Row) :
  select_best fuzz_ratio new_name m skips pat original = Ok result ->
  mr_old result = Some o ->
  exists p s, In p m /\ jan (orig p) = CStr s /\ jan o = CStr s.
Proof.
  unfold select_best.
  destruct (candidates_of m) as [|c0 cs] eqn:Hcands; [intros [= <-]; discriminate|].
  rewrite <- Hcands.
  destruct (sort_desc _) as [|[bs [bn bj]] rest] eqn:Hsort; [discriminate|].
  destruct (List.find _ original) as [o'|] eqn:Hfind; [|discriminate].
  intros [= <-] [= <-]. apply find_some in Hfind as [_ Heq].
  apply cell_eqb_eq in Heq as Hjan.
  assert (Hin : In (bs, (bn, bj)) (sort_desc (similarities_of fuzz_ratio new_name
                                                 (candidates_of m))))
    by (rewrite Hsort; now left).
  apply (Permutation_in _ (sort_desc_perm _)) in Hin.
  apply in_map_iff in Hin as (c & [= _ ->] & Hc).
  apply candidates_of_In in Hc as (p & Hp & [= -> ->]).
  destruct (jan o') as [| |s] eqn:Ho; try discriminate.
  exists p, s. rewrite <- Hjan. auto.
Qed.

Section Report.

Variable fuzz_ratio : pystr -> pystr -> Z.
Variable float_of_text to_numeric_text : pystr -> option float.
Variable old_columns : list pystr.

Lemma report_row_tier (old_file new_file : list Row) (run : Run)
    (row : Row) (result : MatchResult) :
  process_master_data fuzz_ratio float_of_text to_numeric_text old_columns
    old_file new_file = Ok run ->
  In (row, result) (report run) ->
  let df_old := clean_initial_data (load_data old_file) in
  let df_old_processed := preprocess_old_data to_numeric_text df_old in
  exists m skips pat,
    tier_candidates float_of_text old_columns row df_old_processed
      (set_index brand_s df_old_processed)
      (set_index (fun r => (maker_s r, type_s r)) df_old_processed)
    = Ok (Continue m skips pat)
    /\ select_best fuzz_ratio (kana row) m skips pat df_old = Ok result
    /\ mr_pattern result = Some pat.
Proof.
  intros Hrun Hin. cbv zeta.
  destruct (process_master_data_results _ _ _ _ _ _ _ Hrun) as [Hres Hrep].
  rewrite Hrep in Hin. apply filter_In in Hin as [Hin Hcand]. simpl in Hcand.
  apply for_each_Forall2 in Hres.
  apply (Forall2_combine_In _ _ _ _ _ Hres) in Hin.
  destruct (find_best_match_tier _ _ _ _ _ _ _ _ _ Hin Hcand)
    as (m & skips & pat & Ht & Hsel).
  exists m, skips, pat. split; [assumption|]. split; [assumption|].
  apply select_best_shape in Hsel as [->|(_ & Hpat & _)]; [discriminate|assumption].
Qed.

(** With every label a position of [results], the loop returns: each row
    reads its own result, and the rows with a candidate are those whose
    pattern chain selects what the tier chain handed to the ranking. *)
Lemma sheet_of_report (old_file new_file : list Row) (run : Run) :
  process_master_data fuzz_ratio float_of_text to_numeric_text old_columns
    old_file new_file = Ok run ->
  let df_old := clean_initial_data (load_data old_file) in
  let df_old_processed := preprocess_old_data to_numeric_text df_old in
  let brands := set_index brand_s df_old_processed in
  let multi := set_index (fun r => (maker_s r, type_s r)) df_old_processed in
  let df_new :=
    clean_initial_data_labelled
      (combine (seq 0 (length (load_data new_file))) (load_data new_file)) in
  let frame row :=
    match sheet_frame float_of_text old_columns row brands multi with
    | Ok matched_df => matched_df
    | Raise _ => None
    end in
  (forall labelled, In labelled df_new -> (fst labelled < length (results run))%nat) ->
  create_candidate_sheet_data fuzz_ratio float_of_text old_columns df_new df_old_processed
    df_old (results run) brands multi
  = Ok (flat_map (fun pair => sheet_rows fuzz_ratio (fst pair) (frame (fst pair)) df_old)
          (report run)).
Proof.
  intros Hrun. cbv zeta. intros Hall.
  destruct (process_master_data_results _ _ _ _ _ _ _ Hrun) as [Hres Hrep].
  pose proof (for_each_length _ _ _ Hres) as Hlen.
  apply for_each_Forall2 in Hres.
  set (df_old := clean_initial_data (load_data old_file)) in *.
  set (processed := preprocess_old_data to_numeric_text df_old) in *.
  set (brands := set_index brand_s processed) in *.
  set (multi := set_index (fun r => (maker_s r, type_s r)) processed) in *.
  set (df_new := clean_initial_data (load_data new_file)) in *.
  assert (Hplace : clean_initial_data_labelled
                     (combine (seq 0 (length (load_data new_file))) (load_data new_file))
                   = combine (seq 0 (length df_new)) df_new).
  { apply (masked_in_place has_some_key 0 (load_data new_file)).
    intros l Hl. apply Hall in Hl. fold df_new in Hlen.
    unfold df_new, clean_initial_data in Hlen. unfold has_some_key. simpl. lia. }
  rewrite Hplace. clear Hplace Hall.
  set (frame := fun row : Row =>
                  match sheet_frame float_of_text old_columns row brands multi with
                  | Ok matched_df => matched_df
                  | Raise _ => None
                  end).
  set (part := fun pair : Row * MatchResult =>
                 sheet_rows fuzz_ratio (fst pair) (frame (fst pair)) df_old).
  unfold create_candidate_sheet_data.
  pose proof (for_each_own_result
                (fun row result =>
                   if negb (mr_has_candidate result) then Ok []
                   else matched_df <~ sheet_frame float_of_text old_columns row
                                        brands multi ;;
                        Ok (sheet_rows fuzz_ratio row matched_df df_old))
                df_new [] (results run) Hlen) as Hown.
  cbn [app length] in Hown. rewrite Hown. clear Hown.
  rewrite (for_each_Ok_map _
             (fun pair => if negb (mr_has_candidate (snd pair)) then [] else part pair)).
  - simpl. rewrite Hrep. f_equal. apply concat_map_filter.
  - intros [row result] Hin. simpl.
    destruct (mr_has_candidate result) eqn:Hcand; [|reflexivity]. simpl.
    apply (Forall2_combine_In _ _ _ _ _ Hres) in Hin.
    destruct (find_best_match_tier _ _ _ _ _ _ _ _ _ Hin Hcand)
      as (m & skips & pat & Ht & _).
    unfold part, frame. simpl.
    now rewrite (sheet_frame_of_tier _ _ _ _ _ _ _ _ _ Ht).
Qed.

(** X12. After the primary report is computed, the candidate sheet is
    built with the labels of the new master as positions in [results].
    The labels are those of the file, [results] has one entry per row that
    survived the cleansing: the run ends with an exception exactly when the
    new master holds a row without any of the three keys before a row with
    one; otherwise the sheet is produced. The exception is IndexError when
    no surviving new row has a type code whose text names a column of the
    old frame. *)
Theorem candidate_sheet_index_error (old_file new_file : list Row) (run : Run) :
  process_master_data fuzz_ratio float_of_text to_numeric_text old_columns
    old_file new_file = Ok run ->
  let sheet_run :=
    process_master_data_sheet fuzz_ratio float_of_text to_numeric_text old_columns
      old_file new_file in
  let key_after_none :=
    exists pre r mid r' post,
      load_data new_file = pre ++ r :: mid ++ r' :: post
      /\ has_some_key r = false /\ has_some_key r' = true in
  ((exists e, sheet_run = Raise e) <-> key_after_none)
  /\ ((exists e, sheet_run = Raise e) \/ exists sheet, sheet_run = Ok (run, sheet))
  /\ (Forall (fun r => forall ty, norm_key (type_code r) = Some ty -> ty ∉ old_columns)
         (clean_initial_data (load_data new_file)) ->
      (sheet_run = Raise IndexError <-> key_after_none)).
Proof.
  intros Hrun. cbv zeta.
  destruct (process_master_data_results _ _ _ _ _ _ _ Hrun) as [Hres _].
  apply for_each_length in Hres.
  pose proof (masked_label_beyond has_some_key 0 (load_data new_file)) as Hiff.
  pose proof (masked_length has_some_key 0 (load_data new_file)) as Hlen.
  pose proof (masked_rows has_some_key 0 (load_data new_file)) as Hrows.
  pose proof (sheet_of_report old_file new_file run Hrun) as Hgood.
  cbv zeta in Hgood.
  unfold process_master_data_sheet. rewrite Hrun. cbn [bind].
  set (df_new := clean_initial_data_labelled _) in *.
  change (List.filter (fun labelled : nat * Row => has_some_key (snd labelled))
            (combine (seq 0 (length (load_data new_file))) (load_data new_file)))
    with df_new in Hiff, Hlen, Hrows.
  change (List.filter has_some_key (load_data new_file))
    with (clean_initial_data (load_data new_file)) in Hlen, Hrows.
  rewrite <- Hres in Hlen. rewrite Hlen in Hiff. rewrite <- Hiff. clear Hiff.
  simpl in Hgood.
  destruct (label_cases df_new (length (results run))) as [Hbad|Hall].
  - (* a label is not a position *)
    assert (Hraise : exists e,
               create_candidate_sheet_data fuzz_ratio float_of_text old_columns df_new
                 (preprocess_old_data to_numeric_text (clean_initial_data (load_data old_file)))
                 (clean_initial_data (load_data old_file)) (results run)
                 (set_index brand_s
                    (preprocess_old_data to_numeric_text
                       (clean_initial_data (load_data old_file))))
                 (set_index (fun r => (maker_s r, type_s r))
                    (preprocess_old_data to_numeric_text
                       (clean_initial_data (load_data old_file)))) = Raise e).
    { destruct (create_candidate_sheet_data _ _ _ _ _ _ _ _ _) as [sheet|e] eqn:Hsheet;
        [|eauto].
      destruct Hbad as (l & Hl & Hle).
      apply (create_candidate_sheet_data_labels _ _ _ _ _ _ _ _ _ _ Hsheet) in Hl. lia. }
    split; [|split].
    + destruct Hraise as [e ->]. simpl. split; [intros _; exact Hbad|eauto].
    + destruct Hraise as [e ->]. simpl. eauto.
    + intros Htype. split; [intros _; exact Hbad|intros _].
      match goal with
      | |- context [create_candidate_sheet_data ?a ?b ?c ?d ?e ?f ?g ?h ?i] =>
          destruct (create_candidate_sheet_data_raises a b c d e f g h i)
            as [[Hindex _]|[[sheet Hok] _]]
      end.
      * intros l Hl. apply sheet_frame_total, pair_is_column_no_label.
        rewrite Forall_forall in Htype. apply Htype, list_elem_of_In.
        rewrite <- Hrows. now apply in_map.
      * now rewrite Hindex.
      * destruct Hraise as [e He]. congruence.
  - (* every label is a position *)
    rewrite (Hgood Hall). simpl.
    assert (Hnot : ~ exists labelled, In labelled df_new
                                      /\ (length (results run) <= fst labelled)%nat).
    { intros (l & Hl & Hle). apply Hall in Hl. lia. }
    split; [|split].
    + split; [intros [e He]; discriminate|intros H; destruct (Hnot H)].
    + right. eauto.
    + intros _. split; [discriminate|intros H; destruct (Hnot H)].
Qed.

(** X13. When the sheet is produced, every entry belongs to a row of the
    primary report, carries the pattern of that row, and shows a product of
    the cleansed old master; and the old product chosen for a row of the
    report is on the sheet, among the entries of that row. *)
Theorem candidate_sheet_follows_report (old_file new_file : list Row)
    (run : Run) (sheet : list Entry) :
  process_master_data_sheet fuzz_ratio float_of_text to_numeric_text old_columns
    old_file new_file
  = Ok (run, sheet) ->
  (forall e, In e sheet ->
     (exists result, In (new_row e, result) (report run)
                     /\ mr_pattern result = Some (pattern e))
     /\ exists o, In o (clean_initial_data (load_data old_file))
                  /\ old_jan e = jan o /\ old_name e = kana o /\ old_weight e = weight o)
  /\ (forall row result o,
        In (row, result) (report run) -> mr_old result = Some o ->
        exists e, In e sheet /\ new_row e = row /\ old_jan e = jan o
                  /\ mr_pattern result = Some (pattern e)).
Proof.
  intros H. unfold process_master_data_sheet in H.
  destruct (process_master_data _ _ _ _ _ _) as [run'|] eqn:Hrun; simpl in H; [|discriminate].
  destruct (create_candidate_sheet_data _ _ _ _ _ _ _ _ _) as [sheet'|] eqn:Hsheet;
    simpl in H; [|discriminate].
  injection H as -> ->.
  pose proof (create_candidate_sheet_data_labels _ _ _ _ _ _ _ _ _ _ Hsheet) as Hall.
  pose proof (sheet_of_report old_file new_file run Hrun) as Hgood.
  cbv zeta in Hgood. rewrite (Hgood Hall) in Hsheet. clear Hgood Hall.
  set (df_old := clean_initial_data (load_data old_file)) in *.
  set (processed := preprocess_old_data to_numeric_text df_old) in *.
  set (brands := set_index brand_s processed) in *.
  set (multi := set_index (fun r => (maker_s r, type_s r)) processed) in *.
  set (frame := fun row : Row =>
                  match sheet_frame float_of_text old_columns row brands multi with
                  | Ok matched_df => matched_df
                  | Raise _ => None
                  end) in *.
  set (part := fun pair : Row * MatchResult =>
                 sheet_rows fuzz_ratio (fst pair) (frame (fst pair)) df_old) in *.
  assert (Hsheet' : sheet = flat_map part (report run))
    by (injection Hsheet as Hsheet; symmetry; exact Hsheet).
  clear Hsheet.
  assert (Hpart : forall row result m skips pat,
             tier_candidates float_of_text old_columns row processed brands multi
             = Ok (Continue m skips pat) ->
             part (row, result)
             = sheet_rows fuzz_ratio row
                 (Some (mkMatched m pat (negb (truthy (norm_key (brand_code row))))))
                 df_old).
  { intros row result m skips pat Ht. unfold part, frame. simpl.
    now rewrite (sheet_frame_of_tier _ _ _ _ _ _ _ _ _ Ht). }
  split.
  - intros e He. rewrite Hsheet' in He. apply in_flat_map in He as ([row result] & Hin & He).
    destruct (report_row_tier _ _ _ _ _ Hrun Hin) as (m & skips & pat & Ht & _ & Hpat).
    fold df_old processed brands multi in Ht.
    rewrite (Hpart _ _ _ _ _ Ht) in He.
    apply sheet_rows_In in He as (Hrow & Hp & p & Hpm & Hj & Hn & Hw & _). simpl in *.
    split.
    + exists result. rewrite Hrow, Hp. auto.
    + exists (orig p). rewrite Hj, Hn, Hw. split; [|auto].
      apply (preprocess_old_data_In to_numeric_text).
      now apply (tier_continue_members _ _ _ _ _ _ _ _ Ht).
  - intros row result o Hin Ho.
    destruct (report_row_tier _ _ _ _ _ Hrun Hin) as (m & skips & pat & Ht & Hsel & Hpat).
    fold df_old processed brands multi in Ht. fold df_old in Hsel.
    destruct (select_best_winner _ _ _ _ _ _ _ _ Hsel Ho) as (p & s & Hp & Hj & Hjo).
    destruct (sheet_rows_represent fuzz_ratio row
                (mkMatched m pat (negb (truthy (norm_key (brand_code row))))) df_old p s
                Hp Hj) as (e & He & Hej & Her & Hep).
    exists e. rewrite Hsheet'. split.
    + apply in_flat_map. exists (row, result). split; [assumption|].
      now rewrite (Hpart _ _ _ _ _ Ht).
    + rewrite Hej, Hjo, Hpat, Hep. auto.
Qed.

End Report.

(** A new master whose first row has no key and whose second row is the
    new product of scenario A: the report is computed, the sheet is not. *)
Lemma candidate_sheet_index_error_sample :
  (exists run, Scenario.sample_run Scenario.sample_old [Scenario.new_blank; Scenario.new_a]
               = Ok run /\ List.map fst (report run) = [Scenario.new_a])
  /\ process_master_data_sheet Scenario.sample_ratio Scenario.no_text Scenario.no_text
       Scenario.sample_columns Scenario.sample_old [Scenario.new_blank; Scenario.new_a]
     = Raise IndexError.
Proof.
  split; [eexists; split; vm_compute; reflexivity|].
  eapply (proj2 (proj2 (proj2 (candidate_sheet_index_error Scenario.sample_ratio
                   Scenario.no_text Scenario.no_text Scenario.sample_columns
                   Scenario.sample_old
                   [Scenario.new_blank; Scenario.new_a] _ ltac:(vm_compute; reflexivity)))
            _)).
  exists [], Scenario.new_blank, [], Scenario.new_a, [].
  split; [reflexivity|]. split; reflexivity.
  Unshelve.
  repeat constructor; intros ty [= <-]; refine (bool_decide_eq_false_1 _ _);
    vm_compute; reflexivity.
Defined.

(** With the labels out of place a row is read with the result of the
    next one: a row that ended as a brand mismatch, whose type code is the
    text JANコード_旧, is taken through the pattern chain with the result of
    the matched row after it, and the run ends with KeyError. *)
Lemma candidate_sheet_key_error_sample :
  (exists run,
     Scenario.sample_run Scenario.sample_old
       [Scenario.new_blank; Scenario.new_miss_column_type; Scenario.new_a] = Ok run
     /\ List.map mr_outcome (results run) = [BrandMismatch; HighSimilarity])
  /\ process_master_data_sheet Scenario.sample_ratio Scenario.no_text Scenario.no_text
       Scenario.sample_columns Scenario.sample_old
       [Scenario.new_blank; Scenario.new_miss_column_type; Scenario.new_a]
     = Raise KeyError.
Proof. split; [eexists; split; vm_compute; reflexivity|vm_compute; reflexivity]. Qed.

(** The new product of scenario A followed by a row without keys: the
    sheet is produced and shows the old product chosen for the report. *)
Lemma candidate_sheet_follows_report_sample :
  exists run sheet,
    process_master_data_sheet Scenario.sample_ratio Scenario.no_text Scenario.no_text
      Scenario.sample_columns Scenario.sample_old [Scenario.new_a; Scenario.new_blank]
    = Ok (run, sheet)
    /\ List.map old_jan sheet = [jan Scenario.old_a]
    /\ exists e, In e sheet /\ new_row e = Scenario.new_a
                 /\ old_jan e = jan Scenario.old_a.
Proof.
  eexists. eexists. split; [vm_compute; reflexivity|]. split; [reflexivity|].
  destruct (proj2 (candidate_sheet_follows_report Scenario.sample_ratio Scenario.no_text
                     Scenario.no_text Scenario.sample_columns Scenario.sample_old
                     [Scenario.new_a; Scenario.new_blank] _ _
                     ltac:(vm_compute; reflexivity))
              Scenario.new_a _ Scenario.old_a ltac:(now left) eq_refl)
    as (e & He & Hrow & Hjan & _).
  exists e. auto.
Defined.

End SheetFacts.

(* ===================================================================== *)
(** * Part VI. Column names after normalisation                          *)
(* ===================================================================== *)

Module NormalizerFacts.
Import Normalizer.

Lemma header_rename (mapping : list (pystr * pystr)) (df : Frame) :
  header (rename mapping df) = List.map (renamed mapping) (header df).
Proof. unfold header, rename. simpl. now rewrite !map_map. Qed.

Lemma map_fst_filter (n : pystr) (cs : list (pystr * list cell)) :
  List.map fst (List.filter (fun c => bool_decide (fst c = n)) cs)
  = List.filter (fun c => bool_decide (c = n)) (List.map fst cs).
Proof.
  induction cs as [|c cs IH]; simpl; [reflexivity|].
  destruct (bool_decide (fst c = n)); simpl; now rewrite IH.
Qed.

Lemma header_select (names : list pystr) (df : Frame) :
  header (select names df)
  = flat_map (fun name => List.filter (fun c => bool_decide (c = name)) (header df)) names.
Proof.
  unfold header, select. simpl. induction names as [|n names IH]; simpl; [reflexivity|].
  now rewrite map_app, IH, map_fst_filter.
Qed.

(** The loop over [required_columns] appends the names that are missing,
    in the order of the dict. *)
Lemma header_add_missing (req : list (pystr * cell)) (df : Frame) :
  NoDup (List.map fst req) ->
  header (fold_left (fun d kv => add_missing d (fst kv) (snd kv)) req df)
  = header df
    ++ List.filter (fun c => negb (bool_decide (c ∈ header df))) (List.map fst req).
Proof.
  revert df. induction req as [|[c v] req IH]; intros df Hnd.
  - simpl. now rewrite app_nil_r.
  - apply NoDup_cons in Hnd as [Hc Hnd].
    cbn [fold_left List.map fst snd List.filter]. rewrite (IH _ Hnd). unfold add_missing.
    destruct (bool_decide (c ∈ header df)) eqn:Hin; [reflexivity|].
    apply bool_decide_eq_false in Hin.
    assert (Hh : forall h cols x,
               header {| height := h; columns := cols ++ [(c, x)] |}
               = List.map fst cols ++ [c])
      by (intros; unfold header; simpl; now rewrite map_app).
    rewrite Hh. fold (header df). cbn [negb]. rewrite <- app_assoc. simpl. do 2 f_equal.
    apply filter_ext_in. intros n Hn. f_equal. apply bool_decide_ext.
    rewrite elem_of_app, list_elem_of_singleton. split; [|tauto].
    intros [? | ->]; [assumption|]. exfalso. apply Hc. now apply list_elem_of_In.
Qed.

Lemma height_add_missing (req : list (pystr * cell)) (df : Frame) :
  height (fold_left (fun d kv => add_missing d (fst kv) (snd kv)) req df) = height df.
Proof.
  revert df. induction req as [|[c v] req IH]; intros df; simpl; [reflexivity|].
  rewrite IH. unfold add_missing. now destruct (bool_decide _).
Qed.

Lemma filter_nothing {A} (p : A -> bool) (l : list A) :
  (forall x, In x l -> p x = false) -> List.filter p l = [].
Proof.
  induction l as [|x l IH]; simpl; intros Hp; [reflexivity|].
  rewrite (Hp x) by now left. apply IH. intros y Hy. apply Hp. now right.
Qed.

Lemma filter_eq_repeat (n : pystr) (l : list pystr) :
  List.filter (fun c => bool_decide (c = n)) l
  = repeat n (length (List.filter (fun c => bool_decide (c = n)) l)).
Proof.
  induction l as [|x l IH]; simpl; [reflexivity|].
  case_bool_decide as Hx; simpl; [subst x; now f_equal|assumption].
Qed.

Lemma filter_eq_absent (n : pystr) (l : list pystr) :
  n ∉ l -> List.filter (fun c => bool_decide (c = n)) l = [].
Proof.
  induction l as [|x l IH]; simpl; intros Hn; [reflexivity|].
  rewrite bool_decide_eq_false_2.
  - apply IH. intros ?. apply Hn. now right.
  - intros ->. apply Hn. now left.
Qed.

Lemma filter_eq_once (n : pystr) (l : list pystr) :
  NoDup l -> n ∈ l -> List.filter (fun c => bool_decide (c = n)) l = [n].
Proof.
  induction l as [|x l IH]; simpl; intros Hnd Hn; [now apply elem_of_nil in Hn|].
  apply NoDup_cons in Hnd as [Hx Hnd]. case_bool_decide as Hxn.
  - subst x. now rewrite (filter_eq_absent n l Hx).
  - apply IH; [assumption|]. apply elem_of_cons in Hn as [->|?]; [congruence|assumption].
Qed.

(** The columns of a name in the frame before the selection: those that
    were renamed to it, or the one that was added. *)
Lemma columns_of_name (names unified : list pystr) (n : pystr) :
  NoDup unified -> n ∈ unified ->
  List.filter (fun c => bool_decide (c = n))
    (names ++ List.filter (fun c => negb (bool_decide (c ∈ names))) unified)
  = repeat n (Nat.max 1 (length (List.filter (fun c => bool_decide (c = n)) names))).
Proof.
  intros Hnd Hn. rewrite List.filter_app.
  destruct (decide (n ∈ names)) as [Hin|Hout].
  - rewrite (filter_nothing (fun c => bool_decide (c = n))
               (List.filter (fun c => negb (bool_decide (c ∈ names))) unified)).
    2:{ intros c [_ Hc]%filter_In.
        destruct (decide (c = n)) as [-> |Hne]; [|now apply bool_decide_eq_false_2].
        now rewrite bool_decide_eq_true_2 in Hc. }
    rewrite app_nil_r, (filter_eq_repeat n names) at 1.
    f_equal. destruct (List.filter _ names) eqn:Hf; [|simpl; lia].
    exfalso. apply list_elem_of_In in Hin.
    assert (In n (List.filter (fun c => bool_decide (c = n)) names))
      by (apply filter_In; split; [assumption|now apply bool_decide_eq_true]).
    rewrite Hf in H. destruct H.
  - rewrite (filter_eq_absent n names Hout). simpl.
    assert (Hsame : List.filter (fun c => bool_decide (c = n))
                      (List.filter (fun c => negb (bool_decide (c ∈ names))) unified)
                    = List.filter (fun c => bool_decide (c = n)) unified).
    { induction unified as [|x unified IH]; simpl; [reflexivity|].
      apply NoDup_cons in Hnd as [Hx Hnd]. case_bool_decide as Hxin; simpl.
      - case_bool_decide as Hxn; [subst x; contradiction|].
        apply IH; [assumption|]. apply elem_of_cons in Hn as [->|?]; [congruence|assumption].
      - case_bool_decide as Hxn.
        + subst x. now rewrite !(filter_eq_absent n) by
            (try assumption; intros Hi; apply Hx;
             apply list_elem_of_In, filter_In in Hi as [Hi _]; now apply list_elem_of_In).
        + apply IH; [assumption|].
          apply elem_of_cons in Hn as [->|?]; [congruence|assumption]. }
    rewrite Hsame. now apply filter_eq_once.
Qed.

Lemma flat_map_ext_In {A B} (f g : A -> list B) (l : list A) :
  (forall a, In a l -> f a = g a) -> flat_map f l = flat_map g l.
Proof.
  induction l as [|a l IH]; simpl; intros H; [reflexivity|].
  rewrite (H a) by now left. f_equal. apply IH. intros; apply H; now right.
Qed.

Lemma flat_repeat_length (k : pystr -> nat) (l : list pystr) :
  (forall n, 1 <= k n)%nat ->
  (length l <= length (flat_map (fun n => repeat n (k n)) l))%nat.
Proof.
  intros Hk. induction l as [|a l IH]; simpl; [lia|].
  rewrite length_app, repeat_length. specialize (Hk a). lia.
Qed.

(** Repeating each name [k] times gives the list back exactly when every
    [k] is one. *)
Lemma flat_repeat_id (k : pystr -> nat) (l : list pystr) :
  (forall n, 1 <= k n)%nat ->
  flat_map (fun n => repeat n (k n)) l = l <-> forall n, In n l -> k n = 1%nat.
Proof.
  intros Hk. induction l as [|a l IH]; simpl; [tauto|]. split.
  - intros H.
    assert (Hlen : (length (repeat a (k a) ++ flat_map (fun n => repeat n (k n)) l)
                    = S (length l))%nat) by now rewrite H.
    rewrite length_app, repeat_length in Hlen.
    pose proof (flat_repeat_length k l Hk). pose proof (Hk a).
    assert (Ha : k a = 1%nat) by lia. rewrite Ha in H. simpl in H. injection H as H.
    intros n [<-|Hn]; [assumption|]. now apply IH.
  - intros H. rewrite (H a) by now left. simpl. f_equal. apply IH. auto.
Qed.

Lemma flat_repeat_In (k : pystr -> nat) (l : list pystr) (n : pystr) :
  (forall n, 1 <= k n)%nat ->
  In n (flat_map (fun n => repeat n (k n)) l) <-> In n l.
Proof.
  intros Hk. rewrite in_flat_map. split.
  - intros (a & Ha & Hn). apply repeat_spec in Hn. now subst.
  - intros Hn. exists n. split; [assumption|]. specialize (Hk n).
    destruct (k n); [lia|]. now left.
Qed.

Lemma flat_repeat_count (k : pystr -> nat) (l : list pystr) (n : pystr) :
  NoDup l -> n ∈ l ->
  List.filter (fun c => bool_decide (c = n)) (flat_map (fun n => repeat n (k n)) l)
  = repeat n (k n).
Proof.
  induction l as [|a l IH]; simpl; intros Hnd Hn; [now apply elem_of_nil in Hn|].
  apply NoDup_cons in Hnd as [Ha Hnd]. rewrite List.filter_app.
  assert (Hrep : forall m j, List.filter (fun c => bool_decide (c = n)) (repeat m j)
                             = if bool_decide (m = n) then repeat m j else []).
  { intros m j. induction j as [|j IHj]; simpl; [now destruct (bool_decide _)|].
    rewrite IHj. now destruct (bool_decide (m = n)). }
  rewrite Hrep. case_bool_decide as Han.
  - subst a. rewrite filter_nothing; [apply app_nil_r|].
    intros c (b & Hb & Hc)%in_flat_map. apply repeat_spec in Hc. subst c.
    apply bool_decide_eq_false_2. intros ->. apply Ha. now apply list_elem_of_In.
  - simpl. apply IH; [assumption|].
    apply elem_of_cons in Hn as [-> | ?]; [congruence|assumption].
Qed.

Lemma output_columns_NoDup : NoDup output_columns.
Proof. apply (bool_decide_unpack _). vm_compute. exact I. Qed.

Lemma length_filter_map {A B} (f : A -> B) (p : B -> bool) (l : list A) :
  length (List.filter p (List.map f l)) = length (List.filter (fun a => p (f a)) l).
Proof.
  induction l as [|a l IH]; simpl; [reflexivity|].
  destruct (p (f a)); simpl; now rewrite IH.
Qed.

(** The header after [normalize_columns]: each of the eight names, once
    for every column that was renamed to it, and once when there is none. *)
Lemma normalize_columns_header_shape (today source : pystr) (df : Frame) :
  header (normalize_columns today df source)
  = flat_map (fun n =>
                repeat n (Nat.max 1
                            (length (List.filter
                                       (fun c => bool_decide (renamed column_mapping c = n))
                                       (header df)))))
      output_columns.
Proof.
  unfold normalize_columns. cbv zeta.
  change (List.map fst (required_columns today source)) with output_columns.
  rewrite header_select, header_add_missing
    by (change (List.map fst (required_columns today source)) with output_columns;
        apply output_columns_NoDup).
  change (List.map fst (required_columns today source)) with output_columns.
  rewrite header_rename. apply flat_map_ext_In. intros n Hn.
  rewrite (columns_of_name _ _ n output_columns_NoDup) by now apply list_elem_of_In.
  now rewrite length_filter_map.
Qed.

(** What the shape of such a header gives, for any list of names and any
    count. *)
Lemma header_shape_facts (unified hd : list pystr) (count : pystr -> nat) :
  NoDup unified ->
  hd = flat_map (fun n => repeat n (Nat.max 1 (count n))) unified ->
  (hd = unified <-> forall n, In n unified -> (count n <= 1)%nat)
  /\ (forall n, In n hd <-> In n unified)
  /\ (forall n, In n unified ->
        List.filter (fun c => bool_decide (c = n)) hd = repeat n (Nat.max 1 (count n))).
Proof.
  intros Hnd ->.
  assert (Hk : forall n, (1 <= Nat.max 1 (count n))%nat) by (intros; lia).
  split; [|split].
  - split.
    + intros H n Hn.
      pose proof (proj1 (flat_repeat_id (fun n => Nat.max 1 (count n)) unified Hk) H n Hn)
        as H1.
      cbv beta in H1. lia.
    + intros H. apply (proj2 (flat_repeat_id (fun n => Nat.max 1 (count n)) unified Hk)).
      intros n Hn. specialize (H n Hn). lia.
  - intros n. apply (flat_repeat_In (fun n => Nat.max 1 (count n)) unified n Hk).
  - intros n Hn.
    apply (flat_repeat_count (fun n => Nat.max 1 (count n)) unified n Hnd).
    now apply list_elem_of_In.
Qed.

Lemma height_select (names : list pystr) (df : Frame) :
  height (select names df) = height df.
Proof. reflexivity. Qed.

Lemma height_rename (mapping : list (pystr * pystr)) (df : Frame) :
  height (rename mapping df) = height df.
Proof. reflexivity. Qed.

Lemma normalize_columns_height (today source : pystr) (df : Frame) :
  height (normalize_columns today df source) = height df.
Proof.
  unfold normalize_columns. cbv zeta.
  rewrite height_select, height_add_missing. apply height_rename.
Qed.

(** X14. [normalize_columns] returns a frame of the height of its input
    whose columns carry the eight unified names and no other, in the order
    of the dict; a name stands once for every column of the input that
    [rename] gave it, and once when there is none. So the header is
    exactly the eight names if and only if no two columns of the input
    are renamed to the same unified name. *)
Theorem normalize_columns_header (today source : pystr) (df : Frame) :
  let out := normalize_columns today df source in
  let sources n :=
    List.filter (fun c => bool_decide (renamed column_mapping c = n)) (header df) in
  ((header out = output_columns
    <-> forall n, In n output_columns -> (length (sources n) <= 1)%nat)
   /\ (forall n, In n (header out) <-> In n output_columns)
   /\ (forall n, In n output_columns ->
         List.filter (fun c => bool_decide (c = n)) (header out)
         = repeat n (Nat.max 1 (length (sources n)))))
  /\ height out = height df.
Proof.
  intros out sources. split; [|apply normalize_columns_height].
  apply (header_shape_facts output_columns (header out) (fun n => length (sources n))
           output_columns_NoDup).
  apply normalize_columns_header_shape.
Qed.

(** The report of the matcher has メーカー名称_旧 and メーカー名称_新: its
    normalisation has nine columns, two of them named メーカー名称. *)
Lemma normalize_columns_report_header (today : pystr) :
  header (normalize_columns today report_frame (lit "マッチング"))
  = [ lit "旧JANコード"; lit "旧商品名"; lit "新JANコード"; lit "新商品名";
      lit "メーカー名称"; lit "メーカー名称"; lit "備考"; lit "処理日"; lit "データソース" ].
Proof. rewrite normalize_columns_header_shape. vm_compute. reflexivity. Qed.

End NormalizerFacts.
